(** * Draw-and-guess: canvas history engine and guess orchestrator

  A shallow embedding of the two pieces of the repository that carry
  design content:

  - the undo/redo history kept by [DrawingCanvas.tsx]
    ([saveToHistory], [undo], [redo], [canUndo], [canRedo]);
  - the guess services: the backend [AIService] (file
    [backend/src/middleware/errorHandler.ts], third document) and the
    browser-side [AIService] of [frontend/src/services/aiService.ts].

  Numbers that the code only compares or offsets (indices, lengths,
  millisecond clocks) are integers [Z]; the fractional constants of the
  code (confidences, [Math.random()]) are rationals [Q]. *)

From Stdlib Require Import ZArith QArith Qround Lia Ascii.
From stdpp Require Import base list strings pretty.

Local Open Scope Z_scope.

(** ** JavaScript strings, numbers and timers

  A JavaScript string is kept as its UTF-8 bytes (a [string]), so that the
  literals of the source can be written down as they are. The model
  assumes well-formed text (no lone surrogates): for such text a
  substring test on the UTF-8 bytes and one on the UTF-16 code units
  agree, and [.length] is recovered by [js_length]. *)

Module Js.

Definition byte (n : nat) : Ascii.ascii := Ascii.ascii_of_nat n.
Definition utf8 (bytes : list nat) : string :=
  String.string_of_list_ascii (map byte bytes).

(** [s.length]: the number of UTF-16 code units. A code point takes one
    unit, or two when it lies outside the basic plane (a four-byte UTF-8
    sequence, lead byte 0xF0 and above); continuation bytes
    (0x80..0xBF) add nothing. *)
Definition units (c : Ascii.ascii) : Z :=
  let n := Z.of_nat (Ascii.nat_of_ascii c) in
  if (128 <=? n) && (n <? 192) then 0
  else if 240 <=? n then 2
  else 1.

Fixpoint js_length (s : string) : Z :=
  match s with
  | EmptyString => 0
  | String c rest => units c + js_length rest
  end.

(** [s.startsWith(p)] *)
Definition startsWith (s p : string) : bool := String.prefix p s.

(** [s.includes(sub)] *)
Fixpoint includes (s sub : string) : bool :=
  String.prefix sub s
  || match s with
     | EmptyString => false
     | String _ rest => includes rest sub
     end.

Fixpoint drop_bytes (n : nat) (s : string) : string :=
  match n, s with
  | O, _ => s
  | S _, EmptyString => EmptyString
  | S k, String _ rest => drop_bytes k rest
  end.

Definition rev_string (s : string) : string :=
  String.string_of_list_ascii (rev (String.list_ascii_of_string s)).

(** A value is falsy when it is [undefined] or the empty string. *)
Definition truthy (v : option string) : bool :=
  match v with
  | Some (String _ _) => true
  | _ => false
  end.

(** [v || fallback] on an optional string. *)
Definition or_else (v : option string) (fallback : string) : string :=
  match v with
  | Some (String c rest) => String c rest
  | _ => fallback
  end.

(** ECMAScript WhiteSpace and LineTerminator code points, as UTF-8. *)
Definition whitespace : list string :=
  [ utf8 [9%nat]; utf8 [10%nat]; utf8 [11%nat]; utf8 [12%nat];
    utf8 [13%nat]; utf8 [32%nat];
    utf8 [0xC2; 0xA0]%nat;               (* U+00A0 *)
    utf8 [0xE1; 0x9A; 0x80]%nat;         (* U+1680 *)
    utf8 [0xE2; 0x80; 0x80]%nat; utf8 [0xE2; 0x80; 0x81]%nat;
    utf8 [0xE2; 0x80; 0x82]%nat; utf8 [0xE2; 0x80; 0x83]%nat;
    utf8 [0xE2; 0x80; 0x84]%nat; utf8 [0xE2; 0x80; 0x85]%nat;
    utf8 [0xE2; 0x80; 0x86]%nat; utf8 [0xE2; 0x80; 0x87]%nat;
    utf8 [0xE2; 0x80; 0x88]%nat; utf8 [0xE2; 0x80; 0x89]%nat;
    utf8 [0xE2; 0x80; 0x8A]%nat;         (* U+2000 .. U+200A *)
    utf8 [0xE2; 0x80; 0xA8]%nat; utf8 [0xE2; 0x80; 0xA9]%nat;
    utf8 [0xE2; 0x80; 0xAF]%nat;         (* U+2028, U+2029, U+202F *)
    utf8 [0xE2; 0x81; 0x9F]%nat;         (* U+205F *)
    utf8 [0xE3; 0x80; 0x80]%nat;         (* U+3000 *)
    utf8 [0xEF; 0xBB; 0xBF]%nat ].       (* U+FEFF *)

(** Remove leading occurrences of the given marks; every round removes
    at least one byte, so [String.length s] rounds are enough. *)
Fixpoint strip_leading (marks : list string) (fuel : nat) (s : string)
  : string :=
  match fuel with
  | O => s
  | S fuel' =>
      match List.find (fun m => String.prefix m s) marks with
      | Some m => strip_leading marks fuel' (drop_bytes (String.length m) s)
      | None => s
      end
  end.

Definition trimStart (s : string) : string :=
  strip_leading whitespace (String.length s) s.

Definition trimEnd (s : string) : string :=
  rev_string
    (strip_leading (map rev_string whitespace) (String.length s)
       (rev_string s)).

(** [s.trim()] *)
Definition trim (s : string) : string := trimEnd (trimStart s).

(** What [parseInt] can give back. *)
Inductive Number := NaN | Num (n : Z).

Definition digit_of (radix : Z) (c : Ascii.ascii) : option Z :=
  let n := Z.of_nat (Ascii.nat_of_ascii c) in
  let d := if (48 <=? n) && (n <=? 57) then n - 48
           else if (97 <=? n) && (n <=? 122) then n - 87
           else if (65 <=? n) && (n <=? 90) then n - 55
           else radix in
  if d <? radix then Some d else None.

Fixpoint digits (radix : Z) (s : string) (acc : option Z) : option Z :=
  match s with
  | EmptyString => acc
  | String c rest =>
      match digit_of radix c with
      | Some d => digits radix rest (Some (radix * default 0 acc + d))
      | None => acc
      end
  end.

(** [parseInt(s)] without a radix argument: leading white space, a sign,
    a [0x] prefix for base sixteen, then the longest run of digits. *)
Definition parseInt (s : string) : Number :=
  let s0 := trimStart s in
  let '(sign, s1) := match s0 with
                     | String "-"%char rest => (-1, rest)
                     | String "+"%char rest => (1, rest)
                     | _ => (1, s0)
                     end in
  let '(radix, s2) := if String.prefix "0x" s1 || String.prefix "0X" s1
                      then (16, drop_bytes 2 s1)
                      else (10, s1) in
  match digits radix s2 None with
  | Some n => Num (sign * n)
  | None => NaN
  end.

(** Delay used by Node's [setTimeout]: anything that is not a number in
    1..2^31-1 becomes 1 ms. *)
Definition node_delay (d : Number) : Z :=
  match d with
  | Num n => if (1 <=? n) && (n <=? 2147483647) then n else 1
  | NaN => 1
  end.

(** Delay used by a browser's [setTimeout]: the argument is converted to
    a 32-bit signed integer ([undefined] gives 0) and a negative delay
    counts as 0. *)
Definition toInt32 (n : Z) : Z :=
  let m := n mod 4294967296 in
  if 2147483648 <=? m then m - 4294967296 else m.

Definition browser_delay (d : option Z) : Z :=
  match d with
  | Some n => Z.max 0 (toInt32 n)
  | None => 0
  end.

(** [Math.floor(r * n)] *)
Definition floor_scaled (r : Q) (n : Z) : Z := Qfloor (r * inject_Z n).

(** [arr[i]] for an integer index: [undefined] outside the array. *)
Definition at_index {A} (l : list A) (i : Z) : option A :=
  if i <? 0 then None else l !! Z.to_nat i.

(** [pool[Math.floor(r * pool.length)]]. For a draw [0 <= r < 1] the
    index lies inside the pool; outside of that range JavaScript reads
    [undefined], written here as the empty string. *)
Definition pick (pool : list string) (r : Q) : string :=
  default "" (at_index pool (floor_scaled r (Z.of_nat (length pool)))).

(** *** Effects

    An [async] function is its synchronous part, run in the monad [M],
    and the promise it hands back. What a call can observe and change: the wall clock read by
    [Date.now()], the console, the requests handed to the network, the
    stream of [Math.random()] draws, and the promises that a timer is
    going to reject. *)

Inductive Thrown :=
| ErrorObj (message : string)   (* [instanceof Error] *)
| NonError.                     (* any other thrown value *)

Inductive LogEntry :=
| Log (text : string)
| Warn (text : string)
| Err (text : string) (cause : Thrown).

(** A promise made by
    [new Promise((_, reject) => setTimeout(() => reject(e), delay))]:
    the instant its timer is due, what it rejects with, and whether a
    reaction has been attached to it by then. *)
Record Timer := mkTimer {
  due : Z;
  rejection : Thrown;
  handled : bool
}.

Record World := mkWorld {
  now : Z;
  console : list LogEntry;
  sent : list string;
  entropy : nat -> Q;
  draws : nat;
  timers : list Timer
}.

(** How a call ends: with a value, with an exception, or never. *)
Inductive Outcome (A : Type) :=
| Value (a : A)
| Throws (e : Thrown)
| Hangs.
Arguments Value {A} a.
Arguments Throws {A} e.
Arguments Hangs {A}.

Definition M (A : Type) : Type := World -> Outcome A * World.

Definition ret {A} (a : A) : M A := fun w => (Value a, w).

Definition bind {A B} (m : M A) (k : A -> M B) : M B := fun w =>
  match m w with
  | (Value a, w') => k a w'
  | (Throws e, w') => (Throws e, w')
  | (Hangs, w') => (Hangs, w')
  end.

Definition throw {A} (e : Thrown) : M A := fun w => (Throws e, w).

(** [try { body } catch (e) { handler(e) }] *)
Definition try_catch {A} (body : M A) (handler : Thrown -> M A) : M A :=
  fun w =>
    match body w with
    | (Throws e, w') => handler e w'
    | other => other
    end.

(** The changes a call can make to the world. *)
Definition logged (entries : list LogEntry) (w : World) : World :=
  {| now := now w; console := console w ++ entries; sent := sent w;
     entropy := entropy w; draws := draws w; timers := timers w |}.

Definition posted (payload : string) (w : World) : World :=
  {| now := now w; console := console w; sent := sent w ++ [payload];
     entropy := entropy w; draws := draws w; timers := timers w |}.

Definition later (ms : Z) (w : World) : World :=
  {| now := now w + ms; console := console w; sent := sent w;
     entropy := entropy w; draws := draws w; timers := timers w |}.

Definition drawn (w : World) : World :=
  {| now := now w; console := console w; sent := sent w;
     entropy := entropy w; draws := S (draws w); timers := timers w |}.

Definition armed (delay : Z) (e : Thrown) (w : World) : World :=
  {| now := now w; console := console w; sent := sent w;
     entropy := entropy w; draws := draws w;
     timers := timers w ++ [ {| due := now w + delay; rejection := e;
                                handled := false |} ] |}.

Definition subscribed (id : nat) (w : World) : World :=
  {| now := now w; console := console w; sent := sent w;
     entropy := entropy w; draws := draws w;
     timers := alter (fun t => {| due := due t; rejection := rejection t;
                                  handled := true |}) id (timers w) |}.

(** Every [Math.random()] of this run lies in [0, 1). *)
Definition draws_in_unit (w : World) : Prop :=
  forall n, (0 <= entropy w n)%Q /\ (entropy w n < 1)%Q.

(** A fresh process at clock [t] whose draws are all [r]. *)
Definition boot (t : Z) (r : Q) : World :=
  {| now := t; console := []; sent := []; entropy := fun _ => r;
     draws := 0; timers := [] |}.

(** The promises that reject with no reaction attached. When the timer
    of one is due, Node raises [unhandledRejection]; the server installs
    listeners for [SIGTERM] and [SIGINT] only, so Node (from version 15,
    with its default [--unhandled-rejections=throw]) ends the process
    with exit code 1 at that instant. *)
Definition unhandled (w : World) : list Timer :=
  List.filter (fun t => negb (handled t)) (timers w).

(** The instant at which the process ends that way, if it does. *)
Definition exitsAt (w : World) : option Z :=
  match unhandled w with
  | [] => None
  | t :: ts => Some (fold_right Z.min (due t) (due <$> ts))
  end.

Definition Date_now : M Z := fun w => (Value (now w), w).

Definition Math_random : M Q := fun w =>
  (Value (entropy w (draws w)), drawn w).

Definition say_all (entries : list LogEntry) : M unit := fun w =>
  (Value tt, logged entries w).

Definition say (entry : LogEntry) : M unit := say_all [entry].

Definition console_log (text : string) : M unit := say (Log text).
Definition console_warn (text : string) : M unit := say (Warn text).
Definition console_error (text : string) (cause : Thrown) : M unit :=
  say (Err text cause).

(** Hand a request to the network. *)
Definition transmit (payload : string) : M unit := fun w =>
  (Value tt, posted payload w).

(** Time passing while the call is suspended. *)
Definition elapse (ms : Z) : M unit := fun w => (Value tt, later ms w).

(** [new Promise((_, reject) => setTimeout(() => reject(e), delay))];
    the result names the promise. *)
Definition rejectAfter (delay : Z) (e : Thrown) : M nat := fun w =>
  (Value (length (timers w)), armed delay e w).

(** A reaction is attached to the promise [id], as [Promise.race] does
    for each of its arguments. *)
Definition subscribe (id : nat) : M unit := fun w =>
  (Value tt, subscribed id w).

(** A pending asynchronous result: [after] milliseconds from now the
    suspended code [resume] runs and gives the result, or nothing ever
    happens. *)
Inductive Promise (A : Type) :=
| Settles (after : N) (resume : M A)
| Never.
Arguments Settles {A} after resume.
Arguments Never {A}.

(** [await Promise.race([p, timer])], where [timer] was armed for
    [delay] ms at the same instant and, when it fires, does what
    [onTimeout] says. The promise wins when it settles strictly before
    the timer is due; at a tie the timer callback, queued first, runs
    first. *)
Definition race {A} (p : Promise A) (delay : Z) (onTimeout : M A) : M A :=
  match p with
  | Settles after resume =>
      if Z.of_N after <? delay
      then bind (elapse (Z.of_N after)) (fun _ => resume)
      else bind (elapse delay) (fun _ => onTimeout)
  | Never => bind (elapse delay) (fun _ => onTimeout)
  end.

End Js.

#[global] Instance M_ret : MRet Js.M := @Js.ret.
#[global] Instance M_bind : MBind Js.M := fun A B k m => Js.bind m k.

(** ** Backend guess service ([class AIService], backend) *)

Module Backend.
Import Js.

(** [interface AIGuessResponse] *)
Record AIGuessResponse := mkAIGuessResponse {
  guess : string;
  confidence : Q;
  processingTime : Q;
  suggestions : option (list string);
  success : bool;
  error : option string
}.

(** The variables of [process.env] that [guessImage] reads. *)
Record Env := mkEnv {
  OPENAI_API_KEY : option string;
  AI_TIMEOUT : option string
}.

(** [openai] tells whether the client object exists. *)
Record AIService := mkAIService {
  openai : bool;
  isInitialized : bool
}.

Definition initialize (env : Env) (svc : AIService) : AIService :=
  if truthy (OPENAI_API_KEY env)
  then {| openai := true; isInitialized := true |}
  else {| openai := openai svc; isInitialized := false |}.

Definition new_AIService (env : Env) : AIService :=
  initialize env {| openai := false; isInitialized := false |}.

Definition setApiKey (apiKey : string) (env : Env) (svc : AIService)
  : Env * AIService :=
  let env' := {| OPENAI_API_KEY := Some apiKey;
                 AI_TIMEOUT := AI_TIMEOUT env |} in
  (env', initialize env' svc).

(** What [openai.chat.completions.create] does for this request: it
    answers with [choices[0]?.message?.content], it rejects, or it stays
    silent. *)
Inductive Remote :=
| Responds (after : N) (content : option string)
| Fails (after : N) (e : Thrown)
| Silent.

Definition largeImageGuesses : list string :=
  [ "一幅复杂的画作"; "一张风景照片"; "一个详细的图案"; "一幅抽象艺术" ].

Definition smallImageGuesses : list string :=
  [ "一个简单的图标"; "一个小图案"; "一个符号"; "一个标记" ].

Definition defaultGuesses : list string :=
  [ "一只猫"; "一朵花"; "一座山"; "一辆汽车"; "一只鸟"; "一棵树";
    "一轮月亮"; "一栋房子"; "一个苹果"; "一只狗"; "一个人物"; "一个动物" ].

Definition smartSuggestions : list string :=
  [ "物体识别"; "图案分析"; "形状特征"; "颜色构成" ].

Definition guessPool (imageData : string) : list string :=
  let imageSize := js_length imageData in
  if 100000 <? imageSize then largeImageGuesses
  else if imageSize <? 10000 then smallImageGuesses
  else defaultGuesses.

(** [getIntelligentMockResponse(imageData, reason?)] *)
Definition getIntelligentMockResponse
    (imageData : string) (reason : option string) : M AIGuessResponse :=
  console_log ("🎭 使用智能分析响应: " +:+ or_else reason "基于图像特征分析");;
  let hasBase64Prefix := startsWith imageData "data:image/" in
  r ← Math_random;
  let intelligentGuess := pick (guessPool imageData) r in
  let confidence := if hasBase64Prefix then 0.7%Q else 0.6%Q in
  jitter ← Math_random;
  mret {| guess := intelligentGuess;
          confidence := confidence;
          processingTime := (500 + jitter * 1000)%Q;
          success := true;
          suggestions := Some smartSuggestions;
          error := None |}.

(** [generateSmartSuggestions(guess)] *)
Definition generateSmartSuggestions (guess : string) : list string :=
  let s0 : list string := [] in
  let s1 := if includes guess "猫" || includes guess "狗"
               || includes guess "鸟"
            then s0 ++ [ "动物"; "宠物"; "哺乳动物" ] else s0 in
  let s2 := if includes guess "花" || includes guess "树"
               || includes guess "山"
            then s1 ++ [ "自然"; "植物"; "风景" ] else s1 in
  let s3 := if includes guess "车" || includes guess "房子"
            then s2 ++ [ "物品"; "交通工具"; "建筑" ] else s2 in
  let s4 := if includes guess "人"
            then s3 ++ [ "人物"; "人脸"; "肖像" ] else s3 in
  let s5 := if Z.of_nat (length s4) =? 0
            then s4 ++ [ "物体"; "图案"; "形状" ] else s4 in
  take 4 s5.

(** [imageBase64.replace(/^data:image\/(png|jpg|jpeg);base64,/, '')] *)
Definition stripDataUri (imageBase64 : string) : string :=
  match List.find (fun p => String.prefix p imageBase64)
          [ "data:image/png;base64,"; "data:image/jpg;base64,";
            "data:image/jpeg;base64," ] with
  | Some p => drop_bytes (String.length p) imageBase64
  | None => imageBase64
  end.

(** What [callOpenAI] resolves with. *)
Record Recognition := mkRecognition {
  r_guess : string;
  r_confidence : Q;
  r_suggestions : list string
}.

(** The band chosen from [guess.length]. *)
Definition estimate (len : Z) : Q :=
  if 20 <? len then 0.9%Q
  else if len <? 5 then 0.7%Q
  else 0.8%Q.

(** The [try] branch after the completion has arrived. *)
Definition recognise (content : option string) : Recognition :=
  let guess := or_else (trim <$> content) "无法识别图片内容" in
  {| r_guess := guess;
     r_confidence := estimate (js_length guess);
     r_suggestions := generateSmartSuggestions guess |}.

(** The [catch] branch of [callOpenAI]: what is thrown onwards. *)
Definition rethrown (e : Thrown) : Thrown :=
  match e with
  | ErrorObj message =>
      if includes message "401" then ErrorObj "API认证失败，请检查API密钥"
      else if includes message "429"
      then ErrorObj "API调用频率限制，请稍后重试"
      else if includes message "quota" then ErrorObj "API配额不足"
      else e
  | NonError => e
  end.

(** [callOpenAI(imageBase64)]: the synchronous part hands the request to
    the client; the result is the promise of the recognition. *)
Definition callOpenAI (svc : AIService) (remote : Remote)
    (imageBase64 : string) : M (Promise Recognition) :=
  if openai svc
  then
    let base64Data := stripDataUri imageBase64 in
    transmit ("data:image/jpeg;base64," +:+ base64Data);;
    mret (match remote with
          | Responds after content =>
              Settles after (mret (recognise content))
          | Fails after e =>
              Settles after
                (console_error "OpenAI API调用失败:" e;;
                 throw (rethrown e))
          | Silent => Never
          end)
  else mret (Settles 0 (throw (ErrorObj "OpenAI客户端未初始化"))).

(** [process.env.AI_TIMEOUT ? parseInt(process.env.AI_TIMEOUT) : 60000] *)
Definition timeout (env : Env) : Number :=
  if truthy (AI_TIMEOUT env)
  then parseInt (default "" (AI_TIMEOUT env))
  else Num 60000.

(** The console line the [catch] block of [guessImage] adds for the
    kinds of error it tells apart. *)
Definition explanation (e : Thrown) : list LogEntry :=
  match e with
  | ErrorObj message =>
      if includes message "超时"
      then [ Log "🔄 AI API 超时，自动使用智能分析响应" ]
      else if includes message "认证失败"
      then [ Log "🔑 API 认证失败，检查 API 密钥配置" ]
      else if includes message "频率限制"
      then [ Log "⏱️ API 频率限制，请稍后重试" ]
      else []
  | NonError => []
  end.

(** [error instanceof Error ? error.message : '未知错误'] *)
Definition reason_of (e : Thrown) : string :=
  match e with
  | ErrorObj message => message
  | NonError => "未知错误"
  end.

(** [async guessImage(imageBase64)]. The timeout promise is made before
    the [try], so its timer runs on every path; only the path that
    reaches [Promise.race] attaches a reaction to it. The early return
    for a missing key leaves it with none. *)
Definition guessImage (svc : AIService) (env : Env) (remote : Remote)
    (imageBase64 : string) : M AIGuessResponse :=
  startTime ← Date_now;
  let delay := node_delay (timeout env) in
  timeoutPromise ← rejectAfter delay (ErrorObj "AI识别超时");
  try_catch
    (if negb (truthy (OPENAI_API_KEY env))
     then
       console_warn "OpenAI API Key未配置，使用智能分析响应";;
       getIntelligentMockResponse imageBase64 None
     else
       apiPromise ← callOpenAI svc remote imageBase64;
       subscribe timeoutPromise;;
       result ← race apiPromise delay (throw (ErrorObj "AI识别超时"));
       finished ← Date_now;
       mret {| guess := r_guess result;
               confidence := r_confidence result;
               suggestions := Some (r_suggestions result);
               processingTime := inject_Z (finished - startTime);
               success := true;
               error := None |})
    (fun e =>
       console_error "AI识别错误:" e;;
       say_all (explanation e);;
       intelligentResponse ←
         getIntelligentMockResponse imageBase64 (Some (reason_of e));
       finished ← Date_now;
       mret {| guess := guess intelligentResponse;
               confidence := confidence intelligentResponse;
               suggestions := suggestions intelligentResponse;
               processingTime := inject_Z (finished - startTime);
               success := true;
               error := error intelligentResponse |}).

End Backend.

(** ** Browser-side guess service ([class AIService], frontend) *)

Module Frontend.
Import Js.

(** [interface AIConfig]; a missing field is [None]. *)
Record AIConfig := mkAIConfig {
  apiUrl : string;
  timeout : option Z;
  model : option string
}.

Record AIService := mkAIService {
  config : AIConfig;
  isOnlineMode : bool
}.

(** [constructor(config)]: [{ timeout: 30000, model: ..., ...config }] *)
Definition new_AIService (cfg : AIConfig) : AIService :=
  {| config := {| apiUrl := apiUrl cfg;
                  timeout := Some (default 30000 (timeout cfg));
                  model := Some (default "gpt-4-vision-preview"
                                   (model cfg)) |};
     isOnlineMode := false |}.

Definition setOnlineMode (online : bool) (svc : AIService) : AIService :=
  {| config := config svc; isOnlineMode := online |}.

(** [interface AIServiceResponse], the [data] field of the reply. *)
Record AIServiceResponse := mkAIServiceResponse {
  sr_guess : string;
  sr_confidence : Q;
  sr_suggestions : option (list string);
  sr_processingTime : Q
}.

(** The body of the reply as [response.json()] delivers it. *)
Inductive Body :=
| Json (b_success : bool) (b_data : option AIServiceResponse)
       (b_error : option string)
| Malformed (e : Thrown)      (* [json()] rejects *)
| Stalled.                    (* the body never arrives *)

(** What [fetch] does for this request. *)
Inductive Fetch :=
| Arrives (after : N) (ok : bool) (status : Z) (statusText : string)
          (body : Body)
| Breaks (after : N) (e : Thrown)
| Unanswered.

(** The rejection of an aborted [fetch]: a [DOMException] named
    [AbortError], whose message the code never reads. *)
Definition AbortError : Thrown := ErrorObj "AbortError".

(** [imageData.split(',')[1] || imageData] *)
Fixpoint until_comma (s : string) : string :=
  match s with
  | EmptyString => EmptyString
  | String c rest =>
      if Ascii.eqb c ","%char then EmptyString
      else String c (until_comma rest)
  end.

Fixpoint after_comma (s : string) : option string :=
  match s with
  | EmptyString => None
  | String c rest =>
      if Ascii.eqb c ","%char then Some (until_comma rest)
      else after_comma rest
  end.

Definition payload (imageData : string) : string :=
  or_else (after_comma imageData) imageData.

Definition mockResponses : list (string * Q * list string) :=
  [ ("一只可爱的猫咪", 0.92%Q, [ "猫"; "宠物"; "小猫" ]);
    ("美丽的日落风景", 0.88%Q, [ "日落"; "风景"; "夕阳" ]);
    ("一辆红色汽车", 0.85%Q, [ "汽车"; "车辆"; "红色" ]);
    ("绿色的树木", 0.90%Q, [ "树"; "植物"; "自然" ]);
    ("蓝色的大海", 0.87%Q, [ "海"; "水"; "蓝色" ]);
    ("黄色的太阳", 0.94%Q, [ "太阳"; "阳光"; "黄色" ]);
    ("一座山", 0.89%Q, [ "山"; "山峰"; "自然" ]);
    ("一朵花", 0.91%Q, [ "花"; "植物"; "美丽" ]);
    ("一只狗", 0.93%Q, [ "狗"; "宠物"; "动物" ]);
    ("房子", 0.86%Q, [ "建筑"; "房屋"; "家" ]) ].

(** [interface AIGuessResponse], shared with the backend. *)
Definition AIGuessResponse := Backend.AIGuessResponse.

(** [getMockResponse(imageData)]: wait 1000 + random * 2000 ms (a timer
    delay keeps its integer part), then pick one of the ten replies. An
    index outside the table reads [undefined], whose [.guess] throws a
    [TypeError]. *)
Definition getMockResponse (imageData : string) : M AIGuessResponse :=
  wait ← Math_random;
  elapse (browser_delay (Some (Qfloor (1000 + wait * 2000))));;
  r ← Math_random;
  match at_index mockResponses
          (floor_scaled r (Z.of_nat (length mockResponses))) with
  | None => throw (ErrorObj "TypeError")
  | Some (g, c, sugg) =>
      jitter ← Math_random;
      mret {| Backend.guess := g;
              Backend.confidence := c;
              Backend.suggestions := Some sugg;
              Backend.processingTime := (1500 + jitter * 1000)%Q;
              Backend.success := true;
              Backend.error := None |}
  end.

(** [callAIApi(imageData, mimeType)]. The abort timer armed before
    [fetch] races the arrival of the response headers; [clearTimeout]
    disarms it once they are in, before the body is read. *)
Definition callAIApi (svc : AIService) (net : Fetch)
    (imageData mimeType : string) : M (option AIServiceResponse) :=
  let base64Data := payload imageData in
  let delay := browser_delay (timeout (config svc)) in
  transmit base64Data;;
  response ←
    race (match net with
          | Arrives after ok status statusText body =>
              Settles after (mret (ok, status, statusText, body))
          | Breaks after e => Settles after (throw e)
          | Unanswered => Never
          end)
      delay (throw AbortError);
  let '(ok, status, statusText, body) := response in
  if negb ok
  then throw (ErrorObj ("API请求失败: " +:+ pretty status +:+ " "
                          +:+ statusText))
  else
    match body with
    | Stalled => fun w => (Hangs, w)
    | Malformed e => throw e
    | Json b_success b_data b_error =>
        if negb b_success
        then throw (ErrorObj (or_else b_error "AI识别失败"))
        else mret b_data
    end.

(** [async guessImage(imageData, mimeType)] *)
Definition guessImage (svc : AIService) (net : Fetch)
    (imageData mimeType : string) : M AIGuessResponse :=
  startTime ← Date_now;
  if negb (isOnlineMode svc)
  then getMockResponse imageData
  else
    try_catch
      (response ← callAIApi svc net imageData mimeType;
       match response with
       | None => throw (ErrorObj "TypeError")
       | Some data =>
           finished ← Date_now;
           mret {| Backend.guess := sr_guess data;
                   Backend.confidence := sr_confidence data;
                   Backend.suggestions :=
                     Some (default [] (sr_suggestions data));
                   Backend.processingTime :=
                     inject_Z (finished - startTime);
                   Backend.success := true;
                   Backend.error := None |}
       end)
      (fun e =>
         console_error "AI识别错误:" e;;
         getMockResponse imageData).

(** The error [e] that reaches the [catch] block of [guessImage], and the
    time [elapsed] until then, for each way the request can fail before a
    usable reply is in hand. *)
Definition fails_with (svc : AIService) (net : Fetch)
    (e : Thrown) (elapsed : Z) : Prop :=
  let delay := browser_delay (timeout (config svc)) in
  match net with
  | Unanswered => e = AbortError /\ elapsed = delay
  | Breaks after cause =>
      if Z.of_N after <? delay
      then e = cause /\ elapsed = Z.of_N after
      else e = AbortError /\ elapsed = delay
  | Arrives after ok status statusText body =>
      if Z.of_N after <? delay
      then elapsed = Z.of_N after
           /\ (if ok
               then match body with
                    | Json true (Some _) _ => False
                    | Json true None _ => e = ErrorObj "TypeError"
                    | Json false _ b_error =>
                        e = ErrorObj (or_else b_error "AI识别失败")
                    | Malformed cause => e = cause
                    | Stalled => False
                    end
               else e = ErrorObj ("API请求失败: " +:+ pretty status +:+ " "
                                    +:+ statusText))
      else e = AbortError /\ elapsed = delay
  end.

End Frontend.

(** ** Canvas history engine ([DrawingCanvas.tsx]) *)

Module Canvas.

Section History.

(** The pixel buffer returned by [ctx.getImageData]; the engine never
    looks inside it. *)
Context {ImageData : Type}.

(** [interface DrawingHistory { imageData; timestamp }] *)
Record DrawingHistory := mkDrawingHistory {
  imageData : ImageData;
  timestamp : Z
}.

(** The part of the component state the history code reads and writes:
    the drawing surface behind [canvasRef] ([None] when
    [canvasRef.current] or its 2d context is null), and the two
    [useState] cells [history] and [historyIndex]. *)
Record CanvasState := mkCanvasState {
  surface : option ImageData;
  history : list DrawingHistory;
  historyIndex : Z
}.

(** [useState<DrawingHistory[]>([])], [useState(-1)], canvas mounted and
    painted white by the initialising effect. *)
Definition mounted (blank : ImageData) : CanvasState :=
  {| surface := Some blank; history := []; historyIndex := -1 |}.

(** [Array.prototype.slice(0, e)]: a negative [e] counts from the end,
    and the result is clamped to the array. *)
Definition slice0 {A} (l : list A) (e : Z) : list A :=
  let len := Z.of_nat (length l) in
  let k := if e <? 0 then Z.max (len + e) 0 else Z.min e len in
  take (Z.to_nat k) l.

(** [Array.prototype.shift()], the array that is left. *)
Definition shift {A} (l : list A) : list A := drop 1 l.

(** [saveToHistory], called at [Date.now() = now]. *)
Definition saveToHistory (now : Z) (st : CanvasState) : CanvasState :=
  match surface st with
  | None => st
  | Some pixels =>
      let newHistory :=
        slice0 (history st) (historyIndex st + 1)
          ++ [ {| imageData := pixels; timestamp := now |} ] in
      if 50 <? Z.of_nat (length newHistory)
      then {| surface := surface st;
              history := shift newHistory;
              historyIndex := historyIndex st |}
      else {| surface := surface st;
              history := newHistory;
              historyIndex := Z.of_nat (length newHistory) - 1 |}
  end.

(** [ctx.putImageData(history[i].imageData, 0, 0)] after
    [setHistoryIndex(i)]. Reading [.imageData] of a missing entry throws
    before the surface is touched, while the index update is already
    queued. *)
Definition moveTo (i : Z) (st : CanvasState) : CanvasState :=
  {| surface := match Js.at_index (history st) i with
                | Some h => Some (imageData h)
                | None => surface st
                end;
     history := history st;
     historyIndex := i |}.

Definition undo (st : CanvasState) : CanvasState :=
  if 0 <? historyIndex st
  then match surface st with
       | None => st
       | Some _ => moveTo (historyIndex st - 1) st
       end
  else st.

Definition redo (st : CanvasState) : CanvasState :=
  if historyIndex st <? Z.of_nat (length (history st)) - 1
  then match surface st with
       | None => st
       | Some _ => moveTo (historyIndex st + 1) st
       end
  else st.

(** The predicates handed to the parent by [useImperativeHandle]. *)
Definition canUndo (st : CanvasState) : bool := 0 <? historyIndex st.
Definition canRedo (st : CanvasState) : bool :=
  historyIndex st <? Z.of_nat (length (history st)) - 1.
Definition hasContent (st : CanvasState) : bool :=
  0 <? Z.of_nat (length (history st)).
Definition getHistoryCount (st : CanvasState) : Z := historyIndex st + 1.

(** [history[historyIndex]], the entry the shape preview restores. *)
Definition current (st : CanvasState) : option DrawingHistory :=
  Js.at_index (history st) (historyIndex st).

(** A finished stroke leaves [pixels] on the surface. *)
Definition paint (pixels : ImageData) (st : CanvasState) : CanvasState :=
  match surface st with
  | None => st
  | Some _ => {| surface := Some pixels;
                 history := history st;
                 historyIndex := historyIndex st |}
  end.

(** One stroke: the surface ends up holding [imageData snap] and
    [stopDrawing] calls [saveToHistory] at time [timestamp snap]. *)
Definition commit (snap : DrawingHistory) (st : CanvasState) : CanvasState :=
  saveToHistory (timestamp snap) (paint (imageData snap) st).

(** [clearCanvas]: repaint white, then [saveToHistory]. *)
Definition clearCanvas (blank : ImageData) (now : Z) (st : CanvasState)
  : CanvasState :=
  saveToHistory now (paint blank st).

Definition commits (snaps : list DrawingHistory) (st : CanvasState)
  : CanvasState :=
  foldl (fun acc snap => commit snap acc) st snaps.

(** The states of a mounted canvas: strokes, undo, redo and clearing, in
    any order. *)
Inductive reachable (blank : ImageData) : CanvasState -> Prop :=
| reach_mounted : reachable blank (mounted blank)
| reach_commit st snap :
    reachable blank st -> reachable blank (commit snap st)
| reach_undo st : reachable blank st -> reachable blank (undo st)
| reach_redo st : reachable blank st -> reachable blank (redo st)
| reach_clear st t :
    reachable blank st -> reachable blank (clearCanvas blank t st).

(** Shape of every state the operations can reach from [mounted]. *)
Definition wf (st : CanvasState) : Prop :=
  (history st = [] /\ historyIndex st = -1)
  \/ (0 <= historyIndex st < Z.of_nat (length (history st))
      /\ Z.of_nat (length (history st)) <= 50).

End History.

Arguments DrawingHistory : clear implicits.
Arguments CanvasState : clear implicits.

(** Numbered strokes on a canvas whose pixels are a single number, for
    running the engine on concrete input. *)
Definition stroke (i : nat) : DrawingHistory nat :=
  {| imageData := i; timestamp := Z.of_nat i |}.

Definition strokes (from count : nat) : list (DrawingHistory nat) :=
  stroke <$> seq from count.

End Canvas.

(** ** Waiting without a timer *)

Module JsMore.
Import Js.

(** [await p] with no timer armed: the call resumes when the promise
    settles and never otherwise. *)
Definition await {A} (p : Promise A) : M A :=
  match p with
  | Settles after resume => bind (elapse (Z.of_N after)) (fun _ => resume)
  | Never => fun w => (Hangs, w)
  end.

End JsMore.

(** ** Backend guess service: models and health *)

Module BackendOps.
Import Js Backend.

(** [getAvailableModels()] *)
Definition getAvailableModels (svc : AIService) : list string :=
  if negb (isInitialized svc)
  then [ "mock-ai-service" ]
  else [ "gpt-4-vision-preview"; "gpt-4-vision-latest"; "gpt-4o";
         "gpt-4o-mini" ].

(** What [openai.models.list()] does: it answers with a reply whose
    [data] array has [count] entries ([None]: no such array), it rejects,
    or it stays silent. *)
Inductive ModelList :=
| Listed (after : N) (count : option nat)
| ListFails (after : N) (e : Thrown)
| ListSilent.

(** [async checkServiceHealth()]. No timer is armed here. The request is
    recorded by its path. *)
Definition checkServiceHealth (svc : AIService) (remote : ModelList)
  : M bool :=
  if negb (isInitialized svc) || negb (openai svc)
  then mret false
  else
    try_catch
      (transmit "/models";;
       count ← JsMore.await
                 (match remote with
                  | Listed after count => Settles after (mret count)
                  | ListFails after e => Settles after (throw e)
                  | ListSilent => Never
                  end);
       match count with
       | Some n => mret (0 <? Z.of_nat n)
       | None => throw (ErrorObj "TypeError")
       end)
      (fun e =>
         console_error "AI服务健康检查失败:" e;;
         mret false).

(** The environment and service pairs that arise from constructing the
    service and calling [setApiKey]. *)
Inductive configured : Env -> AIService -> Prop :=
| configured_new env : configured env (new_AIService env)
| configured_setApiKey apiKey env svc :
    configured env svc ->
    configured (setApiKey apiKey env svc).1 (setApiKey apiKey env svc).2.

End BackendOps.

(** ** JSON values, as request and reply bodies carry them *)

Module Json.

#[local] Set Warnings "-register-all".

Inductive value :=
| Null
| Bool (b : bool)
| Num (n : Q)
| Str (s : string)
| Arr (items : list value)
| Obj (fields : list (string * value)).

(** Truthiness of a property that may be missing ([undefined]). *)
Definition truthy (v : option value) : bool :=
  match v with
  | None | Some Null => false
  | Some (Bool b) => b
  | Some (Num n) => negb (Qeq_bool n 0)
  | Some (Str s) => Js.truthy (Some s)
  | Some (Arr _) | Some (Obj _) => true
  end.

(** [obj[key]] for an own property; [JSON.parse] keeps the last of
    repeated keys. *)
Definition get (key : string) (fields : list (string * value))
  : option value :=
  snd <$> List.find (fun kv => String.eqb kv.1 key) (rev fields).

(** The property names every plain object inherits. *)
Definition inherited : list string :=
  [ "constructor"; "__defineGetter__"; "__defineSetter__"; "hasOwnProperty";
    "__lookupGetter__"; "__lookupSetter__"; "isPrototypeOf";
    "propertyIsEnumerable"; "toString"; "valueOf"; "__proto__";
    "toLocaleString" ].

(** [key in obj] *)
Definition has (key : string) (fields : list (string * value)) : bool :=
  existsb (fun kv => String.eqb kv.1 key) fields
  || existsb (String.eqb key) inherited.

End Json.

(** ** Error middleware ([errorHandler], [createError], [notFoundHandler]) *)

Module ErrorHandler.
Import Js.

(** [interface ApiError extends Error] *)
Record ApiError := mkApiError {
  name : string;
  message : string;
  statusCode : option Z;
  code : option string;
  details : option Json.value
}.

(** The status and JSON body written to the response. *)
Record Reply := mkReply {
  status : Z;
  success : bool;
  r_code : string;
  r_message : string;
  r_details : option Json.value
}.

(** [process.env.NODE_ENV === 'development'] *)
Definition development (NODE_ENV : option string) : bool :=
  match NODE_ENV with
  | Some v => String.eqb v "development"
  | None => false
  end.

(** [errorHandler(error, req, res, next)]. Of the object written to the
    console only the error is kept. *)
Definition errorHandler (NODE_ENV : option string) (error : ApiError)
  : M Reply :=
  console_error "🚨 服务器错误:" (ErrorObj (message error));;
  match statusCode error with
  | Some sc =>
      mret {| status := if sc =? 0 then 500 else sc;
              success := false;
              r_code := or_else (code error) "API_ERROR";
              r_message := message error;
              r_details := details error |}
  | None =>
      if includes (message error) "OpenAI"
      then mret {| status := 503;
                   success := false;
                   r_code := "AI_SERVICE_ERROR";
                   r_message := "AI服务暂时不可用";
                   r_details := if development NODE_ENV
                                then Some (Json.Str (message error))
                                else None |}
      else if String.eqb (name error) "TypeError"
      then mret {| status := 500;
                   success := false;
                   r_code := "TYPE_ERROR";
                   r_message := "数据类型错误";
                   r_details := if development NODE_ENV
                                then Some (Json.Str (message error))
                                else None |}
      else mret {| status := 500;
                   success := false;
                   r_code := "INTERNAL_SERVER_ERROR";
                   r_message := "服务器内部错误";
                   r_details := Some (Json.Str
                                  (if development NODE_ENV
                                   then message error
                                   else "请稍后重试或联系管理员")) |}
  end.

(** [createError(message, statusCode = 500, code?, details?)] *)
Definition createError (message : string) (statusCode : option Z)
    (code : option string) (details : option Json.value) : ApiError :=
  {| name := "Error";
     message := message;
     statusCode := Some (default 500 statusCode);
     code := code;
     details := details |}.

(** [notFoundHandler]: the error handed to [next]. *)
Definition notFoundHandler (originalUrl : string) : ApiError :=
  createError ("路由 " +:+ originalUrl +:+ " 未找到") (Some 404)
    (Some "NOT_FOUND") None.

End ErrorHandler.

(** ** Request validation ([validateRequest], [validateImageData],
       [validateFeedback]) *)

Module Validation.
Import Js.

(** The part of a schema that [validateRequest] looks at: whether
    [schema.body.properties] is there, and [schema.body.required]. *)
Record BodySchema := mkBodySchema {
  properties : bool;
  required : option (list string)
}.

Record Schema := mkSchema { body : option BodySchema }.

(** What a middleware does with the request: pass it on, answer it, or
    throw a [TypeError]. *)
Inductive Verdict :=
| Next
| Reject (status : Z) (code message : string)
         (missingFields : option (list string))
| ThrowsTypeError.

(** [validateRequest(schema)] applied to a request body. *)
Definition validateRequest (schema : Schema)
    (reqBody : list (string * Json.value)) : Verdict :=
  match body schema with
  | Some b =>
      if properties b
      then
        let requiredFields := default [] (required b) in
        let missingFields :=
          List.filter (fun field => negb (Json.has field reqBody))
            requiredFields in
        if 0 <? Z.of_nat (length missingFields)
        then Reject 400 "VALIDATION_ERROR" "缺少必需字段" (Some missingFields)
        else Next
      else Next
  | None => Next
  end.

(** [validateImageData] *)
Definition validateImageData (reqBody : list (string * Json.value))
  : Verdict :=
  let image := Json.get "image" reqBody in
  if negb (Json.truthy image)
  then Reject 400 "MISSING_IMAGE" "图像数据不能为空" None
  else
    match image with
    | Some (Json.Str s) =>
        if negb (startsWith s "data:image/")
        then Reject 400 "INVALID_IMAGE_FORMAT"
               "图像格式不正确，必须为base64编码的图像数据" None
        else
          match Frontend.after_comma s with
          | None => ThrowsTypeError
          | Some base64Data =>
              let imageSizeInBytes :=
                (inject_Z (js_length base64Data * 3) / 4)%Q in
              let maxSizeInBytes := inject_Z (10 * 1024 * 1024) in
              if Qle_bool imageSizeInBytes maxSizeInBytes
              then Next
              else Reject 413 "IMAGE_TOO_LARGE"
                     "图像文件过大，最大支持10MB" None
          end
    | _ => ThrowsTypeError
    end.

(** [validateFeedback] *)
Definition validateFeedback (reqBody : list (string * Json.value))
  : Verdict :=
  match Json.get "isCorrect" reqBody with
  | Some (Json.Bool isCorrect) =>
      match Json.get "guess" reqBody with
      | Some (Json.Str guess) =>
          if js_length (trim guess) =? 0
          then Reject 400 "VALIDATION_ERROR" "guess字段必须为非空字符串" None
          else
            match isCorrect, Json.get "actualAnswer" reqBody with
            | false, Some (Json.Str _) | true, _ => Next
            | false, _ =>
                Reject 400 "VALIDATION_ERROR"
                  "当AI猜测错误时，actualAnswer字段不能为空" None
            end
      | _ => Reject 400 "VALIDATION_ERROR" "guess字段必须为非空字符串" None
      end
  | _ => Reject 400 "VALIDATION_ERROR" "isCorrect字段必须为布尔值" None
  end.

End Validation.

(** ** In-memory response cache ([SimpleCache], [cacheMiddleware]) *)

From stdpp Require Import gmap.

Local Open Scope Z_scope.

Module Cache.

(** [interface CacheEntry] *)
Record CacheEntry := mkCacheEntry {
  data : Json.value;
  timestamp : Z;
  expiry : Z
}.

(** [private cache = new Map<string, CacheEntry>()] *)
Abbreviation store := (gmap string CacheEntry).

Definition defaultTTL : Z := 5 * 60 * 1000.

(** [set(key, data, ttl = this.defaultTTL)], called at [Date.now() = now]. *)
Definition set (key : string) (d : Json.value) (ttl : option Z) (now : Z)
    (c : store) : store :=
  <[ key := {| data := d;
               timestamp := now;
               expiry := now + default defaultTTL ttl |} ]> c.

(** [get(key)]: the data, or [null], and the cache afterwards. *)
Definition get (key : string) (now : Z) (c : store)
  : option Json.value * store :=
  match c !! key with
  | None => (None, c)
  | Some entry =>
      if expiry entry <? now
      then (None, delete key c)
      else (Some (data entry), c)
  end.

(** [cleanup()], called at [Date.now() = now]. *)
Definition cleanup (now : Z) (c : store) : store :=
  filter (fun kv : string * CacheEntry => ¬ (expiry kv.2 < now)) c.

(** The request as the middleware reads it. *)
Record Request := mkRequest {
  method : string;
  originalUrl : string
}.

(** What the handlers behind the middleware do with the response: call
    [res.json(data)] with the status they have set, or answer some other
    way. *)
Inductive Handling :=
| SendsJson (statusCode : Z) (d : Json.value)
| SendsOtherwise.

(** What leaves the server: a JSON answer with its status, body and
    [X-Cache] header (if set), or whatever else the handlers did. *)
Inductive Served :=
| Answer (status : Z) (body : Json.value) (xCache : option string)
| Otherwise.

(** [cacheMiddleware(ttl)] on a request that arrives at [now] and whose
    handlers, if they are run, answer at [finished]. A response that
    nobody gave a status has status 200. *)
Definition cacheMiddleware (ttl : option Z) (req : Request)
    (downstream : Handling) (now finished : Z) (c : store)
  : Served * store :=
  if negb (String.eqb (method req) "GET")
  then (match downstream with
        | SendsJson statusCode d => Answer statusCode d None
        | SendsOtherwise => Otherwise
        end, c)
  else
    let key := method req +:+ "-" +:+ originalUrl req in
    let '(cachedData, c1) := get key now c in
    let miss :=
      match downstream with
      | SendsJson statusCode d =>
          if statusCode =? 200
          then (Answer statusCode d (Some "MISS"),
                set key d (Some (default defaultTTL ttl)) finished c1)
          else (Answer statusCode d None, c1)
      | SendsOtherwise => (Otherwise, c1)
      end in
    match cachedData with
    | Some d =>
        if Json.truthy (Some d)
        then (Answer 200 d (Some "HIT"), c1)
        else miss
    | None => miss
    end.

End Cache.

(** ** The guess route ([POST /api/ai-guess]) and what the browser sends *)

Module Routes.
Import Js.

(** The schema handed to [validateRequest] by [POST /ai-guess]. *)
Definition guessSchema : Validation.Schema :=
  {| Validation.body :=
       Some {| Validation.properties := true;
               Validation.required := Some [ "image" ] |} |}.

(** The schema handed to [validateRequest] by [POST /ai-feedback]. *)
Definition feedbackSchema : Validation.Schema :=
  {| Validation.body :=
       Some {| Validation.properties := true;
               Validation.required :=
                 Some [ "guessId"; "isCorrect"; "timestamp" ] |} |}.

(** What [POST /ai-guess] answers: [{ success: true, data, timestamp }]
    with status 200, or [{ success: false, error }] with an error status.
    [timestamp] is the instant that [toISOString()] prints. The service is
    declared for string images; a truthy [image] of another JSON type is
    outside the embedding. *)
Inductive GuessReply :=
| GuessOk (data : Backend.AIGuessResponse) (timestamp : Z)
| GuessError (status : Z) (code message : string)
             (missingFields : option (list string))
| NotAString.

(** The handler of [POST /ai-guess] behind its [validateRequest]. *)
Definition postAiGuess (svc : Backend.AIService) (env : Backend.Env)
    (remote : Backend.Remote) (reqBody : list (string * Json.value))
  : M GuessReply :=
  match Validation.validateRequest guessSchema reqBody with
  | Validation.Reject status code message missingFields =>
      mret (GuessError status code message missingFields)
  | _ =>
      try_catch
        (let image := Json.get "image" reqBody in
         if negb (Json.truthy image)
         then mret (GuessError 400 "MISSING_IMAGE" "图像数据不能为空" None)
         else
           match image with
           | Some (Json.Str s) =>
               result ← Backend.guessImage svc env remote s;
               t ← Date_now;
               mret (GuessOk result t)
           | _ => mret NotAString
           end)
        (fun e =>
           console_error "AI识别错误:" e;;
           mret (GuessError 500 "AI_SERVICE_ERROR"
                   "AI服务暂时不可用，请稍后重试" None))
  end.

(** The answer of [GET /ai-supported-models]. *)
Definition supportedModelsReply : Json.value :=
  Json.Obj
    [ ("success", Json.Bool true);
      ("data",
       Json.Obj
         [ ("models",
            Json.Arr
              [ Json.Obj
                  [ ("id", Json.Str "gpt-4-vision-preview");
                    ("name", Json.Str "GPT-4 Vision");
                    ("description", Json.Str "OpenAI最新的视觉识别模型");
                    ("capabilities",
                     Json.Arr [ Json.Str "图像识别"; Json.Str "物体检测";
                                Json.Str "场景理解" ]) ];
                Json.Obj
                  [ ("id", Json.Str "gpt-4-vision-latest");
                    ("name", Json.Str "GPT-4 Vision Latest");
                    ("description", Json.Str "最新的GPT-4 Vision版本");
                    ("capabilities",
                     Json.Arr [ Json.Str "高级视觉理解"; Json.Str "精确识别";
                                Json.Str "详细描述" ]) ] ]) ]) ].

(** The body [callAIApi] posts: [JSON.stringify({ image: base64Data })]. *)
Definition guessBody (imageData : string) : list (string * Json.value) :=
  [ ("image", Json.Str (Frontend.payload imageData)) ].

(** The body [submitFeedback] posts; [JSON.stringify] leaves out a
    [feedback] that is [undefined]. *)
Definition feedbackBody (guessId : string) (isCorrect : bool)
    (feedback : option string) (now : Z) : list (string * Json.value) :=
  [ ("guessId", Json.Str guessId); ("isCorrect", Json.Bool isCorrect) ]
  ++ match feedback with
     | Some f => [ ("feedback", Json.Str f) ]
     | None => []
     end
  ++ [ ("timestamp", Json.Num (inject_Z now)) ].

(** How the browser's [fetch] sees a reply of [POST /ai-guess] that
    arrives after [after] ms: the JSON body is parsed back into the
    fields [callAIApi] reads. [statusText] is the reason phrase of the
    status line. *)
Definition as_fetch (after : N) (statusText : string) (reply : GuessReply)
  : Frontend.Fetch :=
  match reply with
  | GuessOk data _ =>
      Frontend.Arrives after true 200 statusText
        (Frontend.Json true
           (Some {| Frontend.sr_guess := Backend.guess data;
                    Frontend.sr_confidence := Backend.confidence data;
                    Frontend.sr_suggestions := Backend.suggestions data;
                    Frontend.sr_processingTime :=
                      Backend.processingTime data |})
           None)
  | GuessError status _ _ _ =>
      Frontend.Arrives after false status statusText
        (Frontend.Json false None (Some "[object Object]"))
  | NotAString => Frontend.Unanswered
  end.

End Routes.

(** ** Browser-side guess service: health, models, feedback *)

Module FrontendOps.
Import Js Frontend.

(** What [fetch] does for a request: a response with its [ok] flag and
    parsed body ([None] when [json()] rejects), a failure, or nothing. *)
Inductive Net :=
| NetArrives (after : N) (ok : bool) (json : option Json.value)
| NetBreaks (after : N) (e : Thrown)
| NetUnanswered.

(** [async checkHealth()] *)
Definition checkHealth (svc : AIService) (net : Net) : M bool :=
  if negb (isOnlineMode svc)
  then mret false
  else
    try_catch
      (transmit (apiUrl (config svc) +:+ "/api/health");;
       race (match net with
             | NetArrives after ok _ => Settles after (mret ok)
             | NetBreaks after e => Settles after (throw e)
             | NetUnanswered => Never
             end)
         (browser_delay (timeout (config svc))) (throw AbortError))
      (fun e =>
         console_warn "AI服务健康检查失败:";;
         mret false).

(** [async getSupportedModels()]; the result is whatever [data.models]
    holds, so it is kept as a JSON value. *)
Definition getSupportedModels (svc : AIService) (net : Net)
  : M Json.value :=
  if negb (isOnlineMode svc)
  then mret (Json.Arr [ Json.Str "mock-gpt-4-vision";
                        Json.Str "mock-gpt-3.5-vision" ])
  else
    found ←
      try_catch
        (transmit (apiUrl (config svc) +:+ "/api/ai-supported-models");;
         response ← JsMore.await
                      (match net with
                       | NetArrives after ok json =>
                           Settles after (mret (ok, json))
                       | NetBreaks after e => Settles after (throw e)
                       | NetUnanswered => Never
                       end : Promise (bool * option Json.value));
         let '(ok, json) := response in
         if (ok : bool)
         then
           match json with
           | None => throw (ErrorObj "SyntaxError")
           | Some Json.Null => throw (ErrorObj "TypeError")
           | Some (Json.Obj fields) =>
               let models := Json.get "models" fields in
               mret (Some (if Json.truthy models
                           then default (Json.Arr []) models
                           else Json.Arr []))
           | Some _ => mret (Some (Json.Arr []))
           end
         else mret None)
        (fun e =>
           console_warn "获取模型列表失败:";;
           mret None);
    mret (default (Json.Arr [ Json.Str "mock-gpt-4-vision" ]) found).

(** [async submitFeedback(guessId, isCorrect, feedback?)]; the request is
    recorded by its address. *)
Definition submitFeedback (svc : AIService) (net : Net)
    (guessId : string) (isCorrect : bool) (feedback : option string)
  : M bool :=
  if negb (isOnlineMode svc)
  then
    console_log "离线模式：反馈";;
    mret true
  else
    try_catch
      (transmit (apiUrl (config svc) +:+ "/api/ai-feedback");;
       JsMore.await
         (match net with
          | NetArrives after ok _ => Settles after (mret ok)
          | NetBreaks after e => Settles after (throw e)
          | NetUnanswered => Never
          end))
      (fun e =>
         console_error "提交反馈失败:" e;;
         mret false).

End FrontendOps.

(** ** The hook [useAI] and the mode button of [GamePage] *)

Module Hook.
Import Js.

(** The fields of [AIState] the mode handling touches, next to the
    service instance shared by all callers. *)
Record Mode := mkMode {
  service : Frontend.AIService;
  isOnline : bool
}.

(** [setOfflineMode(offline)] *)
Definition setOfflineMode (offline : bool) (m : Mode) : Mode :=
  {| service := Frontend.setOnlineMode (negb offline) (service m);
     isOnline := negb offline |}.

(** The button of [GamePage]: [onClick={() => setOfflineMode(!isOnline)}] *)
Definition clickModeButton (m : Mode) : Mode :=
  setOfflineMode (negb (isOnline m)) m.

(** [checkHealth] of the hook: ask the service and show its answer. *)
Definition checkHealth (net : FrontendOps.Net) (m : Mode) : M Mode :=
  try_catch
    (isHealthy ← FrontendOps.checkHealth (service m) net;
     mret {| service := service m; isOnline := isHealthy |})
    (fun e =>
       console_error "AI服务健康检查失败:" e;;
       mret {| service := service m; isOnline := false |}).

(** What can happen to the mode: a click, or a health check with what
    the network does for it. *)
Inductive Event :=
| Click
| Check (net : FrontendOps.Net).

Definition step (ev : Event) (m : Mode) : M Mode :=
  match ev with
  | Click => mret (clickModeButton m)
  | Check net => checkHealth net m
  end.

Fixpoint run (events : list Event) (m : Mode) : M Mode :=
  match events with
  | [] => mret m
  | ev :: rest => m' ← step ev m; run rest m'
  end.

End Hook.

(** * Properties *)

(** ** Canvas history *)

Module CanvasFacts.
Import Canvas.

Section Facts.

Context {ImageData : Type}.
Abbreviation Snapshot := (DrawingHistory ImageData).
Abbreviation State := (CanvasState ImageData).
Implicit Types (st : State) (snap : Snapshot).

Lemma slice0_take {A} (l : list A) (e : Z) :
  0 <= e -> slice0 l e = take (Z.to_nat e) l.
Proof.
  intros He. unfold slice0.
  destruct (Z.ltb_spec e 0) as [?|_]; [lia|].
  destruct (Z.le_gt_cases e (Z.of_nat (length l))) as [Hle|Hgt].
  - by rewrite Z.min_l.
  - rewrite Z.min_r by lia. rewrite Nat2Z.id.
    rewrite !take_ge; [done | lia | lia].
Qed.

Lemma at_index_last {A} (l : list A) (x : A) :
  Js.at_index (l ++ [x]) (Z.of_nat (length l)) = Some x.
Proof.
  unfold Js.at_index.
  destruct (Z.ltb_spec (Z.of_nat (length l)) 0) as [?|_]; [lia|].
  rewrite Nat2Z.id. by rewrite list_lookup_middle.
Qed.

Lemma snapshot_eta snap :
  {| imageData := imageData snap; timestamp := timestamp snap |} = snap.
Proof. by destruct snap. Qed.

(** What one stroke does to a well-formed state with a canvas. *)
Lemma commit_unfold st snap pixels :
  surface st = Some pixels ->
  -1 <= historyIndex st ->
  let kept := take (Z.to_nat (historyIndex st + 1)) (history st) in
  commit snap st =
    if 50 <? Z.of_nat (length (kept ++ [snap]))
    then {| surface := Some (imageData snap);
            history := shift (kept ++ [snap]);
            historyIndex := historyIndex st |}
    else {| surface := Some (imageData snap);
            history := kept ++ [snap];
            historyIndex := Z.of_nat (length (kept ++ [snap])) - 1 |}.
Proof.
  intros Hs Hi kept. unfold commit, paint, saveToHistory. rewrite Hs. simpl.
  rewrite snapshot_eta, slice0_take by lia. done.
Qed.

Lemma wf_mounted (blank : ImageData) : wf (mounted blank).
Proof. left. done. Qed.

Lemma wf_index_bounds st :
  wf st -> -1 <= historyIndex st < Z.of_nat (length (history st))
           /\ Z.of_nat (length (history st)) <= 50.
Proof.
  intros [[Hh Hi]|[Hi Hl]]; [rewrite Hh, Hi; simpl; lia | lia].
Qed.

Lemma length_kept st :
  wf st ->
  length (take (Z.to_nat (historyIndex st + 1)) (history st))
  = Z.to_nat (historyIndex st + 1).
Proof.
  intros [Hi Hl]%wf_index_bounds. rewrite length_take. lia.
Qed.

Lemma wf_paint st pixels : wf st -> wf (paint pixels st).
Proof. unfold paint. by destruct (surface st). Qed.

Lemma wf_saveToHistory st (t : Z) : wf st -> wf (saveToHistory t st).
Proof.
  intros Hwf. pose proof (wf_index_bounds st Hwf) as [Hi Hl].
  pose proof (length_kept st Hwf) as Hk.
  unfold saveToHistory. destruct (surface st) as [pixels|]; [|done].
  rewrite slice0_take by lia.
  set (kept := take _ _) in *.
  destruct (Z.ltb_spec 50 (Z.of_nat (length (kept ++ [ {| imageData := pixels; timestamp := t |} ]))))
    as [Hfull|Hroom];
    rewrite length_app in *; simpl in *; right; simpl.
  - unfold shift. rewrite length_drop, length_app. simpl. lia.
  - rewrite length_app. simpl. lia.
Qed.

Lemma wf_commit st snap : wf st -> wf (commit snap st).
Proof. intros. by apply wf_saveToHistory, wf_paint. Qed.

Lemma wf_moveTo st (i : Z) :
  0 <= i < Z.of_nat (length (history st)) ->
  Z.of_nat (length (history st)) <= 50 -> wf (moveTo i st).
Proof. intros. right. simpl. lia. Qed.

Lemma wf_undo st : wf st -> wf (undo st).
Proof.
  intros Hwf. pose proof (wf_index_bounds st Hwf) as [Hi Hl].
  unfold undo. destruct (Z.ltb_spec 0 (historyIndex st)); [|done].
  destruct (surface st); [|done]. apply wf_moveTo; lia.
Qed.

Lemma wf_redo st : wf st -> wf (redo st).
Proof.
  intros Hwf. pose proof (wf_index_bounds st Hwf) as [Hi Hl].
  unfold redo.
  destruct (Z.ltb_spec (historyIndex st) (Z.of_nat (length (history st)) - 1));
    [|done].
  destruct (surface st); [|done]. apply wf_moveTo; lia.
Qed.

Lemma surface_commit st snap :
  is_Some (surface st) -> surface (commit snap st) = Some (imageData snap).
Proof.
  intros [pixels Hs]. unfold commit, paint, saveToHistory. rewrite Hs. simpl.
  by case_match.
Qed.

Lemma wf_commits snaps st : wf st -> wf (commits snaps st).
Proof.
  revert st. induction snaps as [|snap snaps IH]; intros st Hwf; [done|].
  simpl. by apply IH, wf_commit.
Qed.

Lemma surface_commits snaps st :
  is_Some (surface st) -> is_Some (surface (commits snaps st)).
Proof.
  revert st. induction snaps as [|snap snaps IH]; intros st Hs; [done|].
  simpl. apply IH. rewrite surface_commit by done. by eexists.
Qed.

Lemma commits_snoc snaps snap st :
  commits (snaps ++ [snap]) st = commit snap (commits snaps st).
Proof. unfold commits. by rewrite foldl_app. Qed.

(** After a stroke the cursor is on the new entry, the tail beyond the
    old cursor is gone and the capacity holds. *)
Lemma commit_spec st snap :
  wf st -> is_Some (surface st) ->
  let st' := commit snap st in
  current st' = Some snap
  /\ Z.of_nat (length (history st')) <= 50
  /\ historyIndex st' = Z.of_nat (length (history st')) - 1
  /\ (historyIndex st < 49 ->
      history st' = take (Z.to_nat (historyIndex st + 1)) (history st) ++ [snap])
  /\ (historyIndex st = 49 ->
      history st' = drop 1 (history st) ++ [snap]).
Proof.
  intros Hwf [pixels Hs] st'.
  pose proof (wf_index_bounds st Hwf) as [Hi Hl].
  pose proof (length_kept st Hwf) as Hk.
  subst st'. rewrite (commit_unfold st snap pixels) by (done || lia).
  set (kept := take _ _) in *.
  rewrite length_app, Hk. simpl.
  destruct (Z.ltb_spec 50 (Z.of_nat (Z.to_nat (historyIndex st + 1) + 1)))
    as [Hfull|Hroom]; unfold current; simpl.
  - assert (Hidx : historyIndex st = 49) by lia.
    assert (Hkept : kept = history st).
    { subst kept. apply take_ge. lia. }
    unfold shift. rewrite Hkept.
    assert (Hne : (0 < length (history st))%nat) by lia.
    rewrite drop_app_le by lia.
    rewrite length_app, length_drop. simpl.
    repeat split; try lia.
    replace (historyIndex st) with (Z.of_nat (length (drop 1 (history st))))
      by (rewrite length_drop; lia).
    apply at_index_last.
  - rewrite length_app, Hk. simpl.
    repeat split; try lia.
    replace (Z.of_nat (Z.to_nat (historyIndex st + 1) + 1) - 1)
      with (Z.of_nat (length kept)) by lia.
    apply at_index_last.
Qed.

Lemma surface_mounted (blank : ImageData) : is_Some (surface (mounted blank)).
Proof. by eexists. Qed.

Lemma commits_within_capacity (blank : ImageData) (snaps : list Snapshot) :
  (length snaps <= 50)%nat ->
  history (commits snaps (mounted blank)) = snaps
  /\ historyIndex (commits snaps (mounted blank)) = Z.of_nat (length snaps) - 1.
Proof.
  induction snaps as [|snap snaps IH] using rev_ind; intros Hlen; [done|].
  rewrite length_app in Hlen. simpl in Hlen.
  destruct IH as [Hh Hi]; [lia|].
  rewrite commits_snoc.
  destruct (commit_spec (commits snaps (mounted blank)) snap
              (wf_commits _ _ (wf_mounted blank))
              (surface_commits _ _ (surface_mounted blank)))
    as (_ & _ & Hidx & Hroom & _).
  rewrite Hidx, Hroom by lia.
  rewrite Hh, Hi.
  replace (Z.to_nat (Z.of_nat (length snaps) - 1 + 1)) with (length snaps)
    by lia.
  by rewrite firstn_all.
Qed.

(** C3. Whatever strokes are committed into an empty history, it never
    holds more than 50 entries and [history[historyIndex]] is the
    snapshot just committed. Committing 51 snapshots, the first one
    different from the others, leaves exactly the last 50: the first is
    gone and the cursor is at 49. *)
Theorem commit_keeps_capacity
    (blank : ImageData) (snaps : list Snapshot) (snap : Snapshot)
    (first : Snapshot) (rest : list Snapshot) :
  length rest = 50%nat ->
  first ∉ rest ->
  (length (history (commits snaps (mounted blank))) <= 50)%nat
  /\ current (commits (snaps ++ [snap]) (mounted blank)) = Some snap
  /\ (let st := commits (first :: rest) (mounted blank) in
      length (history st) = 50%nat
      /\ history st = rest
      /\ (first ∉ history st)
      /\ historyIndex st = 49).
Proof.
  intros Hlen Hfresh. split; [|split].
  - pose proof (wf_commits snaps _ (wf_mounted blank)) as Hwf.
    apply wf_index_bounds in Hwf. lia.
  - rewrite commits_snoc. apply commit_spec.
    + apply wf_commits, wf_mounted.
    + apply surface_commits. by eexists.
  - destruct rest as [|r rest'] using rev_ind; [done|]. clear IHrest'.
    rewrite length_app in Hlen. simpl in Hlen.
    rewrite app_comm_cons, commits_snoc.
    destruct (commits_within_capacity blank (first :: rest')) as [Hh Hi];
      [simpl; lia|].
    destruct (commit_spec (commits (first :: rest') (mounted blank)) r
                (wf_commits _ _ (wf_mounted blank))
                (surface_commits _ _ (surface_mounted blank)))
      as (_ & _ & Hidx & _ & Hfull).
    cbn [length] in Hi.
    assert (Hhist : history (commit r (commits (first :: rest') (mounted blank)))
                    = rest' ++ [r]).
    { rewrite Hfull by lia. by rewrite Hh. }
    cbv zeta. rewrite Hidx, Hhist, length_app. simpl.
    repeat split; try done; lia.
Qed.

Lemma surface_moveTo st (i : Z) :
  is_Some (surface st) -> is_Some (surface (moveTo i st)).
Proof. intros [pixels Hs]. unfold moveTo. simpl. case_match; by eexists. Qed.

Lemma undo_eq st :
  0 < historyIndex st -> is_Some (surface st) ->
  undo st = moveTo (historyIndex st - 1) st.
Proof.
  intros Hpos [pixels Hs]. unfold undo. rewrite Hs.
  by destruct (Z.ltb_spec 0 (historyIndex st)); [|lia].
Qed.

Lemma redo_eq st :
  historyIndex st < Z.of_nat (length (history st)) - 1 ->
  is_Some (surface st) ->
  redo st = moveTo (historyIndex st + 1) st.
Proof.
  intros Hlt [pixels Hs]. unfold redo. rewrite Hs.
  by destruct (Z.ltb_spec (historyIndex st)
                 (Z.of_nat (length (history st)) - 1)); [|lia].
Qed.

Lemma surface_saveToHistory st (t : Z) :
  is_Some (surface st) -> is_Some (surface (saveToHistory t st)).
Proof.
  intros [pixels Hs]. unfold saveToHistory. rewrite Hs.
  case_match; by eexists.
Qed.

Lemma surface_paint st pixels :
  is_Some (surface st) -> is_Some (surface (paint pixels st)).
Proof. intros [old Hs]. unfold paint. rewrite Hs. by eexists. Qed.

Lemma surface_undo st : is_Some (surface st) -> is_Some (surface (undo st)).
Proof.
  intros Hs. unfold undo. destruct (0 <? historyIndex st); [|done].
  destruct (surface st) eqn:E; [|done].
  apply surface_moveTo. rewrite E. by eexists.
Qed.

Lemma surface_redo st : is_Some (surface st) -> is_Some (surface (redo st)).
Proof.
  intros Hs. unfold redo. destruct (_ <? _); [|done].
  destruct (surface st) eqn:E; [|done].
  apply surface_moveTo. rewrite E. by eexists.
Qed.

(** Every state of a mounted canvas is well formed and has its surface. *)
Lemma reachable_wf (blank : ImageData) st :
  reachable blank st -> wf st /\ is_Some (surface st).
Proof.
  induction 1 as [|st snap _ [IHwf IHs]|st _ [IHwf IHs]|st _ [IHwf IHs]
                  |st t _ [IHwf IHs]].
  - split; [apply wf_mounted | apply surface_mounted].
  - split; [by apply wf_commit|].
    rewrite surface_commit by done. by eexists.
  - split; [by apply wf_undo | by apply surface_undo].
  - split; [by apply wf_redo | by apply surface_redo].
  - split; [by apply wf_saveToHistory, wf_paint|].
    by apply surface_saveToHistory, surface_paint.
Qed.

(** C5. In a well-formed history whose cursor is above 0, [undo]
    followed by [redo] leaves the history as it was, puts the cursor back
    and selects the same snapshot; with a canvas, the surface shows that
    snapshot again. *)
Theorem undo_then_redo_restores st :
  wf st ->
  0 < historyIndex st ->
  history (redo (undo st)) = history st
  /\ historyIndex (redo (undo st)) = historyIndex st
  /\ current (redo (undo st)) = current st
  /\ is_Some (current st)
  /\ (is_Some (surface st) ->
      surface (redo (undo st)) = imageData <$> current st).
Proof.
  intros Hwf Hpos. pose proof (wf_index_bounds st Hwf) as [Hi Hl].
  assert (Hcur : is_Some (current st)).
  { unfold current, Js.at_index.
    destruct (Z.ltb_spec (historyIndex st) 0); [lia|].
    apply lookup_lt_is_Some. lia. }
  destruct (surface st) as [pixels|] eqn:Hs.
  - assert (Hsurf : is_Some (surface st)) by (rewrite Hs; by eexists).
    rewrite (undo_eq st) by done.
    rewrite redo_eq; simpl; [|lia|by apply surface_moveTo].
    unfold current. simpl.
    replace (historyIndex st - 1 + 1) with (historyIndex st) by lia.
    repeat split; try done.
    intros _. destruct Hcur as [h Hh]. unfold current in Hh. by rewrite Hh.
  - unfold undo, redo. rewrite Hs.
    destruct (0 <? historyIndex st); rewrite ?Hs;
      destruct (_ <? _); repeat split; try done; by intros [? ?].
Qed.

(** C6. In a well-formed history with a canvas, a stroke committed while
    the cursor is below the last entry keeps the entries up to the
    cursor, appends the new snapshot, and leaves nothing to redo. *)
Theorem commit_discards_redo st snap :
  wf st ->
  is_Some (surface st) ->
  historyIndex st < Z.of_nat (length (history st)) - 1 ->
  canRedo st = true
  /\ history (commit snap st)
     = take (Z.to_nat (historyIndex st + 1)) (history st) ++ [snap]
  /\ canRedo (commit snap st) = false.
Proof.
  intros Hwf Hs Hlt. pose proof (wf_index_bounds st Hwf) as [Hi Hl].
  destruct (commit_spec st snap Hwf Hs) as (_ & _ & Hidx & Hroom & _).
  split; [|split].
  - unfold canRedo. by apply Z.ltb_lt.
  - apply Hroom. lia.
  - unfold canRedo. rewrite Hidx. apply Z.ltb_irrefl.
Qed.

(** An [undo] that moves the cursor leaves something to redo. *)
Lemma undo_enables_redo st :
  wf st -> is_Some (surface st) -> canUndo st = true ->
  canRedo (undo st) = true.
Proof.
  intros Hwf [pixels Hs] Hu. pose proof (wf_index_bounds st Hwf) as [Hi Hl].
  unfold canUndo in Hu. unfold undo. rewrite Hu, Hs.
  apply Z.ltb_lt in Hu. unfold canRedo. simpl. apply Z.ltb_lt. lia.
Qed.

End Facts.

Lemma commit_keeps_capacity_witness :
  length (strokes 1 50) = 50%nat
  /\ (stroke 0 ∉ strokes 1 50)
  /\ (length (history (commits (strokes 0 7) (mounted 0%nat))) <= 50)%nat
  /\ current (commits (strokes 0 7 ++ [stroke 7]) (mounted 0%nat))
     = Some (stroke 7)
  /\ (let st := commits (stroke 0 :: strokes 1 50) (mounted 0%nat) in
      length (history st) = 50%nat
      /\ history st = strokes 1 50
      /\ (stroke 0 ∉ history st)
      /\ historyIndex st = 49).
Proof.
  assert (Hfresh : stroke 0 ∉ strokes 1 50).
  { intros (i & Heq & Hi)%list_elem_of_fmap.
    apply elem_of_seq in Hi. injection Heq as Heq _. lia. }
  split; [reflexivity|]. split; [exact Hfresh|].
  exact (commit_keeps_capacity 0%nat (strokes 0 7) (stroke 7)
           (stroke 0) (strokes 1 50) eq_refl Hfresh).
Defined.

(** Three strokes, cursor on the last one. *)
Lemma undo_then_redo_restores_witness :
  let st := commits (strokes 0 3) (mounted 0%nat) in
  wf st
  /\ 0 < historyIndex st
  /\ history (redo (undo st)) = history st
  /\ historyIndex (redo (undo st)) = historyIndex st
  /\ current (redo (undo st)) = current st
  /\ is_Some (current st)
  /\ (is_Some (surface st) ->
      surface (redo (undo st)) = imageData <$> current st).
Proof.
  assert (Hwf : wf (commits (strokes 0 3) (mounted 0%nat))).
  { right. vm_compute. repeat split; discriminate. }
  assert (Hpos : 0 < historyIndex (commits (strokes 0 3) (mounted 0%nat))).
  { reflexivity. }
  cbv zeta. split; [exact Hwf|]. split; [exact Hpos|].
  exact (undo_then_redo_restores _ Hwf Hpos).
Defined.

(** Three strokes and one [undo], then a new stroke. *)
Lemma commit_discards_redo_witness :
  let st := undo (commits (strokes 0 3) (mounted 0%nat)) in
  wf st
  /\ is_Some (surface st)
  /\ historyIndex st < Z.of_nat (length (history st)) - 1
  /\ canRedo st = true
  /\ history (commit (stroke 9) st)
     = take (Z.to_nat (historyIndex st + 1)) (history st) ++ [stroke 9]
  /\ canRedo (commit (stroke 9) st) = false.
Proof.
  assert (Hwf : wf (undo (commits (strokes 0 3) (mounted 0%nat)))).
  { right. vm_compute. repeat split; discriminate. }
  assert (Hs : is_Some (surface (undo (commits (strokes 0 3) (mounted 0%nat))))).
  { by eexists. }
  assert (Hlt : historyIndex (undo (commits (strokes 0 3) (mounted 0%nat)))
                < Z.of_nat (length (history (undo (commits (strokes 0 3)
                                                     (mounted 0%nat))))) - 1).
  { reflexivity. }
  cbv zeta. split; [exact Hwf|]. split; [exact Hs|]. split; [exact Hlt|].
  exact (commit_discards_redo _ (stroke 9) Hwf Hs Hlt).
Defined.

(** The engine on concrete input. *)
Example history_after_51_strokes :
  history (commits (strokes 0 51) (mounted 0%nat)) = strokes 1 50
  /\ historyIndex (commits (strokes 0 51) (mounted 0%nat)) = 49.
Proof. by vm_compute. Qed.

Example undo_on_first_entry_is_noop :
  let st := commit (stroke 1) (mounted 0%nat) in
  canUndo st = false /\ undo st = st /\ current st = Some (stroke 1).
Proof. by vm_compute. Qed.

End CanvasFacts.

(** ** Random draws and pools *)

Module JsFacts.
Import Js.






Lemma floor_scaled_range (r : Q) (n : Z) :
  0 < n -> (0 <= r)%Q -> (r < 1)%Q -> 0 <= floor_scaled r n < n.
Proof.
  intros Hn Hlo Hhi.
  assert (Hq : (0 < inject_Z n)%Q) by by rewrite <- (Zlt_Qlt 0).
  unfold floor_scaled. split.
  - rewrite <- (Qfloor_Z 0). apply Qfloor_resp_le.
    apply Qmult_le_0_compat; [done | by apply Qlt_le_weak].
  - rewrite Zlt_Qlt. eapply Qle_lt_trans; [apply Qfloor_le|].
    rewrite <- (Qmult_1_l (inject_Z n)) at 2.
    by apply Qmult_lt_compat_r.
Qed.

Lemma at_index_nat {A} (l : list A) (i : nat) :
  at_index l (Z.of_nat i) = l !! i.
Proof.
  unfold at_index. destruct (Z.ltb_spec (Z.of_nat i) 0); [lia|].
  by rewrite Nat2Z.id.
Qed.

(** A draw in the unit interval reads an entry of the pool. *)
Lemma pick_in_pool (pool : list string) (r : Q) :
  pool <> [] -> (0 <= r)%Q -> (r < 1)%Q ->
  pool !! Z.to_nat (floor_scaled r (Z.of_nat (length pool))) = Some (pick pool r)
  /\ pick pool r ∈ pool.
Proof.
  intros Hne Hlo Hhi.
  assert (Hn : 0 < Z.of_nat (length pool)) by (destruct pool; [done | simpl; lia]).
  pose proof (floor_scaled_range r _ Hn Hlo Hhi) as Hrange.
  unfold pick, at_index.
  destruct (Z.ltb_spec (floor_scaled r (Z.of_nat (length pool))) 0); [lia|].
  destruct (lookup_lt_is_Some_2 pool
              (Z.to_nat (floor_scaled r (Z.of_nat (length pool)))))
    as [p Hp]; [lia|].
  rewrite Hp. simpl. split; [done|]. by eapply list_elem_of_lookup_2.
Qed.


(** The primitives on concrete input. *)
Example js_length_counts_code_units :
  js_length "无法识别图片内容" = 8
  /\ js_length "data:image/png;base64," = 22
  /\ js_length "🎭" = 2.
Proof. by vm_compute. Qed.

Example trim_strips_both_ends :
  trim (utf8 [32; 9; 0xE3; 0x80; 0x80]%nat +:+ "一只 猫"
          +:+ utf8 [0xC2; 0xA0; 10]%nat)
  = "一只 猫".
Proof. by vm_compute. Qed.

Example parseInt_reads_leading_digits :
  parseInt "45000" = Num 45000
  /\ parseInt " 45000ms" = Num 45000
  /\ parseInt "0x1F" = Num 31
  /\ parseInt "-12" = Num (-12)
  /\ parseInt "soon" = NaN.
Proof. by vm_compute. Qed.

Example node_delay_clamps :
  node_delay (Num 45000) = 45000
  /\ node_delay (Num 0) = 1
  /\ node_delay NaN = 1
  /\ node_delay (Num 4294967296) = 1.
Proof. by vm_compute. Qed.

End JsFacts.

(** ** Backend guess service *)

Module BackendFacts.
Import Js Backend.

(** Run the monadic code down to its result and final world, leaving the
    string and number primitives folded. *)
Ltac js_run :=
  unfold mbind, mret, M_bind, M_ret, Js.bind, Js.ret, try_catch, race,
    throw, transmit, elapse, rejectAfter, subscribe, Date_now, Math_random,
    console_error, console_warn, console_log, say, say_all;
  cbn -[includes pick js_length trim parseInt node_delay timeout
        stripDataUri guessPool rethrown explanation String.app
        Z.add Z.sub Z.ltb Qplus Qmult inject_Z generateSmartSuggestions
        recognise Qfloor browser_delay armed subscribed].

Lemma node_delay_pos (d : Number) : 1 <= node_delay d.
Proof.
  destruct d as [|n]; simpl; [lia|].
  destruct (Z.leb_spec 1 n); simpl; [|lia].
  destruct (Z.leb_spec n 2147483647); lia.
Qed.

Lemma default_timeout (env : Env) :
  AI_TIMEOUT env = None -> node_delay (timeout env) = 60000.
Proof. unfold timeout. by intros ->. Qed.

Lemma guessPool_nonempty (image : string) : guessPool image <> [].
Proof. unfold guessPool. by repeat case_match. Qed.


Lemma pool_phrases_nonempty (image p : string) :
  p ∈ guessPool image -> p <> "".
Proof.
  unfold guessPool. intros Hp ->. revert Hp.
  repeat case_match; apply (bool_decide_unpack (_ ∉ _)); by vm_compute.
Qed.

(** [getIntelligentMockResponse] always returns, with two draws and one
    console line. *)
Lemma getIntelligentMockResponse_run (image : string) (reason : option string)
    (w : World) :
  getIntelligentMockResponse image reason w =
  (Value {| guess := pick (guessPool image) (entropy w (draws w));
            confidence := if startsWith image "data:image/"
                          then 0.7%Q else 0.6%Q;
            processingTime := (500 + entropy w (S (draws w)) * 1000)%Q;
            suggestions := Some smartSuggestions;
            success := true;
            error := None |},
   drawn (drawn (logged
     [ Log ("🎭 使用智能分析响应: " +:+ or_else reason "基于图像特征分析") ] w))).
Proof. reflexivity. Qed.

(** No key in the environment: the mock answer, nothing transmitted,
    and the timer left running with no reaction attached. *)
Lemma guessImage_without_key svc env remote image w :
  truthy (OPENAI_API_KEY env) = false ->
  guessImage svc env remote image w =
  getIntelligentMockResponse image None
    (logged [ Warn "OpenAI API Key未配置，使用智能分析响应" ]
       (armed (node_delay (timeout env)) (ErrorObj "AI识别超时") w)).
Proof. intros Hkey. unfold guessImage. js_run. by rewrite Hkey. Qed.

(** What the [catch] block of [guessImage] returns for the error [e]
    caught in world [w1], the call having started at [t0]. *)
Lemma guessImage_rejected svc env after e image w :
  truthy (OPENAI_API_KEY env) = true ->
  openai svc = true ->
  Z.of_N after < node_delay (timeout env) ->
  guessImage svc env (Fails after e) image w =
  (Value {| guess := pick (guessPool image) (entropy w (draws w));
            confidence := if startsWith image "data:image/"
                          then 0.7%Q else 0.6%Q;
            processingTime := inject_Z (now w + Z.of_N after - now w);
            suggestions := Some smartSuggestions;
            success := true;
            error := None |},
   drawn (drawn (logged
     [ Log ("🎭 使用智能分析响应: "
            +:+ or_else (Some (reason_of (rethrown e))) "基于图像特征分析") ]
     (logged (explanation (rethrown e))
       (logged [ Err "AI识别错误:" (rethrown e) ]
         (logged [ Err "OpenAI API调用失败:" e ]
           (later (Z.of_N after)
             (subscribed (length (timers w))
               (posted ("data:image/jpeg;base64," +:+ stripDataUri image)
                  (armed (node_delay (timeout env))
                     (ErrorObj "AI识别超时") w)))))))))).
Proof.
  intros Hkey Hclient Hlt%Z.ltb_lt.
  unfold guessImage, callOpenAI, getIntelligentMockResponse.
  rewrite Hkey, Hclient. js_run. rewrite Hlt. by js_run.
Qed.

(** The request is sent but the timer fires first. *)
Lemma guessImage_timed_out svc env remote image w :
  truthy (OPENAI_API_KEY env) = true ->
  openai svc = true ->
  match remote with
  | Responds after _ | Fails after _ => node_delay (timeout env) <= Z.of_N after
  | Silent => True
  end ->
  guessImage svc env remote image w =
  (Value {| guess := pick (guessPool image) (entropy w (draws w));
            confidence := if startsWith image "data:image/"
                          then 0.7%Q else 0.6%Q;
            processingTime :=
              inject_Z (now w + node_delay (timeout env) - now w);
            suggestions := Some smartSuggestions;
            success := true;
            error := None |},
   drawn (drawn (logged
     [ Log "🎭 使用智能分析响应: AI识别超时" ]
     (logged [ Log "🔄 AI API 超时，自动使用智能分析响应" ]
       (logged [ Err "AI识别错误:" (ErrorObj "AI识别超时") ]
         (later (node_delay (timeout env))
           (subscribed (length (timers w))
             (posted ("data:image/jpeg;base64," +:+ stripDataUri image)
                (armed (node_delay (timeout env))
                   (ErrorObj "AI识别超时") w))))))))).
Proof.
  intros Hkey Hclient Hlate.
  unfold guessImage, callOpenAI, getIntelligentMockResponse.
  rewrite Hkey, Hclient.
  destruct remote as [after content|after e|]; js_run;
    try (destruct (Z.ltb_spec (Z.of_N after) (node_delay (timeout env)));
         [lia|]);
    reflexivity.
Qed.

(** A key is set but the service holds no client. *)
Lemma guessImage_without_client svc env remote image w :
  truthy (OPENAI_API_KEY env) = true ->
  openai svc = false ->
  guessImage svc env remote image w =
  (Value {| guess := pick (guessPool image) (entropy w (draws w));
            confidence := if startsWith image "data:image/"
                          then 0.7%Q else 0.6%Q;
            processingTime := inject_Z (now w + Z.of_N 0 - now w);
            suggestions := Some smartSuggestions;
            success := true;
            error := None |},
   drawn (drawn (logged
     [ Log "🎭 使用智能分析响应: OpenAI客户端未初始化" ]
     (logged []
       (logged [ Err "AI识别错误:" (ErrorObj "OpenAI客户端未初始化") ]
         (later (Z.of_N 0)
           (subscribed (length (timers w))
              (armed (node_delay (timeout env))
                 (ErrorObj "AI识别超时") w)))))))).
Proof.
  intros Hkey Hclient.
  unfold guessImage, callOpenAI, getIntelligentMockResponse.
  rewrite Hkey, Hclient. js_run.
  pose proof (node_delay_pos (timeout env)).
  destruct (Z.ltb_spec 0 (node_delay (timeout env))); [|lia].
  reflexivity.
Qed.

(** The completion arrives before the timer fires. *)
Lemma guessImage_answered svc env after content image w :
  truthy (OPENAI_API_KEY env) = true ->
  openai svc = true ->
  Z.of_N after < node_delay (timeout env) ->
  guessImage svc env (Responds after content) image w =
  (Value {| guess := r_guess (recognise content);
            confidence := r_confidence (recognise content);
            processingTime := inject_Z (now w + Z.of_N after - now w);
            suggestions := Some (r_suggestions (recognise content));
            success := true;
            error := None |},
   later (Z.of_N after)
     (subscribed (length (timers w))
        (posted ("data:image/jpeg;base64," +:+ stripDataUri image)
           (armed (node_delay (timeout env)) (ErrorObj "AI识别超时") w)))).
Proof.
  intros Hkey Hclient Hlt%Z.ltb_lt.
  unfold guessImage, callOpenAI. rewrite Hkey, Hclient. js_run.
  rewrite Hlt. by js_run.
Qed.

(** What the updates of a call do to the promises a timer rejects. *)
Lemma timers_subscribed_armed (delay : Z) (e : Thrown) (w : World) :
  alter (fun t => {| due := due t; rejection := rejection t;
                     handled := true |})
    (length (timers w))
    (timers w ++ [ {| due := now w + delay; rejection := e;
                      handled := false |} ])
  = timers w ++ [ {| due := now w + delay; rejection := e;
                     handled := true |} ].
Proof. induction (timers w) as [|t ts IH]; [done|]. simpl. by f_equal. Qed.

Lemma unhandled_snoc (w w' : World) (t : Timer) :
  timers w' = timers w ++ [ t ] ->
  unhandled w' = unhandled w ++ (if handled t then [] else [ t ]).
Proof.
  unfold unhandled. intros ->. rewrite List.filter_app. simpl.
  by destruct (handled t).
Qed.


End BackendFacts.

(** ** Browser-side guess service *)

Module FrontendFacts.
Import Js Frontend.

Ltac js_run := BackendFacts.js_run.

Lemma browser_delay_nonneg (d : option Z) : 0 <= browser_delay d.
Proof. destruct d; simpl; lia. Qed.


(** With draws in the unit interval [getMockResponse] returns one of the
    ten canned replies after its simulated delay; it sends nothing. *)
Lemma getMockResponse_run (image : string) (w : World) :
  draws_in_unit w ->
  exists g c sugg,
    (g, c, sugg) ∈ mockResponses
    /\ getMockResponse image w =
       (Value {| Backend.guess := g;
                 Backend.confidence := c;
                 Backend.processingTime :=
                   (1500 + entropy w (S (S (draws w))) * 1000)%Q;
                 Backend.suggestions := Some sugg;
                 Backend.success := true;
                 Backend.error := None |},
        drawn (drawn (later
          (browser_delay
             (Some (Qfloor (1000 + entropy w (draws w) * 2000))))
          (drawn w)))).
Proof.
  intros Hunit. destruct (Hunit (S (draws w))) as [Hlo Hhi].
  pose proof (JsFacts.floor_scaled_range _ (Z.of_nat (length mockResponses))
                ltac:(done) Hlo Hhi) as Hrange.
  unfold getMockResponse. js_run. unfold at_index.
  change (length mockResponses) with 10%nat in *.
  set (idx := floor_scaled (entropy w (S (draws w))) (Z.of_nat 10)) in *.
  destruct (Z.ltb_spec idx 0) as [?|_]; [lia|].
  destruct (lookup_lt_is_Some_2 mockResponses (Z.to_nat idx))
    as [[[g c] sugg] Hpick]; [simpl; lia|].
  exists g, c, sugg. split; [by eapply list_elem_of_lookup_2|].
  by rewrite Hpick.
Qed.

Lemma guessImage_offline svc net image mime w :
  isOnlineMode svc = false ->
  guessImage svc net image mime w = getMockResponse image w.
Proof. intros Hoff. unfold guessImage. js_run. by rewrite Hoff. Qed.

(** Online, any failure before a usable reply is caught, logged, and
    answered by [getMockResponse]. *)
Lemma guessImage_falls_back svc net image mime w e elapsed :
  isOnlineMode svc = true ->
  fails_with svc net e elapsed ->
  guessImage svc net image mime w =
  getMockResponse image
    (logged [ Err "AI识别错误:" e ]
       (later elapsed (posted (payload image) w))).
Proof.
  intros Hon Hfail. unfold guessImage, callAIApi. js_run. rewrite Hon.
  unfold fails_with in Hfail.
  destruct net as [after ok status statusText body|after cause|]; js_run;
    try destruct (Z.of_N after <? browser_delay (timeout (config svc)));
    js_run.
  - destruct Hfail as [-> Hfail]. destruct ok; js_run.
    + destruct body as [[] [data|] b_error|cause|]; js_run;
        try done; by subst.
    + by subst.
  - by destruct Hfail as [-> ->].
  - by destruct Hfail as [-> ->].
  - by destruct Hfail as [-> ->].
  - by destruct Hfail as [-> ->].
Qed.

(** Online with a usable reply in time: the reply is passed on. *)
Lemma guessImage_replied svc after status statusText data b_error
    image mime w :
  isOnlineMode svc = true ->
  Z.of_N after < browser_delay (timeout (config svc)) ->
  guessImage svc
    (Arrives after true status statusText (Json true (Some data) b_error))
    image mime w =
  (Value {| Backend.guess := sr_guess data;
            Backend.confidence := sr_confidence data;
            Backend.processingTime :=
              inject_Z (now w + Z.of_N after - now w);
            Backend.suggestions := Some (default [] (sr_suggestions data));
            Backend.success := true;
            Backend.error := None |},
   later (Z.of_N after) (posted (payload image) w)).
Proof.
  intros Hon Hlt%Z.ltb_lt. unfold guessImage, callAIApi. js_run.
  rewrite Hon. js_run. rewrite Hlt. by js_run.
Qed.


End FrontendFacts.

(** ** The guess orchestrator as its callers see it *)

Module GuessFacts.
Import Js.

Ltac js_run := BackendFacts.js_run.

Lemma boot_draws_in_unit (t : Z) : draws_in_unit (boot t (1 # 2)).
Proof. intros n. split; simpl; [discriminate | reflexivity]. Qed.

(** The backend [guessImage] comes back on every input, with either the
    mock answer or the recognition of a completion that arrived in time;
    [success] is set and [error] is not. *)
Lemma backend_guessImage_total svc env remote image w :
  exists r w',
    Backend.guessImage svc env remote image w = (Value r, w')
    /\ Backend.success r = true
    /\ Backend.error r = None
    /\ ((Backend.guess r
         = pick (Backend.guessPool image) (entropy w (draws w))
         /\ Backend.confidence r
            = (if startsWith image "data:image/" then 0.7%Q else 0.6%Q)
         /\ Backend.suggestions r = Some Backend.smartSuggestions)
        \/ (exists after content,
              remote = Backend.Responds after content
              /\ Z.of_N after < node_delay (Backend.timeout env)
              /\ Backend.guess r = Backend.r_guess (Backend.recognise content)
              /\ Backend.confidence r
                 = Backend.r_confidence (Backend.recognise content)
              /\ Backend.suggestions r
                 = Some (Backend.r_suggestions (Backend.recognise content)))).
Proof.
  destruct (truthy (Backend.OPENAI_API_KEY env)) eqn:Hkey.
  - destruct (Backend.openai svc) eqn:Hclient.
    + destruct remote as [after content|after e|].
      * destruct (Z.lt_ge_cases (Z.of_N after)
                    (node_delay (Backend.timeout env))) as [Hlt|Hge].
        -- do 2 eexists.
           split; [by apply BackendFacts.guessImage_answered|].
           simpl. repeat split. right. by exists after, content.
        -- do 2 eexists.
           split; [by apply BackendFacts.guessImage_timed_out|].
           simpl. repeat split. by left.
      * destruct (Z.lt_ge_cases (Z.of_N after)
                    (node_delay (Backend.timeout env))) as [Hlt|Hge].
        -- do 2 eexists.
           split; [by apply BackendFacts.guessImage_rejected|].
           simpl. repeat split. by left.
        -- do 2 eexists.
           split; [by apply BackendFacts.guessImage_timed_out|].
           simpl. repeat split. by left.
      * do 2 eexists.
        split; [by apply BackendFacts.guessImage_timed_out|].
        simpl. repeat split. by left.
    + do 2 eexists.
      split; [by apply BackendFacts.guessImage_without_client|].
      simpl. repeat split. by left.
  - do 2 eexists. split.
    + rewrite BackendFacts.guessImage_without_key by done.
      apply BackendFacts.getIntelligentMockResponse_run.
    + simpl. repeat split. by left.
Qed.

(** What [guessImage] resolves with. On the backend the call always
    resolves with [success = true]; without an API key it sends nothing
    and answers from the fallback pools, and so it does when the remote
    call rejects (transport, authentication, quota, rate limit) or is not
    answered before the timer. In the browser, offline mode sends nothing
    and answers with a canned reply, and online every failure of the
    request is answered the same way. *)
Lemma guess_absorbs_expected_failures
    (bsvc : Backend.AIService) (env : Backend.Env) (remote : Backend.Remote)
    (fsvc : Frontend.AIService) (net : Frontend.Fetch)
    (image mime : string) (w : World) :
  draws_in_unit w ->
  (exists r w',
     Backend.guessImage bsvc env remote image w = (Value r, w')
     /\ Backend.success r = true)
  /\ (truthy (Backend.OPENAI_API_KEY env) = false ->
      exists r w',
        Backend.guessImage bsvc env remote image w = (Value r, w')
        /\ sent w' = sent w
        /\ Backend.success r = true
        /\ Backend.guess r ∈ Backend.guessPool image)
  /\ (match remote with
      | Backend.Responds after _ =>
          node_delay (Backend.timeout env) <= Z.of_N after
      | Backend.Fails _ _ | Backend.Silent => True
      end ->
      exists r w',
        Backend.guessImage bsvc env remote image w = (Value r, w')
        /\ Backend.success r = true
        /\ Backend.guess r ∈ Backend.guessPool image)
  /\ (Frontend.isOnlineMode fsvc = false ->
      exists r w' c sugg,
        Frontend.guessImage fsvc net image mime w = (Value r, w')
        /\ sent w' = sent w
        /\ Backend.success r = true
        /\ (Backend.guess r, c, sugg) ∈ Frontend.mockResponses)
  /\ (Frontend.isOnlineMode fsvc = true ->
      forall e elapsed,
        Frontend.fails_with fsvc net e elapsed ->
        exists r w' c sugg,
          Frontend.guessImage fsvc net image mime w = (Value r, w')
          /\ Backend.success r = true
          /\ (Backend.guess r, c, sugg) ∈ Frontend.mockResponses).
Proof.
  intros Hunit.
  destruct (Hunit (draws w)) as [Hlo Hhi].
  pose proof (JsFacts.pick_in_pool _ _ (BackendFacts.guessPool_nonempty image)
                Hlo Hhi) as [_ Hpool].
  destruct (backend_guessImage_total bsvc env remote image w)
    as (r & w' & Hrun & Hok & _ & Hshape).
  split; [by exists r, w'|].
  split; [|split; [|split]].
  - intros Hkey. eexists _, _. split.
    + rewrite BackendFacts.guessImage_without_key by done.
      apply BackendFacts.getIntelligentMockResponse_run.
    + by simpl.
  - intros Hfail. exists r, w'. split; [done|]. split; [done|].
    destruct Hshape as [(-> & _)|(after & content & -> & Hlt & _)]; [done|lia].
  - intros Hoff.
    destruct (FrontendFacts.getMockResponse_run image w Hunit)
      as (g & c & sugg & Hin & Hmock).
    eexists _, _, c, sugg. split.
    + rewrite FrontendFacts.guessImage_offline by done. exact Hmock.
    + by simpl.
  - intros Hon e elapsed Hfail.
    destruct (FrontendFacts.getMockResponse_run image
                (logged [ Err "AI识别错误:" e ]
                   (later elapsed (posted (Frontend.payload image) w))) Hunit)
      as (g & c & sugg & Hin & Hmock).
    eexists _, _, c, sugg. split.
    + rewrite (FrontendFacts.guessImage_falls_back _ _ _ _ _ e elapsed)
        by done.
      exact Hmock.
    + by simpl.
Qed.

Lemma guess_absorbs_expected_failures_witness :
  let env := {| Backend.OPENAI_API_KEY := None; Backend.AI_TIMEOUT := None |} in
  let fsvc := Frontend.new_AIService
                {| Frontend.apiUrl := "http://localhost:3003";
                   Frontend.timeout := None; Frontend.model := None |} in
  draws_in_unit (boot 0 (1 # 2))
  /\ exists r w',
       Backend.guessImage (Backend.new_AIService env) env Backend.Silent
         "data:image/png;base64,iVBORw0KGgo=" (boot 0 (1 # 2)) = (Value r, w')
       /\ sent w' = []
       /\ Backend.success r = true
       /\ Backend.guess r ∈ Backend.smallImageGuesses.
Proof.
  cbv zeta. split; [apply boot_draws_in_unit|].
  exact (proj1 (proj2
    (guess_absorbs_expected_failures
       (Backend.new_AIService
          {| Backend.OPENAI_API_KEY := None; Backend.AI_TIMEOUT := None |})
       {| Backend.OPENAI_API_KEY := None; Backend.AI_TIMEOUT := None |}
       Backend.Silent
       (Frontend.new_AIService
          {| Frontend.apiUrl := "http://localhost:3003";
             Frontend.timeout := None; Frontend.model := None |})
       Frontend.Unanswered
       "data:image/png;base64,iVBORw0KGgo=" "image/png"
       (boot 0 (1 # 2)) (boot_draws_in_unit 0))) eq_refl).
Defined.

(** The timer of every call of the backend [guessImage] is left in the
    world; a reaction is attached to its promise exactly when a key is
    set, whatever the remote side does. *)
Lemma backend_guessImage_timers svc env remote image w :
  exists r w',
    Backend.guessImage svc env remote image w = (Value r, w')
    /\ timers w'
       = timers w
         ++ [ {| due := now w + node_delay (Backend.timeout env);
                 rejection := ErrorObj "AI识别超时";
                 handled := truthy (Backend.OPENAI_API_KEY env) |} ].
Proof.
  destruct (truthy (Backend.OPENAI_API_KEY env)) eqn:Hkey.
  - destruct (Backend.openai svc) eqn:Hclient.
    + destruct remote as [after content|after e|];
        try destruct (Z.lt_ge_cases (Z.of_N after)
                        (node_delay (Backend.timeout env))) as [Hlt|Hge];
        (do 2 eexists;
         split;
         [first [ by apply BackendFacts.guessImage_answered
                | by apply BackendFacts.guessImage_rejected
                | by apply BackendFacts.guessImage_timed_out ]
         |apply BackendFacts.timers_subscribed_armed]).
    + do 2 eexists.
      split; [by apply BackendFacts.guessImage_without_client|].
      apply BackendFacts.timers_subscribed_armed.
  - do 2 eexists. split.
    + rewrite BackendFacts.guessImage_without_key by done.
      apply BackendFacts.getIntelligentMockResponse_run.
    + reflexivity.
Qed.

Lemma fold_min_le (d : Z) (l : list Z) :
  fold_right Z.min d l <= d
  /\ forall x, x ∈ l -> fold_right Z.min d l <= x.
Proof.
  induction l as [|y l [IH1 IH2]].
  - split; [done|]. by intros x ?%elem_of_nil.
  - cbn [fold_right]. split; [lia|].
    intros x [->|Hin]%elem_of_cons; [lia|].
    specialize (IH2 x Hin). lia.
Qed.

(** The process ends no later than any rejection left unhandled. *)
Lemma exitsAt_bound (w : World) (t : Timer) :
  t ∈ unhandled w -> exists m, exitsAt w = Some m /\ m <= due t.
Proof.
  unfold exitsAt.
  destruct (unhandled w) as [|t0 ts]; [by intros ?%elem_of_nil|].
  intros Hin. eexists. split; [done|].
  destruct (fold_min_le (due t0) (due <$> ts)) as [Hfirst Hrest].
  apply elem_of_cons in Hin as [->|Hin]; [done|].
  apply Hrest. by apply list_elem_of_fmap_2.
Qed.

(** C1. The code falls short of the claim on one path. The backend
    [guessImage] resolves with [success = true] on every input, but the
    timeout promise it makes before looking for the key gets its
    reaction only from [Promise.race]. Without a key the call returns
    early: nothing is sent, the fallback is answered, and the promise is
    left behind; when its timer is due the rejection is unhandled and the
    process ends, 60,000 ms after the call in a fresh process without
    [AI_TIMEOUT]. With a key every path reaches the race and the call
    leaves no rejection unhandled. *)
Theorem absent_key_leaves_unhandled_rejection
    (svc : Backend.AIService) (env : Backend.Env) (remote : Backend.Remote)
    (image : string) (w : World) :
  let stray := {| due := now w + node_delay (Backend.timeout env);
                  rejection := ErrorObj "AI识别超时";
                  handled := false |} in
  exists r w',
    Backend.guessImage svc env remote image w = (Value r, w')
    /\ Backend.success r = true
    /\ (truthy (Backend.OPENAI_API_KEY env) = false ->
        sent w' = sent w
        /\ unhandled w' = unhandled w ++ [ stray ]
        /\ (exists t, exitsAt w' = Some t /\ t <= due stray)
        /\ (unhandled w = [] -> Backend.AI_TIMEOUT env = None ->
            exitsAt w' = Some (now w + 60000)))
    /\ (truthy (Backend.OPENAI_API_KEY env) = true ->
        unhandled w' = unhandled w /\ exitsAt w' = exitsAt w).
Proof.
  intros stray.
  destruct (backend_guessImage_timers svc env remote image w)
    as (r & w' & Hrun & Htimers).
  destruct (backend_guessImage_total svc env remote image w)
    as (r0 & w0 & Hrun0 & Hok & _).
  rewrite Hrun in Hrun0. injection Hrun0 as <- <-.
  exists r, w'. split; [done|]. split; [done|].
  pose proof (BackendFacts.unhandled_snoc w w' _ Htimers) as Hleft.
  cbn [handled] in Hleft.
  split.
  - intros Hkey. rewrite Hkey in Hleft. fold stray in Hleft.
    split.
    { rewrite BackendFacts.guessImage_without_key in Hrun by done.
      rewrite BackendFacts.getIntelligentMockResponse_run in Hrun.
      by injection Hrun as _ <-. }
    split; [done|]. split.
    + apply exitsAt_bound. rewrite Hleft.
      apply elem_of_app. right. apply elem_of_cons. by left.
    + intros Hnone Htimeout. unfold exitsAt. rewrite Hleft, Hnone. simpl.
      by rewrite BackendFacts.default_timeout.
  - intros Hkey. rewrite Hkey, app_nil_r in Hleft.
    split; [done|]. unfold exitsAt. by rewrite Hleft.
Qed.

Lemma absent_key_leaves_unhandled_rejection_witness :
  let env := {| Backend.OPENAI_API_KEY := None; Backend.AI_TIMEOUT := None |} in
  exists r w',
    Backend.guessImage (Backend.new_AIService env) env Backend.Silent
      "data:image/png;base64,iVBORw0KGgo=" (boot 0 (1 # 2)) = (Value r, w')
    /\ Backend.success r = true
    /\ sent w' = []
    /\ exitsAt w' = Some 60000.
Proof.
  cbv zeta.
  destruct (absent_key_leaves_unhandled_rejection
              (Backend.new_AIService
                 {| Backend.OPENAI_API_KEY := None;
                    Backend.AI_TIMEOUT := None |})
              {| Backend.OPENAI_API_KEY := None; Backend.AI_TIMEOUT := None |}
              Backend.Silent "data:image/png;base64,iVBORw0KGgo="
              (boot 0 (1 # 2)))
    as (r & w' & Hrun & Hok & Hstray & _).
  destruct (Hstray eq_refl) as (Hsent & _ & _ & Hexit).
  exists r, w'. split; [exact Hrun|]. split; [exact Hok|].
  split; [exact Hsent|exact (Hexit eq_refl eq_refl)].
Defined.

(** C2, as the specification has it, fails: after a simulated 429 the
    result carries no failure reason at all. *)
Lemma rate_limit_reason_not_returned :
  let env := {| Backend.OPENAI_API_KEY := Some "sk-test";
                Backend.AI_TIMEOUT := None |} in
  ~ exists r w' reason,
      Backend.guessImage (Backend.new_AIService env) env
        (Backend.Fails 120 (ErrorObj "429 Too Many Requests"))
        "data:image/png;base64,iVBORw0KGgo=" (boot 0 (1 # 2)) = (Value r, w')
      /\ Backend.error r = Some reason.
Proof.
  cbv zeta. intros (r & w' & reason & Hrun & Herr).
  rewrite BackendFacts.guessImage_rejected in Hrun by reflexivity.
  injection Hrun as <- _. discriminate Herr.
Qed.

(** C2, amended. A remote error that reaches [guessImage] before the
    timer is absorbed: the call resolves with [success = true] and a
    non-empty guess from the fallback pools; the result has no [error]
    field, the reason goes to the console. For an error whose message
    contains 429 (and not 401) the logged reason is the rate-limit text. *)
Theorem absorbed_error_is_logged_not_returned
    (svc : Backend.AIService) (env : Backend.Env) (after : N) (e : Thrown)
    (image : string) (w : World) :
  draws_in_unit w ->
  truthy (Backend.OPENAI_API_KEY env) = true ->
  Backend.openai svc = true ->
  Z.of_N after < node_delay (Backend.timeout env) ->
  exists r w',
    Backend.guessImage svc env (Backend.Fails after e) image w = (Value r, w')
    /\ Backend.success r = true
    /\ Backend.guess r <> ""
    /\ Backend.guess r ∈ Backend.guessPool image
    /\ Backend.error r = None
    /\ console w' =
       console w
       ++ [ Err "OpenAI API调用失败:" e;
            Err "AI识别错误:" (Backend.rethrown e) ]
       ++ Backend.explanation (Backend.rethrown e)
       ++ [ Log ("🎭 使用智能分析响应: "
                 +:+ or_else (Some (Backend.reason_of (Backend.rethrown e)))
                       "基于图像特征分析") ]
    /\ (forall message,
          e = ErrorObj message ->
          includes message "401" = false ->
          includes message "429" = true ->
          Backend.reason_of (Backend.rethrown e) = "API调用频率限制，请稍后重试"
          /\ includes (Backend.reason_of (Backend.rethrown e)) "频率限制" = true
          /\ Backend.explanation (Backend.rethrown e)
             = [ Log "⏱️ API 频率限制，请稍后重试" ]).
Proof.
  intros Hunit Hkey Hclient Hlt.
  destruct (Hunit (draws w)) as [Hlo Hhi].
  pose proof (JsFacts.pick_in_pool _ _ (BackendFacts.guessPool_nonempty image)
                Hlo Hhi) as [_ Hpool].
  eexists _, _. split; [by apply BackendFacts.guessImage_rejected|].
  simpl. split; [done|].
  split; [by eapply BackendFacts.pool_phrases_nonempty|].
  split; [done|]. split; [done|].
  split; [by rewrite <- !app_assoc|].
  intros message -> H401 H429. simpl. rewrite H401, H429. by vm_compute.
Qed.

Lemma absorbed_error_is_logged_not_returned_witness :
  let env := {| Backend.OPENAI_API_KEY := Some "sk-test";
                Backend.AI_TIMEOUT := None |} in
  draws_in_unit (boot 0 (1 # 2))
  /\ truthy (Backend.OPENAI_API_KEY env) = true
  /\ Backend.openai (Backend.new_AIService env) = true
  /\ Z.of_N 120 < node_delay (Backend.timeout env)
  /\ exists r w',
       Backend.guessImage (Backend.new_AIService env) env
         (Backend.Fails 120 (ErrorObj "429 Too Many Requests"))
         "data:image/png;base64,iVBORw0KGgo=" (boot 0 (1 # 2)) = (Value r, w')
       /\ Backend.success r = true
       /\ Backend.error r = None.
Proof.
  cbv zeta. split; [apply boot_draws_in_unit|].
  do 3 (split; [reflexivity|]).
  destruct (absorbed_error_is_logged_not_returned
              (Backend.new_AIService
                 {| Backend.OPENAI_API_KEY := Some "sk-test";
                    Backend.AI_TIMEOUT := None |})
              {| Backend.OPENAI_API_KEY := Some "sk-test";
                 Backend.AI_TIMEOUT := None |}
              120%N (ErrorObj "429 Too Many Requests")
              "data:image/png;base64,iVBORw0KGgo=" (boot 0 (1 # 2))
              (boot_draws_in_unit 0) eq_refl eq_refl eq_refl)
    as (r & w' & Hrun & Hok & _ & _ & Herr & _).
  exists r, w'. repeat split; assumption.
Defined.







Lemma estimate_monotone (a b : Z) :
  a <= b -> (Backend.estimate a <= Backend.estimate b)%Q.
Proof.
  intros Hab. unfold Backend.estimate.
  destruct (Z.ltb_spec 20 a), (Z.ltb_spec 20 b),
    (Z.ltb_spec a 5), (Z.ltb_spec b 5); try lia; by unfold Qle.
Qed.

(** C8, as the specification has it, fails: an empty completion is
    replaced by the eight-character placeholder and gets 0.8, a
    one-character completion gets 0.7. *)
Lemma confidence_not_monotone_in_response_length :
  ~ (forall a b : string,
       js_length a <= js_length b ->
       (Backend.r_confidence (Backend.recognise (Some a))
        <= Backend.r_confidence (Backend.recognise (Some b)))%Q).
Proof.
  intros Hmono. specialize (Hmono "" "猫" ltac:(by vm_compute)).
  by vm_compute in Hmono.
Qed.

(** C8, amended. The confidence of a successful remote call depends only
    on the length of the returned guess text, which is the trimmed
    completion, or the placeholder when that is empty or missing: 0.7
    below 5 characters, 0.9 above 20, 0.8 otherwise; it is monotone in
    that length. *)
Theorem confidence_from_guess_length
    (svc : Backend.AIService) (env : Backend.Env) (after : N)
    (content content' : option string) (image : string) (w : World) :
  truthy (Backend.OPENAI_API_KEY env) = true ->
  Backend.openai svc = true ->
  Z.of_N after < node_delay (Backend.timeout env) ->
  exists r w',
    Backend.guessImage svc env (Backend.Responds after content) image w
    = (Value r, w')
    /\ Backend.guess r = or_else (trim <$> content) "无法识别图片内容"
    /\ Backend.confidence r = Backend.estimate (js_length (Backend.guess r))
    /\ (js_length (Backend.guess r) < 5 -> Backend.confidence r = 0.7%Q)
    /\ (5 <= js_length (Backend.guess r) <= 20 ->
        Backend.confidence r = 0.8%Q)
    /\ (20 < js_length (Backend.guess r) -> Backend.confidence r = 0.9%Q)
    /\ (js_length (Backend.guess r)
        <= js_length (Backend.r_guess (Backend.recognise content')) ->
        (Backend.confidence r
         <= Backend.r_confidence (Backend.recognise content'))%Q).
Proof.
  intros Hkey Hclient Hlt.
  eexists _, _. split; [by apply BackendFacts.guessImage_answered|].
  simpl. set (len := js_length _). unfold Backend.estimate.
  split; [done|]. split; [done|].
  repeat split.
  - intros Hshort. destruct (Z.ltb_spec 20 len); [lia|].
    by destruct (Z.ltb_spec len 5); [|lia].
  - intros Hmid. destruct (Z.ltb_spec 20 len); [lia|].
    by destruct (Z.ltb_spec len 5); [lia|].
  - intros Hlong. by destruct (Z.ltb_spec 20 len); [|lia].
  - apply estimate_monotone.
Qed.

Lemma confidence_from_guess_length_witness :
  let env := {| Backend.OPENAI_API_KEY := Some "sk-test";
                Backend.AI_TIMEOUT := None |} in
  truthy (Backend.OPENAI_API_KEY env) = true
  /\ Backend.openai (Backend.new_AIService env) = true
  /\ Z.of_N 120 < node_delay (Backend.timeout env)
  /\ exists r w',
       Backend.guessImage (Backend.new_AIService env) env
         (Backend.Responds 120 (Some " 一只在草地上奔跑的小狗 "))
         "data:image/png;base64,iVBORw0KGgo=" (boot 0 (1 # 2)) = (Value r, w')
       /\ Backend.guess r = "一只在草地上奔跑的小狗"
       /\ Backend.confidence r = 0.8%Q.
Proof.
  cbv zeta. do 3 (split; [reflexivity|]).
  destruct (confidence_from_guess_length
              (Backend.new_AIService
                 {| Backend.OPENAI_API_KEY := Some "sk-test";
                    Backend.AI_TIMEOUT := None |})
              {| Backend.OPENAI_API_KEY := Some "sk-test";
                 Backend.AI_TIMEOUT := None |}
              120%N (Some " 一只在草地上奔跑的小狗 ") None
              "data:image/png;base64,iVBORw0KGgo=" (boot 0 (1 # 2))
              eq_refl eq_refl eq_refl)
    as (r & w' & Hrun & Hguess & _ & _ & Hmid & _).
  exists r, w'. split; [exact Hrun|]. split; [exact Hguess|].
  apply Hmid. rewrite Hguess. by vm_compute.
Defined.

(** The suggestions for a guess are the groups of the matching
    categories, in order, cut to four, or the generic group when no
    category matches. *)
Lemma generateSmartSuggestions_groups (g : string) :
  let group (hit : bool) (words : list string) :=
    if hit then words else [] in
  let matched :=
    group (includes g "猫" || includes g "狗" || includes g "鸟")
      [ "动物"; "宠物"; "哺乳动物" ]
    ++ group (includes g "花" || includes g "树" || includes g "山")
         [ "自然"; "植物"; "风景" ]
    ++ group (includes g "车" || includes g "房子")
         [ "物品"; "交通工具"; "建筑" ]
    ++ group (includes g "人") [ "人物"; "人脸"; "肖像" ] in
  Backend.generateSmartSuggestions g
  = match matched with
    | [] => [ "物体"; "图案"; "形状" ]
    | _ => take 4 matched
    end.
Proof.
  unfold Backend.generateSmartSuggestions. cbv zeta.
  destruct (includes g "猫" || includes g "狗" || includes g "鸟"),
    (includes g "花" || includes g "树" || includes g "山"),
    (includes g "车" || includes g "房子"), (includes g "人");
    reflexivity.
Qed.

Lemma generateSmartSuggestions_length (g : string) :
  (length (Backend.generateSmartSuggestions g) <= 4)%nat.
Proof.
  unfold Backend.generateSmartSuggestions. rewrite length_take. lia.
Qed.

(** The result of a call whose completion arrives before the timer. *)
Lemma answered_result svc env after content image w r w' :
  truthy (Backend.OPENAI_API_KEY env) = true ->
  Backend.openai svc = true ->
  Z.of_N after < node_delay (Backend.timeout env) ->
  Backend.guessImage svc env (Backend.Responds after content) image w
  = (Value r, w') ->
  Backend.guess r = or_else (trim <$> content) "无法识别图片内容"
  /\ Backend.suggestions r
     = Some (Backend.generateSmartSuggestions (Backend.guess r)).
Proof.
  intros Hkey Hclient Hlt Hrun.
  rewrite BackendFacts.guessImage_answered in Hrun by done.
  by injection Hrun as <- _.
Qed.

(** No suggestions computed from a text are the four of the fallback. *)
Lemma generateSmartSuggestions_not_fixed (g : string) :
  Backend.generateSmartSuggestions g <> Backend.smartSuggestions.
Proof.
  rewrite generateSmartSuggestions_groups. cbv zeta.
  destruct (includes g "猫" || includes g "狗" || includes g "鸟"),
    (includes g "花" || includes g "树" || includes g "山"),
    (includes g "车" || includes g "房子"), (includes g "人");
    discriminate.
Qed.

(** C9. Every result of the backend [guessImage] has at most four
    suggestions, whichever path produced it. When the completion arrives
    in time the guess is its trimmed text (the placeholder when that is
    empty) and the suggestions are [generateSmartSuggestions] of that
    guess: the word groups of the categories whose keywords occur in it,
    cut to four, and the generic object/pattern/shape group when no
    keyword occurs. The browser passes the list of the server's answer on
    as it is, so for an answer of this backend it shows the same, at most
    four, suggestions; the canned replies of its fallback stay within
    four as well. *)
Theorem suggestions_at_most_four
    (svc : Backend.AIService) (env : Backend.Env) (remote : Backend.Remote)
    (image : string) (w : World) (g : string)
    (fsvc : Frontend.AIService) (lag : N) (statusText shot mime : string)
    (browser : World) :
  (exists r w' sugg,
     Backend.guessImage svc env remote image w = (Value r, w')
     /\ Backend.suggestions r = Some sugg
     /\ (length sugg <= 4)%nat
     /\ (forall after content,
           truthy (Backend.OPENAI_API_KEY env) = true ->
           Backend.openai svc = true ->
           remote = Backend.Responds after content ->
           Z.of_N after < node_delay (Backend.timeout env) ->
           Backend.guess r = or_else (trim <$> content) "无法识别图片内容"
           /\ sugg = Backend.generateSmartSuggestions (Backend.guess r))
     /\ (Frontend.isOnlineMode fsvc = true ->
         Z.of_N lag
         < browser_delay (Frontend.timeout (Frontend.config fsvc)) ->
         exists shown browser',
           Frontend.guessImage fsvc
             (Routes.as_fetch lag statusText (Routes.GuessOk r (now w')))
             shot mime browser
           = (Value shown, browser')
           /\ Backend.suggestions shown = Some sugg))
  /\ (length (Backend.generateSmartSuggestions g) <= 4)%nat
  /\ (let group (hit : bool) (words : list string) :=
        if hit then words else [] in
      let matched :=
        group (includes g "猫" || includes g "狗" || includes g "鸟")
          [ "动物"; "宠物"; "哺乳动物" ]
        ++ group (includes g "花" || includes g "树" || includes g "山")
             [ "自然"; "植物"; "风景" ]
        ++ group (includes g "车" || includes g "房子")
             [ "物品"; "交通工具"; "建筑" ]
        ++ group (includes g "人") [ "人物"; "人脸"; "肖像" ] in
      Backend.generateSmartSuggestions g
      = match matched with
        | [] => [ "物体"; "图案"; "形状" ]
        | _ => take 4 matched
        end)
  /\ Forall (fun reply => (length reply.2 <= 4)%nat) Frontend.mockResponses.
Proof.
  split; [|split; [|split]].
  - destruct (backend_guessImage_total svc env remote image w)
      as (r & w' & Hrun & _ & _ & Hshape).
    assert (exists sugg,
              Backend.suggestions r = Some sugg /\ (length sugg <= 4)%nat)
      as (sugg & Hsugg & Hlen).
    { destruct Hshape
        as [(_ & _ & Hs)|(after & content & -> & _ & Hg & _ & Hs)].
      - exists Backend.smartSuggestions. split; [done|]. simpl. lia.
      - eexists. split; [exact Hs|]. apply generateSmartSuggestions_length. }
    exists r, w', sugg. split; [done|]. split; [done|]. split; [done|].
    split.
    + intros after content Hkey Hclient -> Hlt.
      destruct (answered_result _ _ _ _ _ _ _ _ Hkey Hclient Hlt Hrun)
        as [Hguess Hderived].
      split; [done|]. congruence.
    + intros Hon Hlag. unfold Routes.as_fetch.
      rewrite (FrontendFacts.guessImage_replied fsvc lag 200 statusText _
                 None shot mime browser Hon Hlag).
      eexists _, _. split; [done|]. simpl. by rewrite Hsugg.
  - apply generateSmartSuggestions_length.
  - apply generateSmartSuggestions_groups.
  - repeat constructor.
Qed.

Lemma suggestions_at_most_four_witness :
  let env := {| Backend.OPENAI_API_KEY := Some "sk-test";
                Backend.AI_TIMEOUT := None |} in
  let fsvc := Frontend.setOnlineMode true
                (Frontend.new_AIService
                   {| Frontend.apiUrl := "http://localhost:3003";
                      Frontend.timeout := None; Frontend.model := None |}) in
  exists r w' shown browser',
    Backend.guessImage (Backend.new_AIService env) env
      (Backend.Responds 120 (Some " 一只猫在树上 ")) "iVBORw0KGgo="
      (boot 0 (1 # 2))
    = (Value r, w')
    /\ Backend.guess r = "一只猫在树上"
    /\ Backend.suggestions r
       = Some (Backend.generateSmartSuggestions "一只猫在树上")
    /\ Frontend.guessImage fsvc
         (Routes.as_fetch 250 "OK" (Routes.GuessOk r (now w')))
         "data:image/png;base64,iVBORw0KGgo=" "image/png" (boot 0 (1 # 2))
       = (Value shown, browser')
    /\ Backend.suggestions shown = Backend.suggestions r.
Proof.
  cbv zeta.
  destruct (suggestions_at_most_four
              (Backend.new_AIService
                 {| Backend.OPENAI_API_KEY := Some "sk-test";
                    Backend.AI_TIMEOUT := None |})
              {| Backend.OPENAI_API_KEY := Some "sk-test";
                 Backend.AI_TIMEOUT := None |}
              (Backend.Responds 120 (Some " 一只猫在树上 ")) "iVBORw0KGgo="
              (boot 0 (1 # 2)) ""
              (Frontend.setOnlineMode true
                 (Frontend.new_AIService
                    {| Frontend.apiUrl := "http://localhost:3003";
                       Frontend.timeout := None; Frontend.model := None |}))
              250%N "OK" "data:image/png;base64,iVBORw0KGgo=" "image/png"
              (boot 0 (1 # 2)))
    as ((r & w' & sugg & Hrun & Hsugg & _ & Hremote & Hrelay) & _).
  destruct (Hremote 120%N (Some " 一只猫在树上 ") eq_refl eq_refl eq_refl
              eq_refl) as [Hguess Hderived].
  destruct (Hrelay eq_refl eq_refl) as (shown & browser' & Hshown & Hsame).
  exists r, w', shown, browser'.
  assert (Backend.guess r = "一只猫在树上") as Htext.
  { rewrite Hguess. by vm_compute. }
  split; [exact Hrun|]. split; [exact Htext|].
  split; [by rewrite Hsugg, Hderived, Htext|].
  split; [exact Hshown|]. by rewrite Hsame, Hsugg.
Defined.

(** C10. The backend fallback always carries the same four generic
    suggestions, whatever the image, the reason and the draws; they are
    never what [generateSmartSuggestions] gives for a text. A result of
    [guessImage] carries these four on every path but one: when a key and
    a client are there and the completion arrives before the timer, the
    suggestions are computed from the guess text, and so differ from the
    four. *)
Theorem fallback_suggestions_are_fixed
    (svc : Backend.AIService) (env : Backend.Env) (remote : Backend.Remote)
    (image : string) (reason : option string) (w : World) (g : string) :
  let fixed := [ "物体识别"; "图案分析"; "形状特征"; "颜色构成" ] in
  let answered :=
    truthy (Backend.OPENAI_API_KEY env) && Backend.openai svc
    && match remote with
       | Backend.Responds after _ =>
           Z.of_N after <? node_delay (Backend.timeout env)
       | Backend.Fails _ _ | Backend.Silent => false
       end in
  (exists r w',
     Backend.getIntelligentMockResponse image reason w = (Value r, w')
     /\ Backend.suggestions r = Some fixed)
  /\ Backend.generateSmartSuggestions g <> fixed
  /\ (exists r w',
        Backend.guessImage svc env remote image w = (Value r, w')
        /\ (answered = false -> Backend.suggestions r = Some fixed)
        /\ (answered = true ->
            Backend.suggestions r
            = Some (Backend.generateSmartSuggestions (Backend.guess r))
            /\ Backend.suggestions r <> Some fixed
            /\ exists after content,
                 remote = Backend.Responds after content
                 /\ Backend.guess r
                    = or_else (trim <$> content) "无法识别图片内容"))
  /\ Backend.generateSmartSuggestions "一只猫"
     <> Backend.generateSmartSuggestions "一朵花".
Proof.
  intros fixed answered.
  split; [|split; [|split]].
  - eexists _, _.
    split; [apply BackendFacts.getIntelligentMockResponse_run|done].
  - apply generateSmartSuggestions_not_fixed.
  - subst answered.
    destruct (truthy (Backend.OPENAI_API_KEY env)) eqn:Hkey;
      [destruct (Backend.openai svc) eqn:Hclient|].
    + destruct remote as [after content|after e|].
      * destruct (Z.ltb_spec (Z.of_N after)
                    (node_delay (Backend.timeout env))) as [Hlt|Hge].
        -- eexists _, _.
           split; [by apply BackendFacts.guessImage_answered|].
           split; [done|]. intros _. split; [done|]. split.
           ++ intros [= Hsame].
              by apply generateSmartSuggestions_not_fixed in Hsame.
           ++ by exists after, content.
        -- eexists _, _.
           split; [by apply BackendFacts.guessImage_timed_out|].
           split; done.
      * destruct (Z.lt_ge_cases (Z.of_N after)
                    (node_delay (Backend.timeout env))) as [Hlt|Hge].
        -- eexists _, _.
           split; [by apply BackendFacts.guessImage_rejected|].
           split; done.
        -- eexists _, _.
           split; [by apply BackendFacts.guessImage_timed_out|].
           split; done.
      * eexists _, _.
        split; [by apply BackendFacts.guessImage_timed_out|].
        split; done.
    + eexists _, _.
      split; [by apply BackendFacts.guessImage_without_client|].
      split; done.
    + eexists _, _. split.
      * rewrite BackendFacts.guessImage_without_key by done.
        apply BackendFacts.getIntelligentMockResponse_run.
      * split; done.
  - by vm_compute.
Qed.

Lemma fallback_suggestions_are_fixed_witness :
  let env := {| Backend.OPENAI_API_KEY := Some "sk-test";
                Backend.AI_TIMEOUT := None |} in
  (exists r w',
     Backend.guessImage (Backend.new_AIService env) env
       (Backend.Responds 120 (Some "一只猫")) "iVBORw0KGgo=" (boot 0 (1 # 2))
     = (Value r, w')
     /\ Backend.suggestions r
        = Some (Backend.generateSmartSuggestions (Backend.guess r))
     /\ Backend.suggestions r <> Some Backend.smartSuggestions)
  /\ (exists r w',
        Backend.guessImage (Backend.new_AIService env) env
          (Backend.Responds 60000 (Some "一只猫")) "iVBORw0KGgo="
          (boot 0 (1 # 2))
        = (Value r, w')
        /\ Backend.suggestions r = Some Backend.smartSuggestions).
Proof.
  cbv zeta. split.
  - destruct (fallback_suggestions_are_fixed
                (Backend.new_AIService
                   {| Backend.OPENAI_API_KEY := Some "sk-test";
                      Backend.AI_TIMEOUT := None |})
                {| Backend.OPENAI_API_KEY := Some "sk-test";
                   Backend.AI_TIMEOUT := None |}
                (Backend.Responds 120 (Some "一只猫")) "iVBORw0KGgo=" None
                (boot 0 (1 # 2)) "")
      as (_ & _ & (r & w' & Hrun & _ & Hanswered) & _).
    destruct (Hanswered eq_refl) as (Hderived & Hdiffers & _).
    exists r, w'. split; [exact Hrun|]. split; [exact Hderived|exact Hdiffers].
  - destruct (fallback_suggestions_are_fixed
                (Backend.new_AIService
                   {| Backend.OPENAI_API_KEY := Some "sk-test";
                      Backend.AI_TIMEOUT := None |})
                {| Backend.OPENAI_API_KEY := Some "sk-test";
                   Backend.AI_TIMEOUT := None |}
                (Backend.Responds 60000 (Some "一只猫")) "iVBORw0KGgo=" None
                (boot 0 (1 # 2)) "")
      as (_ & _ & (r & w' & Hrun & Hfallback & _) & _).
    exists r, w'. split; [exact Hrun|exact (Hfallback eq_refl)].
Defined.

(** The same phrase gets different suggestions on the two paths. *)
Example suggestions_differ_between_paths :
  Backend.generateSmartSuggestions "一只猫" = [ "动物"; "宠物"; "哺乳动物" ]
  /\ "一只猫" ∈ Backend.defaultGuesses
  /\ Backend.smartSuggestions
     = [ "物体识别"; "图案分析"; "形状特征"; "颜色构成" ].
Proof.
  split; [by vm_compute|]. split; [|done].
  apply (bool_decide_unpack _). by vm_compute.
Qed.

End GuessFacts.

(** ** More on the canvas history *)

Module CanvasMoreFacts.
Import Canvas.

Section Facts.

Context {ImageData : Type}.
Abbreviation Snapshot := (DrawingHistory ImageData).
Abbreviation State := (CanvasState ImageData).
Implicit Types (st : State) (snap : Snapshot).

(** X1. Every state a mounted canvas can reach by strokes, undo, redo
    and clearing keeps its surface, holds at most 50 snapshots, and has
    its cursor on an entry as soon as there is one; the step counter shown
    to the player stays between 0 and 50. *)
Theorem history_invariant (blank : ImageData) st :
  reachable blank st ->
  is_Some (surface st)
  /\ (length (history st) <= 50)%nat
  /\ -1 <= historyIndex st < Z.of_nat (length (history st))
  /\ (historyIndex st = -1 <-> history st = [])
  /\ 0 <= getHistoryCount st <= 50
  /\ (hasContent st = true <-> is_Some (current st)).
Proof.
  intros [Hwf Hs]%CanvasFacts.reachable_wf.
  pose proof (CanvasFacts.wf_index_bounds st Hwf) as [Hi Hl].
  unfold getHistoryCount, hasContent, current, Js.at_index.
  split; [done|]. split; [lia|]. split; [lia|]. split; [|split; [lia|]].
  - destruct Hwf as [[Hh Hidx]|[Hidx _]]; [done|].
    split; [lia|]. intros Hnil. rewrite Hnil in Hidx. simpl in Hidx. lia.
  - destruct Hwf as [[Hh Hidx]|[Hidx _]].
    + rewrite Hh, Hidx. simpl. split; [done|]. by intros [? ?].
    + destruct (Z.ltb_spec (historyIndex st) 0); [lia|].
      split; intros _.
      * apply lookup_lt_is_Some. lia.
      * apply Z.ltb_lt. lia.
Qed.

(** X2. Committing any sequence of snapshots into an empty history
    leaves exactly the last 50 of them, in order, with the cursor on the
    newest. *)
Theorem commits_keep_last_fifty (blank : ImageData) (snaps : list Snapshot) :
  history (commits snaps (mounted blank)) = drop (length snaps - 50) snaps
  /\ historyIndex (commits snaps (mounted blank))
     = Z.of_nat (Nat.min (length snaps) 50) - 1.
Proof.
  induction snaps as [|snap snaps [IHh IHi]] using rev_ind; [done|].
  rewrite CanvasFacts.commits_snoc, length_app. simpl.
  destruct (CanvasFacts.commit_spec (commits snaps (mounted blank)) snap
              (CanvasFacts.wf_commits _ _ (CanvasFacts.wf_mounted blank))
              (CanvasFacts.surface_commits _ _
                 (CanvasFacts.surface_mounted blank)))
    as (_ & _ & Hidx & Hroom & Hfull).
  destruct (Nat.lt_ge_cases (length snaps) 50) as [Hlt|Hge].
  - rewrite Hidx, Hroom by lia. rewrite IHh, IHi.
    replace (length snaps - 50)%nat with 0%nat by lia.
    replace (length snaps + 1 - 50)%nat with 0%nat by lia.
    rewrite !drop_0.
    replace (Z.to_nat (Z.of_nat (length snaps `min` 50) - 1 + 1))
      with (length snaps) by lia.
    rewrite firstn_all, length_app. simpl. split; [done|lia].
  - rewrite Hidx, Hfull by lia. rewrite IHh.
    rewrite length_app, length_drop, drop_drop. simpl.
    rewrite drop_app_le by lia.
    replace (length snaps - 50 + 1)%nat with (length snaps + 1 - 50)%nat
      by lia.
    rewrite length_drop. split; [done|lia].
Qed.

(** X3. In a well-formed history with a canvas, [redo] followed by
    [undo] puts the cursor back, leaves the list alone and shows the
    snapshot that was selected before. *)
Theorem redo_then_undo_restores st :
  wf st ->
  is_Some (surface st) ->
  historyIndex st < Z.of_nat (length (history st)) - 1 ->
  history (undo (redo st)) = history st
  /\ historyIndex (undo (redo st)) = historyIndex st
  /\ current (undo (redo st)) = current st
  /\ is_Some (current st)
  /\ surface (undo (redo st)) = imageData <$> current st.
Proof.
  intros Hwf Hs Hlt.
  pose proof (CanvasFacts.wf_index_bounds st Hwf) as [Hi Hl].
  assert (Hpos : 0 <= historyIndex st).
  { destruct Hwf as [[Hh Hidx]|[Hidx _]]; [|lia].
    rewrite Hh, Hidx in Hlt. simpl in Hlt. lia. }
  assert (Hcur : is_Some (current st)).
  { unfold current, Js.at_index.
    destruct (Z.ltb_spec (historyIndex st) 0); [lia|].
    apply lookup_lt_is_Some. lia. }
  rewrite (CanvasFacts.redo_eq st) by done.
  rewrite CanvasFacts.undo_eq; simpl;
    [|lia|by apply CanvasFacts.surface_moveTo].
  unfold current. simpl.
  replace (historyIndex st + 1 - 1) with (historyIndex st) by lia.
  repeat split; try done.
  destruct Hcur as [h Hh]. unfold current in Hh. by rewrite Hh.
Qed.

(** X4. A stroke, or clearing the canvas, can be undone: on a non-empty
    well-formed history with a canvas, saving a new snapshot and then
    calling [undo] selects and shows the snapshot that was current
    before, and the new one stays available to [redo]. *)
Theorem saved_snapshot_can_be_undone st (pixels : ImageData) (t : Z) :
  wf st ->
  is_Some (surface st) ->
  0 <= historyIndex st ->
  let st' := saveToHistory t (paint pixels st) in
  clearCanvas pixels t st = st'
  /\ commit {| imageData := pixels; timestamp := t |} st = st'
  /\ current (undo st') = current st
  /\ surface (undo st') = imageData <$> current st
  /\ current (redo (undo st')) = Some {| imageData := pixels; timestamp := t |}.
Proof.
  intros Hwf Hs Hpos st'.
  pose proof (CanvasFacts.wf_index_bounds st Hwf) as [Hi Hl].
  set (snap := {| imageData := pixels; timestamp := t |}).
  assert (Heq : st' = commit snap st) by done.
  destruct (CanvasFacts.commit_spec st snap Hwf Hs)
    as (Hcur & Hlen & Hidx & Hroom & Hfull).
  rewrite <- Heq in Hcur, Hlen, Hidx, Hroom, Hfull.
  assert (Hwf' : wf st') by (rewrite Heq; by apply CanvasFacts.wf_commit).
  assert (Hs' : is_Some (surface st')).
  { rewrite Heq, CanvasFacts.surface_commit by done. by eexists. }
  assert (Hlen' : Z.of_nat (length (history st')) = Z.min (historyIndex st + 2) 50).
  { destruct (Z.lt_ge_cases (historyIndex st) 49) as [Hlt|Hge].
    - rewrite Hroom by done. rewrite length_app, length_take. simpl. lia.
    - rewrite Hfull by lia. rewrite length_app, length_drop. simpl. lia. }
  assert (Hprev : Js.at_index (history st') (historyIndex st' - 1)
                  = current st).
  { unfold current, Js.at_index.
    destruct (Z.ltb_spec (historyIndex st' - 1) 0); [lia|].
    destruct (Z.ltb_spec (historyIndex st) 0); [lia|].
    destruct (Z.lt_ge_cases (historyIndex st) 49) as [Hlt|Hge].
    - rewrite Hroom by done.
      replace (Z.to_nat (historyIndex st' - 1))
        with (Z.to_nat (historyIndex st)) by lia.
      rewrite lookup_app_l by (rewrite length_take; lia).
      apply lookup_take_lt. lia.
    - rewrite Hfull by lia.
      rewrite lookup_app_l by (rewrite length_drop; lia).
      rewrite lookup_drop. f_equal. lia. }
  assert (Hundo : undo st' = moveTo (historyIndex st' - 1) st').
  { apply CanvasFacts.undo_eq; [lia|done]. }
  assert (Hsome : is_Some (current st)).
  { unfold current, Js.at_index.
    destruct (Z.ltb_spec (historyIndex st) 0); [lia|].
    apply lookup_lt_is_Some. lia. }
  split; [done|]. split; [done|]. rewrite Hundo.
  split; [|split].
  - unfold current at 1. simpl. exact Hprev.
  - simpl. rewrite Hprev. by destruct Hsome as [h ->].
  - rewrite CanvasFacts.redo_eq; simpl;
      [|lia|by apply CanvasFacts.surface_moveTo].
    unfold current in *. simpl.
    by replace (historyIndex st' - 1 + 1) with (historyIndex st') by lia.
Qed.

Lemma iter_undo_keeps st (n : nat) :
  wf st -> is_Some (surface st) ->
  wf (Nat.iter n undo st) /\ is_Some (surface (Nat.iter n undo st))
  /\ history (Nat.iter n undo st) = history st.
Proof.
  intros Hwf Hs. induction n as [|n (IHwf & IHs & IHh)]; [done|].
  simpl. split; [by apply CanvasFacts.wf_undo|].
  split; [by apply CanvasFacts.surface_undo|].
  rewrite <- IHh. unfold undo. repeat case_match; done.
Qed.

Lemma iter_redo_keeps st (n : nat) :
  wf st -> is_Some (surface st) ->
  wf (Nat.iter n redo st) /\ is_Some (surface (Nat.iter n redo st))
  /\ history (Nat.iter n redo st) = history st.
Proof.
  intros Hwf Hs. induction n as [|n (IHwf & IHs & IHh)]; [done|].
  simpl. split; [by apply CanvasFacts.wf_redo|].
  split; [by apply CanvasFacts.surface_redo|].
  rewrite <- IHh. unfold redo. repeat case_match; done.
Qed.

(** X5. Repeated [undo] walks the cursor down one entry at a time and
    stops at the oldest one; repeated [redo] walks it up and stops at the
    newest. Neither changes the stored snapshots. *)
Theorem repeated_undo_redo_clamp st (n : nat) :
  wf st ->
  is_Some (surface st) ->
  0 <= historyIndex st ->
  history (Nat.iter n undo st) = history st
  /\ historyIndex (Nat.iter n undo st)
     = Z.max 0 (historyIndex st - Z.of_nat n)
  /\ history (Nat.iter n redo st) = history st
  /\ historyIndex (Nat.iter n redo st)
     = Z.min (Z.of_nat (length (history st)) - 1)
         (historyIndex st + Z.of_nat n).
Proof.
  intros Hwf Hs Hpos.
  pose proof (CanvasFacts.wf_index_bounds st Hwf) as [Hi Hl].
  split; [apply iter_undo_keeps; done|].
  split; [|split; [apply iter_redo_keeps; done|]].
  - induction n as [|n IH]; [simpl; lia|].
    destruct (iter_undo_keeps st n Hwf Hs) as (_ & Hs' & _).
    change (Nat.iter (S n) undo st) with (undo (Nat.iter n undo st)).
    destruct (Z.lt_ge_cases 0 (historyIndex (Nat.iter n undo st))).
    + rewrite CanvasFacts.undo_eq by done. cbn [historyIndex moveTo]. lia.
    + replace (undo (Nat.iter n undo st)) with (Nat.iter n undo st); [lia|].
      unfold undo at 2.
      by destruct (Z.ltb_spec 0 (historyIndex (Nat.iter n undo st))); [lia|].
  - induction n as [|n IH]; [simpl; lia|].
    destruct (iter_redo_keeps st n Hwf Hs) as (_ & Hs' & Hh').
    change (Nat.iter (S n) redo st) with (redo (Nat.iter n redo st)).
    destruct (Z.lt_ge_cases (historyIndex (Nat.iter n redo st))
                (Z.of_nat (length (history (Nat.iter n redo st))) - 1)).
    + rewrite CanvasFacts.redo_eq by done. cbn [historyIndex moveTo].
      rewrite Hh' in *. lia.
    + replace (redo (Nat.iter n redo st)) with (Nat.iter n redo st);
        [rewrite Hh' in *; lia|].
      unfold redo at 2.
      by destruct (Z.ltb_spec (historyIndex (Nat.iter n redo st))
                     (Z.of_nat (length (history (Nat.iter n redo st))) - 1));
        [lia|].
Qed.

(** X6. With a canvas, [canUndo] and [canRedo] tell exactly when the
    corresponding operation changes the state. *)
Theorem can_predicates_are_exact st :
  is_Some (surface st) ->
  (undo st = st <-> canUndo st = false)
  /\ (redo st = st <-> canRedo st = false).
Proof.
  intros [pixels Hs]. unfold undo, redo, canUndo, canRedo. rewrite Hs.
  split.
  - destruct (0 <? historyIndex st); [|done].
    split; [|done]. intros Heq.
    apply (f_equal historyIndex) in Heq. simpl in Heq. lia.
  - destruct (historyIndex st <? Z.of_nat (length (history st)) - 1); [|done].
    split; [|done]. intros Heq.
    apply (f_equal historyIndex) in Heq. simpl in Heq. lia.
Qed.

End Facts.

Lemma sample_wf : wf (commits (strokes 0 3) (mounted 0%nat)).
Proof. right. vm_compute. repeat split; discriminate. Qed.

Lemma sample_surface : is_Some (surface (commits (strokes 0 3) (mounted 0%nat))).
Proof. by eexists. Qed.

Lemma history_invariant_witness :
  let st := undo (commit (stroke 1) (commit (stroke 0) (mounted 0%nat))) in
  reachable 0%nat st
  /\ (length (history st) <= 50)%nat
  /\ 0 <= getHistoryCount st <= 50.
Proof.
  cbv zeta.
  assert (Hreach : reachable 0%nat
            (undo (commit (stroke 1) (commit (stroke 0) (mounted 0%nat))))).
  { apply reach_undo, reach_commit, reach_commit, reach_mounted. }
  split; [exact Hreach|].
  destruct (history_invariant 0%nat _ Hreach) as (_ & Hlen & _ & _ & Hcount & _).
  split; [exact Hlen|exact Hcount].
Defined.

Lemma redo_then_undo_restores_witness :
  let st := undo (commits (strokes 0 3) (mounted 0%nat)) in
  wf st
  /\ is_Some (surface st)
  /\ historyIndex st < Z.of_nat (length (history st)) - 1
  /\ historyIndex (undo (redo st)) = historyIndex st
  /\ current (undo (redo st)) = current st.
Proof.
  cbv zeta.
  assert (Hwf : wf (undo (commits (strokes 0 3) (mounted 0%nat)))).
  { apply CanvasFacts.wf_undo, sample_wf. }
  assert (Hs : is_Some (surface (undo (commits (strokes 0 3) (mounted 0%nat))))).
  { by eexists. }
  assert (Hlt : historyIndex (undo (commits (strokes 0 3) (mounted 0%nat)))
                < Z.of_nat (length (history (undo (commits (strokes 0 3)
                                                     (mounted 0%nat))))) - 1).
  { reflexivity. }
  split; [exact Hwf|]. split; [exact Hs|]. split; [exact Hlt|].
  destruct (redo_then_undo_restores _ Hwf Hs Hlt) as (_ & Hidx & Hcur & _).
  split; [exact Hidx|exact Hcur].
Defined.

Lemma saved_snapshot_can_be_undone_witness :
  let st := commits (strokes 0 3) (mounted 0%nat) in
  wf st
  /\ is_Some (surface st)
  /\ 0 <= historyIndex st
  /\ current (undo (clearCanvas 0%nat 99 st)) = Some (stroke 2)
  /\ surface (undo (clearCanvas 0%nat 99 st)) = Some 2%nat.
Proof.
  cbv zeta. split; [exact sample_wf|]. split; [exact sample_surface|].
  assert (Hpos : 0 <= historyIndex (commits (strokes 0 3) (mounted 0%nat))).
  { by vm_compute. }
  split; [exact Hpos|].
  destruct (saved_snapshot_can_be_undone _ 0%nat 99 sample_wf sample_surface
              Hpos) as (Hclear & _ & Hcur & Hsurf & _).
  rewrite Hclear. split; [exact Hcur|exact Hsurf].
Defined.

Lemma repeated_undo_redo_clamp_witness :
  let st := commits (strokes 0 3) (mounted 0%nat) in
  wf st
  /\ is_Some (surface st)
  /\ 0 <= historyIndex st
  /\ historyIndex (Nat.iter 5 undo st) = 0
  /\ historyIndex (Nat.iter 5 redo (Nat.iter 5 undo st)) = 2.
Proof.
  cbv zeta. split; [exact sample_wf|]. split; [exact sample_surface|].
  assert (Hpos : 0 <= historyIndex (commits (strokes 0 3) (mounted 0%nat))).
  { by vm_compute. }
  split; [exact Hpos|].
  destruct (repeated_undo_redo_clamp _ 5 sample_wf sample_surface Hpos)
    as (_ & Hundo & _).
  split; [exact Hundo|reflexivity].
Defined.

Lemma can_predicates_are_exact_witness :
  let st := commits (strokes 0 3) (mounted 0%nat) in
  is_Some (surface st)
  /\ redo st = st
  /\ undo st <> st.
Proof.
  cbv zeta. split; [exact sample_surface|].
  destruct (can_predicates_are_exact _ sample_surface) as [Hundo Hredo].
  split.
  - by apply Hredo.
  - intros Heq. apply Hundo in Heq. discriminate Heq.
Defined.

End CanvasMoreFacts.

(** ** More on the backend guess service *)

Module BackendMoreFacts.
Import Js Backend BackendOps.

Ltac js_run :=
  unfold JsMore.await; BackendFacts.js_run.

Lemma configured_invariant env svc :
  configured env svc ->
  isInitialized svc = truthy (OPENAI_API_KEY env)
  /\ (isInitialized svc = true -> openai svc = true).
Proof.
  induction 1 as [env|apiKey env svc _ [IHinit IHclient]].
  - unfold new_AIService, initialize.
    by destruct (truthy (OPENAI_API_KEY env)).
  - unfold setApiKey, initialize. simpl. by destruct apiKey.
Qed.

(** X7. However the service was constructed and re-keyed, it counts
    as initialised exactly when the environment holds a non-empty API key,
    and then it has a client. So with a key, a completion that arrives
    before the timer is always the one returned, and the model list is
    the real one; without a key the list is the mock one. *)
Theorem configured_service_uses_its_key
    (env : Env) (svc : AIService) (after : N) (content : option string)
    (image : string) (w : World) :
  configured env svc ->
  isInitialized svc = truthy (OPENAI_API_KEY env)
  /\ (truthy (OPENAI_API_KEY env) = true ->
      openai svc = true
      /\ length (getAvailableModels svc) = 4%nat
      /\ (Z.of_N after < node_delay (timeout env) ->
          exists r w',
            guessImage svc env (Responds after content) image w
            = (Value r, w')
            /\ guess r = r_guess (recognise content)))
  /\ (truthy (OPENAI_API_KEY env) = false ->
      getAvailableModels svc = [ "mock-ai-service" ]).
Proof.
  intros [Hinit Hclient]%configured_invariant.
  split; [done|]. split.
  - intros Hkey. rewrite Hkey in Hinit.
    split; [by apply Hclient|].
    split; [unfold getAvailableModels; by rewrite Hinit|].
    intros Hlt. eexists _, _.
    split; [apply BackendFacts.guessImage_answered; auto|done].
  - intros Hkey. rewrite Hkey in Hinit.
    unfold getAvailableModels. by rewrite Hinit.
Qed.

Lemma configured_service_uses_its_key_witness :
  let env := {| OPENAI_API_KEY := None; AI_TIMEOUT := None |} in
  let rekeyed := setApiKey "sk-test" env (new_AIService env) in
  configured rekeyed.1 rekeyed.2
  /\ isInitialized rekeyed.2 = true
  /\ openai rekeyed.2 = true.
Proof.
  cbv zeta.
  assert (Hc : configured
            (setApiKey "sk-test" {| OPENAI_API_KEY := None; AI_TIMEOUT := None |}
               (new_AIService {| OPENAI_API_KEY := None; AI_TIMEOUT := None |})).1
            (setApiKey "sk-test" {| OPENAI_API_KEY := None; AI_TIMEOUT := None |}
               (new_AIService {| OPENAI_API_KEY := None; AI_TIMEOUT := None |})).2).
  { apply configured_setApiKey, configured_new. }
  split; [exact Hc|].
  destruct (configured_service_uses_its_key _ _ 0%N None "" (boot 0 (1 # 2)) Hc)
    as (Hinit & Hkey & _).
  split; [exact Hinit|]. exact (proj1 (Hkey eq_refl)).
Defined.

(** After a valid key, an empty one switches the service back to the mock
    list although the old client object is still there. *)
Example empty_key_keeps_stale_client :
  let env := {| OPENAI_API_KEY := Some "sk-test"; AI_TIMEOUT := None |} in
  let rekeyed := setApiKey "" env (new_AIService env) in
  isInitialized rekeyed.2 = false
  /\ openai rekeyed.2 = true
  /\ getAvailableModels rekeyed.2 = [ "mock-ai-service" ].
Proof. by vm_compute. Qed.

Lemma stripDataUri_known (b : string) :
  stripDataUri ("data:image/png;base64," +:+ b) = b
  /\ stripDataUri ("data:image/jpg;base64," +:+ b) = b
  /\ stripDataUri ("data:image/jpeg;base64," +:+ b) = b.
Proof.
  unfold stripDataUri. by destruct b.
Qed.

(** X8. One call of [guessImage] hands at most one request to the
    OpenAI client, and exactly one when a key is set and the client
    exists; it never retries. The image goes out labelled as JPEG: a
    png, jpg or jpeg data-URI prefix is replaced, any other input is
    appended to the label as it is. *)
Theorem guessImage_sends_at_most_once
    (svc : AIService) (env : Env) (remote : Remote) (image b : string)
    (w : World) :
  (exists r w',
     guessImage svc env remote image w = (Value r, w')
     /\ sent w' =
        (if truthy (OPENAI_API_KEY env) && openai svc
         then sent w ++ [ "data:image/jpeg;base64," +:+ stripDataUri image ]
         else sent w))
  /\ stripDataUri ("data:image/png;base64," +:+ b) = b
  /\ stripDataUri ("data:image/jpg;base64," +:+ b) = b
  /\ stripDataUri ("data:image/jpeg;base64," +:+ b) = b
  /\ (startsWith image "data:image/png;base64," = false ->
      startsWith image "data:image/jpg;base64," = false ->
      startsWith image "data:image/jpeg;base64," = false ->
      stripDataUri image = image).
Proof.
  split; [|split; [|split; [|split]]]; try apply stripDataUri_known.
  - destruct (truthy (OPENAI_API_KEY env)) eqn:Hkey; simpl.
    + destruct (openai svc) eqn:Hclient.
      * destruct remote as [after content|after e|];
          try destruct (Z.lt_ge_cases (Z.of_N after)
                          (node_delay (timeout env))) as [Hlt|Hge];
          eexists _, _;
          (split;
           [first [ by apply BackendFacts.guessImage_answered
                  | by apply BackendFacts.guessImage_rejected
                  | by apply BackendFacts.guessImage_timed_out ]
           | done ]).
      * eexists _, _.
        split; [by apply BackendFacts.guessImage_without_client|done].
    + eexists _, _. split.
      * rewrite BackendFacts.guessImage_without_key by done.
        apply BackendFacts.getIntelligentMockResponse_run.
      * done.
  - unfold startsWith, stripDataUri. simpl. by intros -> -> ->.
Qed.

(** X9. When [AI_TIMEOUT] is set to something [parseInt] cannot read,
    or to a number below 1 or above 2^31 - 1, the timer is armed for
    1 ms: a completion that needs a millisecond or more is discarded and
    the fallback answers after 1 ms. *)
Theorem unusable_timeout_discards_answers
    (svc : AIService) (env : Env) (value : string) (after : N)
    (content : option string) (image : string) (w : World) :
  AI_TIMEOUT env = Some value ->
  truthy (Some value) = true ->
  match parseInt value with
  | NaN => True
  | Num n => n < 1 \/ 2147483647 < n
  end ->
  truthy (OPENAI_API_KEY env) = true ->
  openai svc = true ->
  1 <= Z.of_N after ->
  exists r w',
    guessImage svc env (Responds after content) image w = (Value r, w')
    /\ now w' = now w + 1
    /\ guess r = pick (guessPool image) (entropy w (draws w))
    /\ suggestions r = Some smartSuggestions.
Proof.
  intros Hset Htruthy Hbad Hkey Hclient Hafter.
  assert (Hdelay : node_delay (timeout env) = 1).
  { unfold timeout. rewrite Hset, Htruthy. simpl.
    destruct (parseInt value) as [|n]; [done|]. simpl.
    destruct (Z.leb_spec 1 n), (Z.leb_spec n 2147483647); simpl; lia. }
  eexists _, _. split.
  - apply BackendFacts.guessImage_timed_out; [done..|]. simpl. lia.
  - simpl. rewrite Hdelay. done.
Qed.

Lemma unusable_timeout_discards_answers_witness :
  let env := {| OPENAI_API_KEY := Some "sk-test"; AI_TIMEOUT := Some "0" |} in
  exists r w',
    guessImage (new_AIService env) env (Responds 5 (Some "一只猫"))
      "data:image/png;base64,iVBORw0KGgo=" (boot 0 (1 # 2)) = (Value r, w')
    /\ now w' = 1
    /\ suggestions r = Some smartSuggestions.
Proof.
  cbv zeta.
  destruct (unusable_timeout_discards_answers
              (new_AIService
                 {| OPENAI_API_KEY := Some "sk-test"; AI_TIMEOUT := Some "0" |})
              {| OPENAI_API_KEY := Some "sk-test"; AI_TIMEOUT := Some "0" |}
              "0" 5%N (Some "一只猫") "data:image/png;base64,iVBORw0KGgo="
              (boot 0 (1 # 2)) eq_refl eq_refl
              ltac:(vm_compute; left; reflexivity) eq_refl eq_refl
              ltac:(vm_compute; discriminate))
    as (r & w' & Hrun & Hnow & _ & Hs).
  exists r, w'. split; [exact Hrun|]. split; [exact Hnow|exact Hs].
Defined.

(** A unit suffix is read as milliseconds. *)
Example timeout_units_are_milliseconds :
  node_delay (timeout {| OPENAI_API_KEY := None; AI_TIMEOUT := Some "60s" |})
  = 60
  /\ node_delay (timeout {| OPENAI_API_KEY := None; AI_TIMEOUT := Some "" |})
     = 60000.
Proof. by vm_compute. Qed.

(** X10. How a rejection of the remote call is reported. A message
    containing 401 becomes the authentication text and gets the key
    line; otherwise one containing 429 becomes the rate-limit text and
    gets the clock line; otherwise one containing quota becomes the quota
    text, for which the [catch] block of [guessImage] has no line of its
    own; any other error is passed on unchanged. *)
Theorem failure_classes_and_log_lines (message : string) :
  let e := rethrown (ErrorObj message) in
  (includes message "401" = true ->
   reason_of e = "API认证失败，请检查API密钥"
   /\ explanation e = [ Log "🔑 API 认证失败，检查 API 密钥配置" ])
  /\ (includes message "401" = false ->
      includes message "429" = true ->
      reason_of e = "API调用频率限制，请稍后重试"
      /\ explanation e = [ Log "⏱️ API 频率限制，请稍后重试" ])
  /\ (includes message "401" = false ->
      includes message "429" = false ->
      includes message "quota" = true ->
      reason_of e = "API配额不足" /\ explanation e = [])
  /\ (includes message "401" = false ->
      includes message "429" = false ->
      includes message "quota" = false ->
      e = ErrorObj message)
  /\ rethrown NonError = NonError
  /\ reason_of NonError = "未知错误"
  /\ explanation NonError = [].
Proof.
  cbv zeta. unfold rethrown.
  split; [|split; [|split; [|split]]].
  - intros ->. by vm_compute.
  - intros -> ->. by vm_compute.
  - intros -> -> ->. by vm_compute.
  - by intros -> -> ->.
  - done.
Qed.

Lemma failure_classes_and_log_lines_witness :
  reason_of (rethrown (ErrorObj "401 Unauthorized, retry after 429"))
  = "API认证失败，请检查API密钥"
  /\ reason_of (rethrown (ErrorObj "You exceeded your current quota"))
     = "API配额不足".
Proof.
  destruct (failure_classes_and_log_lines "401 Unauthorized, retry after 429")
    as (Hauth & _).
  destruct (failure_classes_and_log_lines "You exceeded your current quota")
    as (_ & _ & Hquota & _).
  split.
  - exact (proj1 (Hauth eq_refl)).
  - exact (proj1 (Hquota eq_refl eq_refl eq_refl)).
Defined.

Lemma simulated_time_range (u : Q) :
  (0 <= u)%Q -> (u < 1)%Q ->
  (500 <= 500 + u * 1000)%Q /\ (500 + u * 1000 < 1500)%Q.
Proof.
  intros Hlo Hhi. split.
  - apply Qle_trans with (500 + 0)%Q; [by unfold Qle|].
    apply Qplus_le_r. by apply Qmult_le_0_compat.
  - apply Qlt_le_trans with (500 + 1 * 1000)%Q; [|by unfold Qle].
    apply Qplus_lt_r. by apply Qmult_lt_compat_r.
Qed.

(** X11. With a key set, [processingTime] is the time the call really
    took, which never exceeds the timer delay. Without a key the call
    takes no time and reports a made-up duration of at least 500 and less
    than 1500 ms. *)
Theorem processingTime_is_elapsed_or_simulated
    (svc : AIService) (env : Env) (remote : Remote) (image : string)
    (w : World) :
  draws_in_unit w ->
  exists r w',
    guessImage svc env remote image w = (Value r, w')
    /\ (truthy (OPENAI_API_KEY env) = true ->
        processingTime r = inject_Z (now w' - now w)
        /\ 0 <= now w' - now w <= node_delay (timeout env))
    /\ (truthy (OPENAI_API_KEY env) = false ->
        now w' = now w
        /\ (500 <= processingTime r)%Q /\ (processingTime r < 1500)%Q).
Proof.
  intros Hunit. destruct (Hunit (S (draws w))) as [Hlo Hhi].
  pose proof (BackendFacts.node_delay_pos (timeout env)) as Hpos.
  destruct (truthy (OPENAI_API_KEY env)) eqn:Hkey.
  - destruct (openai svc) eqn:Hclient.
    + destruct remote as [after content|after e|];
        try destruct (Z.lt_ge_cases (Z.of_N after)
                        (node_delay (timeout env))) as [Hlt|Hge];
        eexists _, _;
        (split;
         [first [ by apply BackendFacts.guessImage_answered
                | by apply BackendFacts.guessImage_rejected
                | by apply BackendFacts.guessImage_timed_out ]
         | split; [intros _; simpl; split; [f_equal; lia|lia] | done] ]).
    + eexists _, _.
      split; [by apply BackendFacts.guessImage_without_client|].
      split; [intros _; simpl; split; [f_equal; lia|lia] | done].
  - eexists _, _. split.
    + rewrite BackendFacts.guessImage_without_key by done.
      apply BackendFacts.getIntelligentMockResponse_run.
    + split; [done|]. intros _. simpl. split; [done|].
      by apply simulated_time_range.
Qed.

Lemma processingTime_is_elapsed_or_simulated_witness :
  let env := {| OPENAI_API_KEY := Some "sk-test"; AI_TIMEOUT := None |} in
  draws_in_unit (boot 0 (1 # 2))
  /\ exists r w',
       guessImage (new_AIService env) env (Responds 120 (Some "一只猫"))
         "data:image/png;base64,iVBORw0KGgo=" (boot 0 (1 # 2)) = (Value r, w')
       /\ processingTime r = inject_Z (now w' - 0).
Proof.
  cbv zeta. split; [apply GuessFacts.boot_draws_in_unit|].
  destruct (processingTime_is_elapsed_or_simulated
              (new_AIService
                 {| OPENAI_API_KEY := Some "sk-test"; AI_TIMEOUT := None |})
              {| OPENAI_API_KEY := Some "sk-test"; AI_TIMEOUT := None |}
              (Responds 120 (Some "一只猫"))
              "data:image/png;base64,iVBORw0KGgo=" (boot 0 (1 # 2))
              (GuessFacts.boot_draws_in_unit 0))
    as (r & w' & Hrun & Hkey & _).
  exists r, w'. split; [exact Hrun|]. exact (proj1 (Hkey eq_refl)).
Defined.

Lemma guessImage_sends_at_most_once_witness :
  stripDataUri "iVBORw0KGgo=" = "iVBORw0KGgo="
  /\ stripDataUri "data:image/gif;base64,R0lGODlh"
     = "data:image/gif;base64,R0lGODlh".
Proof.
  split.
  - exact (proj2 (proj2 (proj2 (proj2
      (guessImage_sends_at_most_once
         (new_AIService {| OPENAI_API_KEY := None; AI_TIMEOUT := None |})
         {| OPENAI_API_KEY := None; AI_TIMEOUT := None |} Silent
         "iVBORw0KGgo=" "" (boot 0 (1 # 2))))))
      eq_refl eq_refl eq_refl).
  - exact (proj2 (proj2 (proj2 (proj2
      (guessImage_sends_at_most_once
         (new_AIService {| OPENAI_API_KEY := None; AI_TIMEOUT := None |})
         {| OPENAI_API_KEY := None; AI_TIMEOUT := None |} Silent
         "data:image/gif;base64,R0lGODlh" "" (boot 0 (1 # 2))))))
      eq_refl eq_refl eq_refl).
Defined.

(** X12. [checkServiceHealth] never throws. A service that is not
    initialised answers [false] at once and sends nothing. Otherwise one
    request goes out: a reply is healthy exactly when it lists at least
    one model, a rejection or a reply without a list gives [false] and a
    console line, and, no timer being armed, a silent remote leaves the
    call pending for ever. *)
Theorem checkServiceHealth_outcomes
    (svc : AIService) (remote : ModelList) (w : World) :
  (forall e, (checkServiceHealth svc remote w).1 <> Throws e)
  /\ (isInitialized svc = false \/ openai svc = false ->
      checkServiceHealth svc remote w = (Value false, w))
  /\ (isInitialized svc = true -> openai svc = true ->
      match remote with
      | Listed after (Some n) =>
          checkServiceHealth svc remote w
          = (Value (bool_decide (0 < n)%nat),
             later (Z.of_N after) (posted "/models" w))
      | Listed after None =>
          checkServiceHealth svc remote w
          = (Value false,
             logged [ Err "AI服务健康检查失败:" (ErrorObj "TypeError") ]
               (later (Z.of_N after) (posted "/models" w)))
      | ListFails after e =>
          checkServiceHealth svc remote w
          = (Value false,
             logged [ Err "AI服务健康检查失败:" e ]
               (later (Z.of_N after) (posted "/models" w)))
      | ListSilent =>
          (checkServiceHealth svc remote w).1 = Hangs
      end).
Proof.
  unfold checkServiceHealth.
  destruct (isInitialized svc), (openai svc); simpl;
    (split; [|split]);
    try (intros e; destruct remote as [after [n|]|after e'|]; by js_run);
    try (intros _; by js_run);
    try (intros [?|?]; done);
    try (intros; done).
  intros _ _. destruct remote as [after [n|]|after e'|]; js_run; try done.
  f_equal. f_equal. destruct n; [done|].
  symmetry. apply bool_decide_eq_true. lia.
Qed.

Lemma checkServiceHealth_outcomes_witness :
  let env := {| OPENAI_API_KEY := Some "sk-test"; AI_TIMEOUT := None |} in
  checkServiceHealth (new_AIService env) (Listed 80 (Some 0%nat))
    (boot 0 (1 # 2))
  = (Value false, later 80 (posted "/models" (boot 0 (1 # 2))))
  /\ (checkServiceHealth (new_AIService env) ListSilent (boot 0 (1 # 2))).1
     = Hangs.
Proof.
  cbv zeta. split.
  - exact (proj2 (proj2
      (checkServiceHealth_outcomes
         (new_AIService
            {| OPENAI_API_KEY := Some "sk-test"; AI_TIMEOUT := None |})
         (Listed 80 (Some 0%nat)) (boot 0 (1 # 2)))) eq_refl eq_refl).
  - exact (proj2 (proj2
      (checkServiceHealth_outcomes
         (new_AIService
            {| OPENAI_API_KEY := Some "sk-test"; AI_TIMEOUT := None |})
         ListSilent (boot 0 (1 # 2)))) eq_refl eq_refl).
Defined.

End BackendMoreFacts.

(** ** Error middleware and request validation *)

Module MiddlewareFacts.
Import Js.

Ltac js_run := BackendFacts.js_run.

(** X13. An error made by [createError] comes out of [errorHandler]
    with its own status (500 when none or 0 was given), its code
    ([API_ERROR] when none or an empty one was given), its message and
    its details, in every environment and whatever the message says. In
    particular the error of [notFoundHandler] is answered 404 /
    [NOT_FOUND]. *)
Theorem createError_round_trip
    (NODE_ENV : option string) (message : string) (statusCode : option Z)
    (code : option string) (details : option Json.value)
    (originalUrl : string) (w : World) :
  (ErrorHandler.errorHandler NODE_ENV
     (ErrorHandler.createError message statusCode code details) w).1
  = Value {| ErrorHandler.status :=
               match statusCode with
               | Some 0 | None => 500
               | Some sc => sc
               end;
             ErrorHandler.success := false;
             ErrorHandler.r_code := or_else code "API_ERROR";
             ErrorHandler.r_message := message;
             ErrorHandler.r_details := details |}
  /\ (ErrorHandler.errorHandler NODE_ENV
        (ErrorHandler.notFoundHandler originalUrl) w).1
     = Value {| ErrorHandler.status := 404;
                ErrorHandler.success := false;
                ErrorHandler.r_code := "NOT_FOUND";
                ErrorHandler.r_message :=
                  "路由 " +:+ originalUrl +:+ " 未找到";
                ErrorHandler.r_details := None |}.
Proof.
  split; [|reflexivity].
  unfold ErrorHandler.errorHandler, ErrorHandler.createError. js_run.
  by destruct statusCode as [[| |]|].
Qed.

(** X14. An error without a status code is answered 503 when its
    message mentions OpenAI and 500 otherwise, always with
    [success = false] and one of three fixed messages. Outside the
    development environment the reply never carries the text of the
    error. *)
Theorem plain_errors_do_not_leak
    (NODE_ENV : option string) (error : ErrorHandler.ApiError) (w : World) :
  ErrorHandler.statusCode error = None ->
  exists reply,
    (ErrorHandler.errorHandler NODE_ENV error w).1 = Value reply
    /\ ErrorHandler.success reply = false
    /\ ErrorHandler.status reply
       = (if includes (ErrorHandler.message error) "OpenAI" then 503 else 500)
    /\ ErrorHandler.r_message reply
       ∈ [ "AI服务暂时不可用"; "数据类型错误"; "服务器内部错误" ]
    /\ (ErrorHandler.development NODE_ENV = false ->
        ErrorHandler.r_details reply = None
        \/ ErrorHandler.r_details reply
           = Some (Json.Str "请稍后重试或联系管理员")).
Proof.
  intros Hplain. unfold ErrorHandler.errorHandler. js_run. rewrite Hplain.
  destruct (includes (ErrorHandler.message error) "OpenAI");
    [|destruct (String.eqb (ErrorHandler.name error) "TypeError")];
    eexists; (split; [reflexivity|]); simpl;
    (split; [done|]); (split; [done|]);
    (split; [apply (bool_decide_unpack _); by vm_compute|]); intros ->; auto.
Qed.

Lemma plain_errors_do_not_leak_witness :
  exists reply,
    (ErrorHandler.errorHandler (Some "production")
       {| ErrorHandler.name := "Error";
          ErrorHandler.message := "OpenAI key sk-secret rejected";
          ErrorHandler.statusCode := None;
          ErrorHandler.code := None;
          ErrorHandler.details := None |} (boot 0 (1 # 2))).1 = Value reply
    /\ ErrorHandler.status reply = 503
    /\ ErrorHandler.r_details reply = None.
Proof.
  destruct (plain_errors_do_not_leak (Some "production")
              {| ErrorHandler.name := "Error";
                 ErrorHandler.message := "OpenAI key sk-secret rejected";
                 ErrorHandler.statusCode := None;
                 ErrorHandler.code := None;
                 ErrorHandler.details := None |} (boot 0 (1 # 2)) eq_refl)
    as (reply & Hrun & _ & Hstatus & _ & Hdetails).
  exists reply. split; [exact Hrun|]. split; [exact Hstatus|].
  destruct (Hdetails eq_refl) as [Hnone|Hfixed]; [exact Hnone|].
  vm_compute in Hrun. injection Hrun as <-. discriminate Hfixed.
Defined.

Lemma filter_nil_iff {A} (p : A -> bool) (l : list A) :
  List.filter p l = [] <-> Forall (fun x => p x = false) l.
Proof.
  induction l as [|x l IH]; simpl; [by split; [constructor|]|].
  destruct (p x) eqn:Hp.
  - split; [done|]. intros Hall. apply Forall_cons in Hall as [Hx _].
    congruence.
  - rewrite IH. split; [by constructor|].
    by intros [_ ?]%Forall_cons.
Qed.

(** X15. [validateRequest] lets a request through exactly when every
    required field is a property of the body, and otherwise answers 400
    with the missing fields, in schema order. A schema without
    [body.properties] checks nothing, whatever it requires. Names that
    every object inherits, such as [toString], always count as present. *)
Theorem validateRequest_checks_required
    (schema : Validation.Schema) (reqBody : list (string * Json.value)) :
  (forall b,
     Validation.body schema = Some b ->
     Validation.properties b = true ->
     let requiredFields := default [] (Validation.required b) in
     (Validation.validateRequest schema reqBody = Validation.Next
      <-> Forall (fun f => Json.has f reqBody = true) requiredFields)
     /\ (Validation.validateRequest schema reqBody = Validation.Next
         \/ exists missing,
              Validation.validateRequest schema reqBody
              = Validation.Reject 400 "VALIDATION_ERROR" "缺少必需字段"
                  (Some missing)
              /\ missing <> []
              /\ missing
                 = List.filter (fun f => negb (Json.has f reqBody))
                     requiredFields))
  /\ (Validation.body schema = None ->
      Validation.validateRequest schema reqBody = Validation.Next)
  /\ (forall b,
        Validation.body schema = Some b ->
        Validation.properties b = false ->
        Validation.validateRequest schema reqBody = Validation.Next)
  /\ Forall (fun f => Json.has f reqBody = true) Json.inherited.
Proof.
  split; [|split; [|split]].
  - intros b Hb Hprops requiredFields.
    unfold Validation.validateRequest. rewrite Hb, Hprops.
    fold requiredFields.
    set (missing := List.filter _ requiredFields).
    assert (Hnil : missing = [] <->
                   Forall (fun f => Json.has f reqBody = true) requiredFields).
    { subst missing. rewrite filter_nil_iff.
      apply Forall_proper; [|done]. intros f.
      by destruct (Json.has f reqBody). }
    destruct missing as [|m rest] eqn:Hm; simpl.
    + split; [|by left]. split; [intros _; by apply Hnil|done].
    + split.
      * split; [done|]. intros Hall. by apply Hnil in Hall.
      * right. by eexists.
  - intros Hnone. unfold Validation.validateRequest. by rewrite Hnone.
  - intros b Hb Hprops. unfold Validation.validateRequest.
    by rewrite Hb, Hprops.
  - unfold Json.has. apply Forall_forall. intros f Hf.
    apply orb_true_iff. right. apply existsb_exists. exists f.
    split; [by apply list_elem_of_In|apply String.eqb_refl].
Qed.

Lemma validateRequest_checks_required_witness :
  let schema :=
    {| Validation.body :=
         Some {| Validation.properties := true;
                 Validation.required := Some [ "guessId"; "isCorrect";
                                               "timestamp" ] |} |} in
  Validation.validateRequest schema [ ("isCorrect", Json.Bool true) ]
  = Validation.Reject 400 "VALIDATION_ERROR" "缺少必需字段"
      (Some [ "guessId"; "timestamp" ]).
Proof.
  cbv zeta.
  destruct (validateRequest_checks_required
              {| Validation.body :=
                   Some {| Validation.properties := true;
                           Validation.required :=
                             Some [ "guessId"; "isCorrect"; "timestamp" ] |} |}
              [ ("isCorrect", Json.Bool true) ]) as (Hreq & _).
  destruct (Hreq _ eq_refl eq_refl) as [_ [Hnext|(missing & Hrej & _ & ->)]].
  - discriminate Hnext.
  - exact Hrej.
Defined.

Lemma size_check (len : Z) :
  Qle_bool (inject_Z (len * 3) / 4) (inject_Z (10 * 1024 * 1024))
  = (len <=? 13981013).
Proof.
  unfold Qle_bool, Qdiv, Qmult, Qinv, inject_Z. simpl.
  change (10 * 1024 * 1024 * Z.pos (1 * 4)) with 41943040.
  destruct (Z.leb_spec len 13981013), (Z.leb_spec (len * 3 * 1 * 1) 41943040);
    lia.
Qed.

(** X16. [validateImageData] lets a request through exactly when
    [image] is a string that starts with [data:image/], contains a comma,
    and has at most 13,981,013 characters between that comma and the
    next one (three quarters of which is 10 MB). A data URI without any
    comma is not answered at all: reading the length of the missing part
    throws. *)
Theorem validateImageData_accepts
    (reqBody : list (string * Json.value)) :
  (Validation.validateImageData reqBody = Validation.Next
   <-> exists s base64Data,
         Json.get "image" reqBody = Some (Json.Str s)
         /\ startsWith s "data:image/" = true
         /\ Frontend.after_comma s = Some base64Data
         /\ js_length base64Data <= 13981013)
  /\ (forall s,
        Json.get "image" reqBody = Some (Json.Str s) ->
        startsWith s "data:image/" = true ->
        Frontend.after_comma s = None ->
        Validation.validateImageData reqBody = Validation.ThrowsTypeError)
  /\ (Json.truthy (Json.get "image" reqBody) = false ->
      Validation.validateImageData reqBody
      = Validation.Reject 400 "MISSING_IMAGE" "图像数据不能为空" None).
Proof.
  unfold Validation.validateImageData.
  split; [|split].
  - destruct (Json.get "image" reqBody) as [[|b|n|s|items|fields]|] eqn:Hget;
      cbn -[Qle_bool inject_Z Qdiv js_length startsWith Frontend.after_comma Z.mul].
    1: { split; [done|by intros (? & ? & ? & _)]. }
    1: { destruct b; cbn -[Qle_bool inject_Z Qdiv js_length startsWith Frontend.after_comma Z.mul]; (split; [done|by intros (? & ? & ? & _)]). }
    1: { destruct (Qeq_bool n 0); cbn -[Qle_bool inject_Z Qdiv js_length startsWith Frontend.after_comma Z.mul];
           (split; [done|by intros (? & ? & ? & _)]). }
    2: { split; [done|by intros (? & ? & ? & _)]. }
    2: { split; [done|by intros (? & ? & ? & _)]. }
    2: { split; [done|by intros (? & ? & ? & _)]. }
    destruct s as [|c s]; cbn -[Qle_bool inject_Z Qdiv js_length startsWith Frontend.after_comma Z.mul];
      [split; [done|intros (? & ? & [= <-] & Hp & _); done]|].
    destruct (startsWith (String c s) "data:image/") eqn:Hprefix; cbn -[Qle_bool inject_Z Qdiv js_length startsWith Frontend.after_comma Z.mul].
    + destruct (Frontend.after_comma (String c s)) as [base64Data|] eqn:Hcomma.
      * rewrite size_check.
        destruct (Z.leb_spec (js_length base64Data) 13981013).
        -- split; [intros _; by exists (String c s), base64Data|done].
        -- split; [done|].
           intros (s' & b' & [= <-] & _ & Hc & Hlen).
           rewrite Hcomma in Hc. injection Hc as <-. lia.
      * split; [done|]. intros (s' & b' & [= <-] & _ & Hc & _).
        by rewrite Hcomma in Hc.
    + split; [done|]. intros (s' & b' & [= <-] & Hp & _). congruence.
  - intros s -> Hprefix Hcomma.
    destruct s as [|c s]; [done|]. cbn -[Qle_bool inject_Z Qdiv js_length startsWith Frontend.after_comma Z.mul]. by rewrite Hprefix, Hcomma.
  - by intros ->.
Qed.

Lemma validateImageData_accepts_witness :
  Validation.validateImageData
    [ ("image", Json.Str "data:image/png;base64") ]
  = Validation.ThrowsTypeError.
Proof.
  exact (proj1 (proj2
    (validateImageData_accepts
       [ ("image", Json.Str "data:image/png;base64") ]))
    "data:image/png;base64" eq_refl eq_refl eq_refl).
Defined.

(** X17. [validateFeedback] lets a request through exactly when
    [isCorrect] is a boolean, [guess] is a string with something left
    after trimming, and, for a wrong guess, [actualAnswer] is a string;
    an empty [actualAnswer] is enough. *)
Theorem validateFeedback_accepts
    (reqBody : list (string * Json.value)) :
  Validation.validateFeedback reqBody = Validation.Next
  <-> exists isCorrect guess,
        Json.get "isCorrect" reqBody = Some (Json.Bool isCorrect)
        /\ Json.get "guess" reqBody = Some (Json.Str guess)
        /\ js_length (trim guess) <> 0
        /\ (isCorrect = true
            \/ exists actualAnswer,
                 Json.get "actualAnswer" reqBody
                 = Some (Json.Str actualAnswer)).
Proof.
  unfold Validation.validateFeedback.
  destruct (Json.get "isCorrect" reqBody) as [[|b|n|s|items|fields]|];
    try (split; [done|by intros (? & ? & ? & _)]).
  destruct (Json.get "guess" reqBody) as [[|b'|n|g|items|fields]|];
    try (split; [done|by intros (? & ? & _ & ? & _)]).
  destruct (Z.eqb_spec (js_length (trim g)) 0) as [Hz|Hnz].
  { split; [done|]. intros (? & g' & _ & [= <-] & Hne & _). done. }
  destruct b.
  - split; [|done]. intros _. exists true, g. repeat split; auto.
  - destruct (Json.get "actualAnswer" reqBody) as [[|b'|n|a|items|fields]|];
      try (split; [done|];
           intros (ic & g' & [= <-] & _ & _ & [?|(a' & ?)]); done).
    split; [|done]. intros _. exists false, g. repeat split; eauto.
Qed.

Lemma validateFeedback_accepts_witness :
  Validation.validateFeedback
    [ ("guess", Json.Str "cat"); ("isCorrect", Json.Bool false);
      ("actualAnswer", Json.Str "") ]
  = Validation.Next.
Proof.
  apply (proj2
    (validateFeedback_accepts
       [ ("guess", Json.Str "cat"); ("isCorrect", Json.Bool false);
         ("actualAnswer", Json.Str "") ])).
  exists false, "cat". split; [reflexivity|]. split; [reflexivity|].
  split; [by vm_compute|]. right. by exists "".
Defined.

End MiddlewareFacts.

(** ** Response cache *)

Module CacheFacts.
Import Cache.

(** X18. What was stored under a key is read back unchanged until its
    time to live has passed, the last valid instant being the expiry
    itself; later the read gives nothing and forgets the key. Storing
    under one key does not change what is read under another. *)
Theorem cache_set_then_get
    (key other : string) (d : Json.value) (ttl : option Z) (now t : Z)
    (c : store) :
  let life := default defaultTTL ttl in
  (t <= now + life ->
   get key t (set key d ttl now c) = (Some d, set key d ttl now c))
  /\ (now + life < t ->
      get key t (set key d ttl now c) = (None, delete key c))
  /\ (other <> key ->
      (get other t (set key d ttl now c)).1 = (get other t c).1).
Proof.
  cbv zeta. unfold get, set. split; [|split].
  - intros Hlive. rewrite lookup_insert_eq. simpl.
    by destruct (Z.ltb_spec (now + default defaultTTL ttl) t); [lia|].
  - intros Hdead. rewrite lookup_insert_eq. simpl.
    destruct (Z.ltb_spec (now + default defaultTTL ttl) t); [|lia].
    by rewrite delete_insert_eq.
  - intros Hne. rewrite lookup_insert_ne by done.
    destruct (c !! other); [|done]. by destruct (_ <? _).
Qed.

Lemma cache_set_then_get_witness :
  get "GET-/api/health" 30000
    (set "GET-/api/health" (Json.Str "healthy") (Some 30000) 0 ∅)
  = (Some (Json.Str "healthy"),
     set "GET-/api/health" (Json.Str "healthy") (Some 30000) 0 ∅)
  /\ get "GET-/api/health" 30001
       (set "GET-/api/health" (Json.Str "healthy") (Some 30000) 0 ∅)
     = (None, delete "GET-/api/health" ∅).
Proof.
  destruct (cache_set_then_get "GET-/api/health" "" (Json.Str "healthy")
              (Some 30000) 0 30000 ∅) as (Hlive & _).
  destruct (cache_set_then_get "GET-/api/health" "" (Json.Str "healthy")
              (Some 30000) 0 30001 ∅) as (_ & Hdead & _).
  split; [apply Hlive; simpl; lia | apply Hdead; simpl; lia].
Defined.

(** X19. A read never returns expired data: what [get] returns is the
    data of an entry that is stored under the key and has not expired,
    and the cache is left alone; when [get] returns nothing the key is
    not in the cache afterwards, and no other key is touched. *)
Theorem cache_get_is_never_stale
    (key : string) (now : Z) (c : store) :
  match get key now c with
  | (Some d, c') =>
      c' = c
      /\ exists entry,
           c !! key = Some entry /\ data entry = d /\ now <= expiry entry
  | (None, c') =>
      c' !! key = None
      /\ (forall other, other <> key -> c' !! other = c !! other)
  end.
Proof.
  unfold get. destruct (c !! key) as [entry|] eqn:Hkey.
  - destruct (Z.ltb_spec (expiry entry) now).
    + split; [apply lookup_delete_eq|].
      intros other Hne. by apply lookup_delete_ne.
    + split; [done|]. exists entry. split; [done|]. split; [done|lia].
  - by split.
Qed.

Lemma cleanup_lookup (key : string) (now : Z) (c : store) entry :
  cleanup now c !! key = Some entry
  <-> c !! key = Some entry /\ now <= expiry entry.
Proof.
  unfold cleanup. rewrite map_lookup_filter_Some. simpl.
  split; intros [? ?]; (split; [done|lia]).
Qed.

(** X20. [cleanup] drops exactly the expired entries: every entry it
    keeps was there and is still valid, every valid entry is kept, and a
    read at that moment or later gives the same answer with or without
    the cleanup. *)
Theorem cache_cleanup_is_invisible
    (key : string) (now t : Z) (c : store) :
  (forall entry,
     cleanup now c !! key = Some entry
     <-> c !! key = Some entry /\ now <= expiry entry)
  /\ (now <= t -> (get key t (cleanup now c)).1 = (get key t c).1)
  /\ (size (cleanup now c) <= size c)%nat.
Proof.
  split; [apply cleanup_lookup|]. split.
  - intros Hlater. unfold get.
    destruct (cleanup now c !! key) as [entry|] eqn:Hclean.
    + apply cleanup_lookup in Hclean as [-> _]. by destruct (_ <? _).
    + destruct (c !! key) as [entry|] eqn:Hkey; [|done].
      destruct (Z.ltb_spec (expiry entry) t); [done|].
      assert (cleanup now c !! key = Some entry) as Hin
        by (apply cleanup_lookup; split; [done|lia]).
      congruence.
  - unfold cleanup. apply map_size_filter.
Qed.

Lemma cache_cleanup_is_invisible_witness :
  (get "k" 10 (cleanup 5 (set "k" Json.Null (Some 20) 0 ∅))).1
  = (get "k" 10 (set "k" Json.Null (Some 20) 0 ∅)).1.
Proof.
  destruct (cache_cleanup_is_invisible "k" 5 10
              (set "k" Json.Null (Some 20) 0 ∅)) as (_ & Hget & _).
  apply Hget. lia.
Defined.

Lemma get_keeps_or_drops (key k : string) (now : Z) (c : store) entry :
  (get key now c).2 !! k = Some entry -> c !! k = Some entry.
Proof.
  unfold get. destruct (c !! key) as [e|] eqn:Hkey; [|done].
  destruct (_ <? _); [|done]. simpl.
  intros Hk. apply lookup_delete_Some in Hk. by destruct Hk.
Qed.

(** X21. The middleware only ever adds to the cache the body of a
    [GET] request that was answered with status 200, under the key of
    that request and with the configured time to live; requests with
    another method leave the cache as it is and are passed on. *)
Theorem cacheMiddleware_only_stores_ok_gets
    (ttl : option Z) (req : Request) (downstream : Handling)
    (now finished : Z) (c : store) :
  (forall k entry,
     (cacheMiddleware ttl req downstream now finished c).2 !! k = Some entry ->
     c !! k = Some entry
     \/ (method req = "GET"
         /\ k = method req +:+ "-" +:+ originalUrl req
         /\ downstream = SendsJson 200 (data entry)
         /\ expiry entry = finished + default defaultTTL ttl))
  /\ (method req <> "GET" ->
      cacheMiddleware ttl req downstream now finished c
      = (match downstream with
         | SendsJson statusCode d => Answer statusCode d None
         | SendsOtherwise => Otherwise
         end, c)).
Proof.
  unfold cacheMiddleware.
  destruct (String.eqb_spec (method req) "GET") as [Hget|Hother];
    cbn -[Json.truthy get set String.app].
  - split; [|done]. intros k entry.
    set (key := method req +:+ "-" +:+ originalUrl req).
    destruct (get key now c) as [cached c1] eqn:Hread.
    assert (Hc1 : forall e, c1 !! k = Some e -> c !! k = Some e).
    { intros e He. apply (get_keeps_or_drops key k now). by rewrite Hread. }
    assert (Hmiss : forall served c',
              match downstream with
              | SendsJson statusCode d =>
                  if statusCode =? 200
                  then (Answer statusCode d (Some "MISS"),
                        set key d (Some (default defaultTTL ttl)) finished c1)
                  else (Answer statusCode d None, c1)
              | SendsOtherwise => (Otherwise, c1)
              end = (served, c') ->
              c' !! k = Some entry ->
              c !! k = Some entry
              \/ (method req = "GET" /\ k = key
                  /\ downstream = SendsJson 200 (data entry)
                  /\ expiry entry = finished + default defaultTTL ttl)).
    { intros served c' Hrun Hk.
      destruct downstream as [statusCode d|]; [|injection Hrun as _ <-; auto].
      destruct (Z.eqb_spec statusCode 200) as [->|_];
        [|injection Hrun as _ <-; auto].
      injection Hrun as _ <-. unfold set in Hk.
      destruct (decide (k = key)) as [->|Hne].
      - rewrite lookup_insert_eq in Hk. injection Hk as <-. right. by simpl.
      - rewrite lookup_insert_ne in Hk by done. auto. }
    destruct cached as [d|].
    + destruct (Json.truthy (Some d)); [simpl; auto|].
      destruct (match downstream with
                | SendsJson _ _ => _ | SendsOtherwise => _ end)
        as [served c'] eqn:Hrun.
      by apply (Hmiss served).
    + destruct (match downstream with
                | SendsJson _ _ => _ | SendsOtherwise => _ end)
        as [served c'] eqn:Hrun.
      by apply (Hmiss served).
  - split; [|done]. intros k entry Hk. by left.
Qed.

Lemma cacheMiddleware_only_stores_ok_gets_witness :
  cacheMiddleware None {| method := "POST"; originalUrl := "/api/ai-guess" |}
    (SendsJson 200 (Json.Bool true)) 0 5 ∅
  = (Answer 200 (Json.Bool true) None, ∅).
Proof.
  exact (proj2
    (cacheMiddleware_only_stores_ok_gets None
       {| method := "POST"; originalUrl := "/api/ai-guess" |}
       (SendsJson 200 (Json.Bool true)) 0 5 ∅)
    ltac:(discriminate)).
Defined.

(** X22. Once a [GET] has been answered 200 with a truthy body and
    stored, the same request is answered from the cache, without asking
    the handlers, for as long as the entry lives; afterwards the handlers
    are asked again. A falsy body (such as [false], [0] or the empty
    string) is stored but never served. *)
Theorem cacheMiddleware_serves_stored_answer
    (ttl : option Z) (req : Request) (d : Json.value)
    (again : Handling) (now finished t t' : Z) (c : store) :
  method req = "GET" ->
  let first := cacheMiddleware ttl req (SendsJson 200 d) now finished c in
  let second := cacheMiddleware ttl req again t t' first.2 in
  first.1 = Answer 200 d (Some "MISS") ->
  (Json.truthy (Some d) = true ->
   t <= finished + default defaultTTL ttl ->
   second = (Answer 200 d (Some "HIT"), first.2))
  /\ (Json.truthy (Some d) = false \/ finished + default defaultTTL ttl < t ->
      second.1 = match again with
                 | SendsJson statusCode d' =>
                     Answer statusCode d'
                       (if statusCode =? 200 then Some "MISS" else None)
                 | SendsOtherwise => Otherwise
                 end).
Proof.
  intros Hget. destruct req as [m url]. simpl in Hget. subst m.
  intros first second Hmiss.
  set (key := "GET" +:+ "-" +:+ url).
  assert (Hfirst : first.2
                   = set key d (Some (default defaultTTL ttl)) finished
                       (get key now c).2).
  { subst first. revert Hmiss. unfold cacheMiddleware.
    cbn -[Json.truthy get set String.app]. fold key.
    destruct (get key now c) as [[d0|] c1]; [|done].
    by destruct (Json.truthy (Some d0)). }
  assert (Hread : first.2 !! key
                  = Some {| data := d; timestamp := finished;
                            expiry := finished + default defaultTTL ttl |}).
  { rewrite Hfirst. unfold set. by rewrite lookup_insert_eq. }
  assert (Hpass : forall c1,
            (match again with
             | SendsJson statusCode d' =>
                 if statusCode =? 200
                 then (Answer statusCode d' (Some "MISS"),
                       set key d' (Some (default defaultTTL ttl)) t' c1)
                 else (Answer statusCode d' None, c1)
             | SendsOtherwise => (Otherwise, c1)
             end).1
            = match again with
              | SendsJson statusCode d' =>
                  Answer statusCode d'
                    (if statusCode =? 200 then Some "MISS" else None)
              | SendsOtherwise => Otherwise
              end).
  { intros c1. destruct again as [statusCode d'|]; [|done].
    by destruct (statusCode =? 200). }
  subst second. clearbody first. unfold cacheMiddleware.
  cbn -[Json.truthy get set String.app]. fold key.
  unfold get. rewrite Hread. cbn -[Json.truthy set String.app].
  split.
  - intros Htruthy Hlive.
    destruct (Z.ltb_spec (finished + default defaultTTL ttl) t); [lia|].
    by rewrite Htruthy.
  - intros [Hfalsy|Hdead].
    + destruct (Z.ltb_spec (finished + default defaultTTL ttl) t);
        [apply Hpass|].
      rewrite Hfalsy. apply Hpass.
    + destruct (Z.ltb_spec (finished + default defaultTTL ttl) t); [|lia].
      apply Hpass.
Qed.

Lemma cacheMiddleware_serves_stored_answer_witness :
  let req := {| method := "GET"; originalUrl := "/api/health" |} in
  let first := cacheMiddleware (Some 30000) req
                 (SendsJson 200 (Json.Str "healthy")) 0 3 ∅ in
  method req = "GET"
  /\ first.1 = Answer 200 (Json.Str "healthy") (Some "MISS")
  /\ cacheMiddleware (Some 30000) req SendsOtherwise 30003 30004 first.2
     = (Answer 200 (Json.Str "healthy") (Some "HIT"), first.2).
Proof.
  cbv zeta. split; [reflexivity|].
  assert (Hmiss : (cacheMiddleware (Some 30000)
                     {| method := "GET"; originalUrl := "/api/health" |}
                     (SendsJson 200 (Json.Str "healthy")) 0 3 ∅).1
                  = Answer 200 (Json.Str "healthy") (Some "MISS"))
    by reflexivity.
  split; [exact Hmiss|].
  apply (cacheMiddleware_serves_stored_answer (Some 30000)
           {| method := "GET"; originalUrl := "/api/health" |}
           (Json.Str "healthy") SendsOtherwise 0 3 30003 30004 ∅
           eq_refl Hmiss); [reflexivity|simpl; lia].
Defined.

End CacheFacts.

(** ** The guess route and the browser's request *)

Module RoutesFacts.
Import Js.

Ltac js_run := unfold JsMore.await; BackendFacts.js_run.

Lemma find_rev_none {A} (f : A -> bool) (l : list A) :
  List.find f (rev l) = None <-> existsb f l = false.
Proof.
  split.
  - intros Hnone. apply not_true_is_false.
    intros [x [Hin Hf]]%existsb_exists.
    pose proof (find_none f (rev l) Hnone x (proj1 (in_rev l x) Hin)).
    congruence.
  - intros Hnone. destruct (List.find f (rev l)) as [x|] eqn:E; [|done].
    apply find_some in E as [Hin%in_rev Hf].
    assert (existsb f l = true) by (apply existsb_exists; eauto).
    congruence.
Qed.

(** [image] is no inherited name: [in] and the own property agree. *)
Lemma has_image (reqBody : list (string * Json.value)) :
  Json.has "image" reqBody = false <-> Json.get "image" reqBody = None.
Proof.
  unfold Json.has, Json.get.
  replace (existsb (String.eqb "image") Json.inherited) with false
    by reflexivity.
  rewrite orb_false_r, <- find_rev_none.
  by destruct (List.find _ (rev reqBody)).
Qed.

Lemma payload_nonempty (imageData : string) :
  imageData <> "" -> Frontend.payload imageData <> "".
Proof.
  unfold Frontend.payload.
  by destruct (Frontend.after_comma imageData) as [[|c rest]|].
Qed.

(** A non-empty string under [image] goes to the service, and what the
    service returns is answered 200. *)
Lemma postAiGuess_string svc env remote reqBody s w :
  Json.get "image" reqBody = Some (Json.Str s) -> s <> "" ->
  exists data w',
    Backend.guessImage svc env remote s w = (Value data, w')
    /\ Routes.postAiGuess svc env remote reqBody w
       = (Value (Routes.GuessOk data (now w')), w')
    /\ Backend.success data = true.
Proof.
  intros Hget Hne.
  unfold Routes.postAiGuess, Validation.validateRequest. simpl.
  assert (Json.has "image" reqBody = true) as Hhas.
  { apply not_false_iff_true. intros Hnone%has_image. congruence. }
  rewrite Hhas. simpl.
  destruct (GuessFacts.backend_guessImage_total svc env remote s w)
    as (data & w' & Hrun & Hok & _).
  exists data, w'. split; [done|]. split; [|done].
  js_run. rewrite Hget. destruct s as [|c rest]; [done|]. simpl.
  js_run. by rewrite Hrun.
Qed.

(** X23. What [POST /ai-guess] answers. A body without [image] is
    turned away by [validateRequest] with 400 [VALIDATION_ERROR] naming
    the field; a body whose [image] is there but falsy gets 400
    [MISSING_IMAGE]; neither reaches the service or the console. A
    non-empty string is always answered 200 with the service's result and
    [success = true]: the 500 branch is never taken for it. *)
Theorem postAiGuess_status
    (svc : Backend.AIService) (env : Backend.Env) (remote : Backend.Remote)
    (reqBody : list (string * Json.value)) (w : World) :
  (Json.has "image" reqBody = false ->
   Routes.postAiGuess svc env remote reqBody w
   = (Value (Routes.GuessError 400 "VALIDATION_ERROR" "缺少必需字段"
               (Some [ "image" ])), w))
  /\ (Json.has "image" reqBody = true ->
      Json.truthy (Json.get "image" reqBody) = false ->
      Routes.postAiGuess svc env remote reqBody w
      = (Value (Routes.GuessError 400 "MISSING_IMAGE" "图像数据不能为空"
                  None), w))
  /\ (forall s,
        Json.get "image" reqBody = Some (Json.Str s) -> s <> "" ->
        exists data w',
          Backend.guessImage svc env remote s w = (Value data, w')
          /\ Routes.postAiGuess svc env remote reqBody w
             = (Value (Routes.GuessOk data (now w')), w')
          /\ Backend.success data = true).
Proof.
  unfold Routes.postAiGuess, Validation.validateRequest. simpl.
  split; [|split].
  - intros Hhas. by rewrite Hhas.
  - intros Hhas Hfalsy. rewrite Hhas. simpl. js_run. by rewrite Hfalsy.
  - intros s. apply postAiGuess_string.
Qed.

Lemma postAiGuess_status_witness :
  let env := {| Backend.OPENAI_API_KEY := None;
                Backend.AI_TIMEOUT := None |} in
  let svc := Backend.new_AIService env in
  let w := boot 0 (1 # 2) in
  Routes.postAiGuess svc env Backend.Silent [] w
  = (Value (Routes.GuessError 400 "VALIDATION_ERROR" "缺少必需字段"
              (Some [ "image" ])), w)
  /\ Routes.postAiGuess svc env Backend.Silent [ ("image", Json.Str "") ] w
     = (Value (Routes.GuessError 400 "MISSING_IMAGE" "图像数据不能为空"
                 None), w)
  /\ exists data w',
       Backend.guessImage svc env Backend.Silent "iVBORw0KGgo" w
       = (Value data, w')
       /\ Routes.postAiGuess svc env Backend.Silent
            [ ("image", Json.Str "iVBORw0KGgo") ] w
          = (Value (Routes.GuessOk data (now w')), w')
       /\ Backend.success data = true.
Proof.
  cbv zeta. split; [|split].
  - exact (proj1
      (postAiGuess_status
         (Backend.new_AIService
            {| Backend.OPENAI_API_KEY := None;
               Backend.AI_TIMEOUT := None |})
         {| Backend.OPENAI_API_KEY := None; Backend.AI_TIMEOUT := None |}
         Backend.Silent [] (boot 0 (1 # 2))) eq_refl).
  - exact (proj1 (proj2
      (postAiGuess_status
         (Backend.new_AIService
            {| Backend.OPENAI_API_KEY := None;
               Backend.AI_TIMEOUT := None |})
         {| Backend.OPENAI_API_KEY := None; Backend.AI_TIMEOUT := None |}
         Backend.Silent [ ("image", Json.Str "") ] (boot 0 (1 # 2))))
      eq_refl eq_refl).
  - exact (proj2 (proj2
      (postAiGuess_status
         (Backend.new_AIService
            {| Backend.OPENAI_API_KEY := None;
               Backend.AI_TIMEOUT := None |})
         {| Backend.OPENAI_API_KEY := None; Backend.AI_TIMEOUT := None |}
         Backend.Silent [ ("image", Json.Str "iVBORw0KGgo") ]
         (boot 0 (1 # 2))))
      "iVBORw0KGgo" eq_refl (fun H => eq_ind "iVBORw0KGgo"%string
        (fun s => match s with EmptyString => False | _ => True end)
        I "" H)).
Defined.

(** X24. A guess requested by the browser, end to end. For every
    non-empty image the body the browser posts passes both checks of the
    route, so the server answers 200; when that answer is back before the
    browser's timer, the player gets the server's guess, confidence and
    suggestions with [success = true]. The processing time shown is the
    round trip the browser measured, not the figure the server put in
    its answer. *)
Theorem browser_guess_round_trip
    (bsvc : Backend.AIService) (env : Backend.Env) (remote : Backend.Remote)
    (fsvc : Frontend.AIService) (imageData mimeType statusText : string)
    (after : N) (server browser : World) :
  Frontend.isOnlineMode fsvc = true ->
  imageData <> "" ->
  Z.of_N after < browser_delay (Frontend.timeout (Frontend.config fsvc)) ->
  exists data t server',
    Routes.postAiGuess bsvc env remote (Routes.guessBody imageData) server
    = (Value (Routes.GuessOk data t), server')
    /\ Frontend.guessImage fsvc
         (Routes.as_fetch after statusText (Routes.GuessOk data t))
         imageData mimeType browser
       = (Value {| Backend.guess := Backend.guess data;
                   Backend.confidence := Backend.confidence data;
                   Backend.processingTime := inject_Z (Z.of_N after);
                   Backend.suggestions :=
                     Some (default [] (Backend.suggestions data));
                   Backend.success := true;
                   Backend.error := None |},
          later (Z.of_N after)
            (posted (Frontend.payload imageData) browser)).
Proof.
  intros Hon Hne Hlt.
  destruct (postAiGuess_string bsvc env remote (Routes.guessBody imageData)
              (Frontend.payload imageData) server eq_refl
              (payload_nonempty imageData Hne))
    as (data & server' & _ & Hroute & _).
  exists data, (now server'), server'. split; [done|].
  unfold Routes.as_fetch.
  rewrite (FrontendFacts.guessImage_replied fsvc after 200 statusText _ None
             imageData mimeType browser Hon Hlt).
  cbn [Frontend.sr_guess Frontend.sr_confidence Frontend.sr_suggestions].
  by replace (now browser + Z.of_N after - now browser) with (Z.of_N after)
    by lia.
Qed.

Lemma browser_guess_round_trip_witness :
  let env := {| Backend.OPENAI_API_KEY := None;
                Backend.AI_TIMEOUT := None |} in
  let fsvc := Frontend.setOnlineMode true
                (Frontend.new_AIService
                   {| Frontend.apiUrl := "http://localhost:3003";
                      Frontend.timeout := Some 30000;
                      Frontend.model := None |}) in
  exists data t server',
    Routes.postAiGuess (Backend.new_AIService env) env Backend.Silent
      (Routes.guessBody "data:image/png;base64,iVBORw0KGgo")
      (boot 0 (1 # 2))
    = (Value (Routes.GuessOk data t), server')
    /\ (Frontend.guessImage fsvc
          (Routes.as_fetch 120 "OK" (Routes.GuessOk data t))
          "data:image/png;base64,iVBORw0KGgo" "image/png"
          (boot 0 (1 # 2))).1
       = Value {| Backend.guess := Backend.guess data;
                  Backend.confidence := Backend.confidence data;
                  Backend.processingTime := inject_Z 120;
                  Backend.suggestions :=
                    Some (default [] (Backend.suggestions data));
                  Backend.success := true;
                  Backend.error := None |}.
Proof.
  cbv zeta.
  destruct (browser_guess_round_trip
              (Backend.new_AIService
                 {| Backend.OPENAI_API_KEY := None;
                    Backend.AI_TIMEOUT := None |})
              {| Backend.OPENAI_API_KEY := None;
                 Backend.AI_TIMEOUT := None |}
              Backend.Silent
              (Frontend.setOnlineMode true
                 (Frontend.new_AIService
                    {| Frontend.apiUrl := "http://localhost:3003";
                       Frontend.timeout := Some 30000;
                       Frontend.model := None |}))
              "data:image/png;base64,iVBORw0KGgo" "image/png" "OK" 120
              (boot 0 (1 # 2)) (boot 0 (1 # 2)) eq_refl
              (fun H => eq_ind "data:image/png;base64,iVBORw0KGgo"%string
                 (fun s => match s with EmptyString => False | _ => True end)
                 I "" H)
              eq_refl)
    as (data & t & server' & Hroute & Hshown).
  exists data, t, server'. split; [exact Hroute|].
  exact (f_equal fst Hshown).
Defined.

End RoutesFacts.

(** ** Browser-side service: models, feedback, health *)

Module FrontendOpsFacts.
Import Js Frontend FrontendOps.

Ltac js_run := unfold JsMore.await; BackendFacts.js_run.

(** X25. The model list is read from the top level of the reply. Online,
    a reply that is an object without a truthy [models] of its own gives
    the empty list; the reply of [GET /ai-supported-models] is such an
    object, its list being nested under [data], so the browser reads no
    model from its own server. A reply that is not [ok] gives the single
    mock model and no console line. *)
Theorem supported_models_are_read_at_top_level
    (svc : AIService) (after : N) (w : World) :
  isOnlineMode svc = true ->
  let w' := later (Z.of_N after)
              (posted (apiUrl (config svc) +:+ "/api/ai-supported-models")
                 w) in
  (forall fields,
     Json.truthy (Json.get "models" fields) = false ->
     getSupportedModels svc (NetArrives after true (Some (Json.Obj fields)))
       w
     = (Value (Json.Arr []), w'))
  /\ getSupportedModels svc
       (NetArrives after true (Some Routes.supportedModelsReply)) w
     = (Value (Json.Arr []), w')
  /\ (forall json,
        getSupportedModels svc (NetArrives after false json) w
        = (Value (Json.Arr [ Json.Str "mock-gpt-4-vision" ]), w')).
Proof.
  intros Hon w'.
  assert (forall fields,
            Json.truthy (Json.get "models" fields) = false ->
            getSupportedModels svc
              (NetArrives after true (Some (Json.Obj fields))) w
            = (Value (Json.Arr []), w')) as Hgeneral.
  { intros fields Hfalsy. unfold getSupportedModels. rewrite Hon. js_run.
    by rewrite Hfalsy. }
  split; [done|]. split.
  - by apply Hgeneral.
  - intros json. unfold getSupportedModels. rewrite Hon. by js_run.
Qed.

Lemma supported_models_are_read_at_top_level_witness :
  let svc := setOnlineMode true
               (new_AIService {| apiUrl := "http://localhost:3003";
                                 timeout := None; model := None |}) in
  (getSupportedModels svc
     (NetArrives 40 true (Some Routes.supportedModelsReply))
     (boot 0 (1 # 2))).1
  = Value (Json.Arr []).
Proof.
  cbv zeta.
  exact (f_equal fst (proj1 (proj2
    (supported_models_are_read_at_top_level
       (setOnlineMode true
          (new_AIService {| apiUrl := "http://localhost:3003";
                            timeout := None; model := None |}))
       40 (boot 0 (1 # 2)) eq_refl)))).
Defined.

(** X26. [submitFeedback] never throws. Offline it answers [true] with
    one console line and sends nothing. Online it sends one request and
    answers the [ok] flag of the response, whatever the body; a failed
    request gives [false] and a console line; no timer being armed, a
    request that is never answered leaves the call pending for ever. *)
Theorem submitFeedback_outcomes
    (svc : AIService) (net : Net) (guessId : string) (isCorrect : bool)
    (feedback : option string) (w : World) :
  (forall e,
     (submitFeedback svc net guessId isCorrect feedback w).1 <> Throws e)
  /\ (isOnlineMode svc = false ->
      submitFeedback svc net guessId isCorrect feedback w
      = (Value true, logged [ Log "离线模式：反馈" ] w))
  /\ (isOnlineMode svc = true ->
      let w' := posted (apiUrl (config svc) +:+ "/api/ai-feedback") w in
      match net with
      | NetArrives after ok _ =>
          submitFeedback svc net guessId isCorrect feedback w
          = (Value ok, later (Z.of_N after) w')
      | NetBreaks after e =>
          submitFeedback svc net guessId isCorrect feedback w
          = (Value false,
             logged [ Err "提交反馈失败:" e ] (later (Z.of_N after) w'))
      | NetUnanswered =>
          (submitFeedback svc net guessId isCorrect feedback w).1 = Hangs
      end).
Proof.
  unfold submitFeedback.
  destruct (isOnlineMode svc); simpl; (split; [|split]); try done.
  - intros e. by destruct net as [after ok json|after e'|]; js_run.
  - intros _. by destruct net as [after ok json|after e'|]; js_run.
Qed.

Lemma submitFeedback_outcomes_witness :
  let svc := new_AIService {| apiUrl := "http://localhost:3003";
                              timeout := None; model := None |} in
  submitFeedback svc NetUnanswered "guess_1" false None (boot 0 (1 # 2))
  = (Value true, logged [ Log "离线模式：反馈" ] (boot 0 (1 # 2)))
  /\ (submitFeedback (setOnlineMode true svc) NetUnanswered "guess_1" false
        None (boot 0 (1 # 2))).1
     = Hangs.
Proof.
  cbv zeta. split.
  - exact (proj1 (proj2
      (submitFeedback_outcomes
         (new_AIService {| apiUrl := "http://localhost:3003";
                           timeout := None; model := None |})
         NetUnanswered "guess_1" false None (boot 0 (1 # 2)))) eq_refl).
  - exact (proj2 (proj2
      (submitFeedback_outcomes
         (setOnlineMode true
            (new_AIService {| apiUrl := "http://localhost:3003";
                              timeout := None; model := None |}))
         NetUnanswered "guess_1" false None (boot 0 (1 # 2)))) eq_refl).
Defined.

(** X27. The body [submitFeedback] posts has the three fields the
    feedback route requires, also for a wrong guess ([isCorrect] false is
    still a field), so [validateRequest] lets it through. The same body
    has no [guess] field, so [validateFeedback] turns it away. *)
Theorem feedback_body_against_both_validators
    (guessId : string) (isCorrect : bool) (feedback : option string)
    (now : Z) :
  Validation.validateRequest Routes.feedbackSchema
    (Routes.feedbackBody guessId isCorrect feedback now)
  = Validation.Next
  /\ Validation.validateFeedback
       (Routes.feedbackBody guessId isCorrect feedback now)
     = Validation.Reject 400 "VALIDATION_ERROR" "guess字段必须为非空字符串"
         None.
Proof. by destruct feedback. Qed.

(** X28. The health check of the browser always comes back with an
    answer, within the configured timeout and without throwing. Offline
    nothing is sent and no time passes. The answer is [true] exactly when
    the service is online and a response with [ok] set arrives before the
    timer. *)
Theorem checkHealth_always_answers
    (svc : AIService) (net : Net) (w : World) :
  exists healthy w',
    checkHealth svc net w = (Value healthy, w')
    /\ now w <= now w' <= now w + browser_delay (timeout (config svc))
    /\ (isOnlineMode svc = false -> w' = w)
    /\ (healthy = true
        <-> isOnlineMode svc = true
            /\ exists after json,
                 net = NetArrives after true json
                 /\ Z.of_N after < browser_delay (timeout (config svc))).
Proof.
  pose proof (FrontendFacts.browser_delay_nonneg (timeout (config svc)))
    as Hdelay.
  unfold checkHealth. destruct (isOnlineMode svc); simpl.
  2: { exists false, w. split; [done|]. split; [lia|]. split; [done|].
       split; [done|]. by intros [? _]. }
  destruct net as [after ok json|after e|]; js_run.
  - destruct (Z.ltb_spec (Z.of_N after)
                (browser_delay (timeout (config svc)))) as [Hlt|Hge];
      js_run.
    + eexists _, _. split; [done|]. simpl.
      split; [lia|]. split; [done|]. split.
      * intros ->. split; [done|]. by exists after, json.
      * by intros [_ (after' & json' & [= _ -> _] & _)].
    + eexists _, _. split; [done|]. simpl.
      split; [lia|]. split; [done|]. split; [done|].
      intros [_ (after' & json' & [= -> _ _] & Hlt)]. lia.
  - destruct (Z.ltb_spec (Z.of_N after)
                (browser_delay (timeout (config svc)))) as [Hlt|Hge];
      js_run;
      (eexists _, _; split; [done|]; simpl;
       split; [lia|]; split; [done|]; split; [done|];
       by intros [_ (after' & json' & ? & _)]).
  - eexists _, _. split; [done|]. simpl.
    split; [lia|]. split; [done|]. split; [done|].
    by intros [_ (after' & json' & ? & _)].
Qed.

Lemma checkHealth_always_answers_witness :
  exists healthy w',
    checkHealth
      (setOnlineMode true
         (new_AIService {| apiUrl := "http://localhost:3003";
                           timeout := None; model := None |}))
      NetUnanswered (boot 0 (1 # 2))
    = (Value healthy, w')
    /\ now w' <= 30000.
Proof.
  destruct (checkHealth_always_answers
              (setOnlineMode true
                 (new_AIService {| apiUrl := "http://localhost:3003";
                                   timeout := None; model := None |}))
              NetUnanswered (boot 0 (1 # 2)))
    as (healthy & w' & Hrun & [_ Hle] & _).
  exists healthy, w'. split; [exact Hrun|exact Hle].
Defined.

End FrontendOpsFacts.

(** ** The mode shown by the page *)

Module HookFacts.
Import Js Hook.

Ltac js_run := unfold JsMore.await; BackendFacts.js_run.

(** X29. The mode button does not toggle. It asks for offline mode
    exactly when the page already shows offline: after a click the page
    shows what it showed before, and the service is set to that same
    mode. One click or many make no difference. *)
Theorem mode_button_never_toggles (m : Mode) :
  isOnline (clickModeButton m) = isOnline m
  /\ Frontend.isOnlineMode (service (clickModeButton m)) = isOnline m
  /\ clickModeButton (clickModeButton m) = clickModeButton m.
Proof.
  unfold clickModeButton, setOfflineMode, Frontend.setOnlineMode. simpl.
  by rewrite !negb_involutive.
Qed.

(** Offline, a health check answers [false] at once. *)
Lemma checkHealth_offline net m w :
  Frontend.isOnlineMode (service m) = false ->
  checkHealth net m w
  = (Value {| service := service m; isOnline := false |}, w).
Proof.
  intros Hoff. unfold checkHealth, FrontendOps.checkHealth.
  rewrite Hoff. by js_run.
Qed.

(** X30. Offline is final. Once the service is offline and the page
    shows it, which is where one failed health check followed by one
    click leads, no sequence of clicks and health checks changes the
    mode, whatever the network would answer; nothing is sent, logged or
    waited for. *)
Theorem offline_mode_is_final
    (events : list Event) (m : Mode) (w : World) :
  Frontend.isOnlineMode (service m) = false ->
  isOnline m = false ->
  run events m w = (Value m, w).
Proof.
  intros Hservice Hshown. induction events as [|ev rest IH]; [done|].
  assert (step ev m w = (Value m, w)) as Hstep.
  { destruct ev as [|net]; simpl.
    - destruct m as [[cfg online] shown]. simpl in *. by subst.
    - rewrite checkHealth_offline by done.
      destruct m as [svc shown]. simpl in *. by subst. }
  cbn [run]. unfold mbind, M_bind, Js.bind. by rewrite Hstep.
Qed.

Lemma offline_mode_is_final_witness :
  let m0 := {| service :=
                 Frontend.setOnlineMode true
                   (Frontend.new_AIService
                      {| Frontend.apiUrl := "http://localhost:3003";
                         Frontend.timeout := None;
                         Frontend.model := None |});
               isOnline := true |} in
  exists m w,
    run [ Check FrontendOps.NetUnanswered; Click ] m0 (boot 0 (1 # 2))
    = (Value m, w)
    /\ run [ Click; Check (FrontendOps.NetArrives 5 true None); Click ] m w
       = (Value m, w).
Proof.
  cbv zeta. eexists _, _. split; [reflexivity|].
  apply (offline_mode_is_final
           [ Click; Check (FrontendOps.NetArrives 5 true None); Click ]);
    reflexivity.
Defined.

End HookFacts.
